(** * Object-lifetime tracker: the generator and the code it emits

    [scripts/generators/object_tracker_generator.py] writes the C++ source of
    the object-lifetime validation layer.  This development embeds the
    generator as Rocq functions.  Where the Python appends C++ text to a
    string, the embedding appends the corresponding node of a small syntax
    tree ([cexpr], [stmt]); indentation is layout only and is not kept.  A
    big-step interpreter ([run_stmt]) gives the emitted statements their C++
    meaning over an explicit environment, and records every call into the
    hand-written runtime (CreateObject, ValidateObject, ...) as an [event].
    generateHeader writes declarations only, cut out of the C prototypes of
    the commands; it is embedded on the text itself. *)

From Stdlib Require Import Bool Ascii String List ZArith Lia DecimalString
  DecimalNat.
Import ListNotations.
Open Scope string_scope.
Set Warnings "-register-all,-notation-for-abbreviation".

(** ** Python values used by the generator *)

Module Py.

(** [sub in s] on strings. *)
Fixpoint contains (sub s : string) : bool :=
  if String.prefix sub s then true
  else match s with
       | EmptyString => false
       | String _ s' => contains sub s'
       end.

(** [s[n:]]. *)
Fixpoint slice_from (n : nat) (s : string) : string :=
  match n, s with
  | O, _ => s
  | S n', String _ s' => slice_from n' s'
  | S _, EmptyString => EmptyString
  end.

(** [str(n)] for a non-negative integer. *)
Definition str_nat (n : nat) : string :=
  NilEmpty.string_of_uint (Nat.to_uint n).

(** [str(b).lower()]. *)
Definition str_bool_lower (b : bool) : string :=
  if b then "true" else "false".

(** Truth value of a string: empty is false. *)
Definition truthy_str (s : string) : bool :=
  negb (s =? "").

(** Truth value of a [str | None]. *)
Definition truthy_opt (o : option string) : bool :=
  match o with
  | Some s => truthy_str s
  | None => false
  end.

(** [x in l] for a list of strings. *)
Definition in_list (x : string) (l : list string) : bool :=
  existsb (String.eqb x) l.

(** [any(x in s for x in pats)]. *)
Definition any_in (pats : list string) (s : string) : bool :=
  existsb (fun x => contains x s) pats.

(** A dict with string keys, in insertion order. *)
Definition dict (V : Type) : Type := list (string * V).

(** [d.get(k, None)]. *)
Fixpoint get {V : Type} (d : dict V) (k : string) : option V :=
  match d with
  | [] => None
  | (k', v) :: d' => if k' =? k then Some v else get d' k
  end.

(** [k in d]. *)
Definition has_key {V : Type} (d : dict V) (k : string) : bool :=
  match get d k with
  | Some _ => true
  | None => false
  end.

(** [d.values()]. *)
Definition values {V : Type} (d : dict V) : list V :=
  map snd d.

(** The one-character string holding a double quote. *)
Definition dq : string := String (ascii_of_nat 34) EmptyString.

(** The text of a C string literal: [s] between double quotes. *)
Definition quoted (s : string) : string := dq ++ s ++ dq.

(** Exceptions the generator can raise. [RecursionError] is also what a
    recursive walk returns when its recursion budget is used up. *)
Inductive exn : Type :=
| IndexError
| UnboundLocalError
| RecursionError.

Inductive res (A : Type) : Type :=
| Ok (a : A)
| Raise (e : exn).
Arguments Ok {A} a.
Arguments Raise {A} e.

Definition bind {A B : Type} (r : res A) (k : A -> res B) : res B :=
  match r with
  | Ok a => k a
  | Raise e => Raise e
  end.

(** [l[-k]] for [k >= 1]. *)
Definition from_end {A : Type} (l : list A) (k : nat) : res A :=
  match nth_error (rev l) (pred k) with
  | Some a => Ok a
  | None => Raise IndexError
  end.

(** [l[0]]. *)
Definition first {A : Type} (l : list A) : res A :=
  match l with
  | a :: _ => Ok a
  | [] => Raise IndexError
  end.

End Py.

Import Py.

Notation "x <- e ;; k" := (Py.bind e (fun x => k))
  (at level 61, e at next level, right associativity).

(** ** The API description the generator reads ([generators.vulkan_object])

    The classes are declared outside this file; the records keep the fields
    the generator reads.  [Param] and [Member] are read through the same
    fields, so one record serves both. *)

Module Member.
Record t : Type := mk {
  name : string;
  type : string;
  noAutoValidity : bool;
  length : option string;
  pointer : bool;
  optional : bool;
  optionalPointer : bool
}.

(** [==] of the dataclass: field by field. *)
Definition eqb (a b : t) : bool :=
  (name a =? name b) && (type a =? type b)
  && Bool.eqb (noAutoValidity a) (noAutoValidity b)
  && match length a, length b with
     | Some x, Some y => x =? y
     | None, None => true
     | _, _ => false
     end
  && Bool.eqb (pointer a) (pointer b)
  && Bool.eqb (optional a) (optional b)
  && Bool.eqb (optionalPointer a) (optionalPointer b).
End Member.

Definition Param : Type := Member.t.

Module Struct.
Record t : Type := mk {
  name : string;
  members : list Member.t
}.
End Struct.

Module Command.
Record t : Type := mk {
  name : string;
  alias : option string;
  params : list Param;
  returnType : string
}.
End Command.

Module Handle.
Inductive t : Type :=
| mk (name : string) (dispatchable : bool) (parent : option t).

Definition name (h : t) : string :=
  match h with mk n _ _ => n end.
Definition dispatchable (h : t) : bool :=
  match h with mk _ d _ => d end.
Definition parent (h : t) : option t :=
  match h with mk _ _ p => p end.
End Handle.

Module VulkanObject.
Record t : Type := mk {
  handles : dict Handle.t;
  structs : dict Struct.t;
  commands : dict Command.t
}.
End VulkanObject.

(** ** APISpecific *)

Module APISpecific.

(** The [match] has one case, ['vulkan']; any other target leaves
    [per_scope] unbound.  The scope is always ['instance'] or ['device']. *)
Inductive Scope : Type := instance | device.

Definition getUndestroyedObjectVUID (targetApiName : string) (scope : Scope)
  : res string :=
  if targetApiName =? "vulkan" then
    Ok match scope with
       | instance => "VUID-vkDestroyInstance-instance-00629"
       | device => "VUID-vkDestroyDevice-device-00378"
       end
  else Raise UnboundLocalError.

Definition IsImplicitlyDestroyed (targetApiName : string) (handleType : string)
  : res bool :=
  if targetApiName =? "vulkan" then
    Ok (in_list handleType ["VkDisplayKHR"; "VkDisplayModeKHR"])
  else Raise UnboundLocalError.

(** Falls off the end, returning [None], for a target other than
    ['vulkan']. *)
Definition AreAllocVUIDsEnabled (targetApiName : string) : option bool :=
  if targetApiName =? "vulkan" then Some true else None.

End APISpecific.

(** ** The emitted C++ *)

(** Expressions of the emitted code. *)
Inductive cexpr : Type :=
| ENull                                  (* nullptr *)
| EVar (x : string)                      (* x *)
| EDeref (e : cexpr)                     (* *e *)
| EAddr (e : cexpr)                      (* &e *)
| EIndex (e : cexpr) (index : string)    (* e[index] *)
| EField (e : cexpr) (f : string)        (* e.f *)
| EArrow (e : cexpr) (f : string).       (* e->f *)

(** Result codes named by the emitted code. *)
Inductive ResultCode : Type :=
| VK_SUCCESS
| VK_INCOMPLETE
| VK_ERROR_VALIDATION_FAILED_EXT
| VK_ERROR_INCOMPATIBLE_SHADER_BINARY_EXT.

(** Their values in the Vulkan headers. *)
Definition code_value (c : ResultCode) : Z :=
  match c with
  | VK_SUCCESS => 0
  | VK_INCOMPLETE => 5
  | VK_ERROR_VALIDATION_FAILED_EXT => -1000011001
  | VK_ERROR_INCOMPATIBLE_SHADER_BINARY_EXT => 1000482000
  end%Z.

(** Conditions of the emitted [if]s. *)
Inductive ccond : Type :=
| CTrue (e : cexpr)                      (* (e) *)
| CNot (e : cexpr)                       (* !e *)
| CAnd (a b : ccond)                     (* a && b *)
| CGtZero (e : cexpr)                    (* e > 0 *)
| CFlagSet (e : cexpr)                   (* e & VK_PIPELINE_CREATE_DERIVATIVE_BIT *)
| CEqMinusOne (e : cexpr)                (* e == -1 *)
| CResultIs (c : ResultCode)             (* c == record_obj.result *)
| CResultNot (c : ResultCode).           (* record_obj.result != c *)

(** Calls into the hand-written part of the layer. *)
Inductive ccall : Type :=
| CallValidateObject (handle : cexpr)
    (objtype nullAllowed paramVUID parentVUID location : string)
| CallValidateDestroyObject (handle : cexpr) (objtype : string)
    (allocator : cexpr) (compatallocVUID nullallocVUID : string)
| CallRecordDestroyObject (handle : cexpr) (objtype : string)
| CallCreateObject (dest : cexpr) (objtype : string) (allocator : cexpr)
| CallPostCallRecordEnumeratePhysicalDevices
    (instance pCount pDevices : cexpr) (result : ResultCode)
| CallReportLeakedInstanceObjects (objtype error_code : string)
| CallReportLeakedDeviceObjects (objtype error_code : string)
| CallDestroyUndestroyedObjects (objtype : string).

(** Statements of the emitted code. *)
Inductive stmt : Type :=
| SIf (c : ccond) (body : list stmt)                     (* if (c) { body } *)
| SFor (index : string) (count : cexpr) (body : list stmt)
    (* for (uint32_t index = 0; index < count; ++index) { body } *)
| SReturnIf (c : ccond)                                  (* if (c) return; *)
| SContinueIf (c : ccond)                                (* if (c) continue; *)
| SBreakIf (c : ccond)                                   (* if (c) break; *)
| SLocation (x init : string)                            (* const Location x = init; *)
| SComment (s : stmt)                                    (* // ...: s *)
| SCall (c : ccall).                                     (* [skip |=] c; *)

(** The text before a field name: nothing for a parameter, [e.] or [e->]
    inside an aggregate. *)
Inductive prefix : Type :=
| PTop
| PDot (e : cexpr)
| PArrow (e : cexpr).

(** [{prefix}{f}]. *)
Definition access (p : prefix) (f : string) : cexpr :=
  match p with
  | PTop => EVar f
  | PDot e => EField e f
  | PArrow e => EArrow e f
  end.

(** What generateSource emits for one command; [None] where the generator
    emits no function. *)
Record Intercept : Type := mkIntercept {
  PreCallValidate : option (list stmt);
  PreCallRecord : option (list stmt);
  PostCallRecord : option (list stmt)
}.

(** What generateSource emits. *)
Record Source : Type := mkSource {
  ReportUndestroyedInstanceObjects : list stmt;
  ReportUndestroyedDeviceObjects : list stmt;
  DestroyLeakedInstanceObjects : list stmt;
  DestroyLeakedDeviceObjects : list stmt;
  intercepts : list (string * Intercept)
}.

(** ** ObjectTrackerOutputGenerator *)

(** [for x in l: out += f(x)], stopping at the first exception. *)
Fixpoint concat_mapM {A B : Type} (f : A -> res (list B)) (l : list A)
  : res (list B) :=
  match l with
  | [] => Ok []
  | a :: l' => x <- f a ;; y <- concat_mapM f l' ;; Ok (x ++ y)%list
  end.

Fixpoint mapM {A B : Type} (f : A -> res B) (l : list A) : res (list B) :=
  match l with
  | [] => Ok []
  | a :: l' => x <- f a ;; y <- mapM f l' ;; Ok (x :: y)
  end.

Definition no_autogen_list : list string := [
  "vkDestroyInstance";
  "vkCreateInstance";
  "vkCreateDevice";
  "vkEnumeratePhysicalDevices";
  "vkGetPhysicalDeviceQueueFamilyProperties";
  "vkGetPhysicalDeviceQueueFamilyProperties2";
  "vkGetPhysicalDeviceQueueFamilyProperties2KHR";
  "vkGetDeviceQueue";
  "vkGetDeviceQueue2";
  "vkCreateDescriptorSetLayout";
  "vkDestroyDescriptorPool";
  "vkDestroyCommandPool";
  "vkAllocateCommandBuffers";
  "vkAllocateDescriptorSets";
  "vkFreeDescriptorSets";
  "vkFreeCommandBuffers";
  "vkUpdateDescriptorSets";
  "vkBeginCommandBuffer";
  "vkGetDescriptorSetLayoutSupport";
  "vkGetDescriptorSetLayoutSupportKHR";
  "vkDestroySwapchainKHR";
  "vkGetSwapchainImagesKHR";
  "vkCmdPushDescriptorSetKHR";
  "vkDestroyDevice";
  "vkResetDescriptorPool";
  "vkGetPhysicalDeviceDisplayPropertiesKHR";
  "vkGetPhysicalDeviceDisplayProperties2KHR";
  "vkGetDisplayModePropertiesKHR";
  "vkGetDisplayModeProperties2KHR";
  "vkCreateFramebuffer";
  "vkSetDebugUtilsObjectNameEXT";
  "vkSetDebugUtilsObjectTagEXT";
  "vkCreateDescriptorUpdateTemplate";
  "vkCreateDescriptorUpdateTemplateKHR";
  "vkCmdBuildAccelerationStructuresKHR";
  "vkCmdBuildAccelerationStructuresIndirectKHR";
  "vkBuildAccelerationStructuresKHR";
  "vkCreateRayTracingPipelinesKHR";
  "vkExportMetalObjectsEXT";
  "vkGetDescriptorEXT"
].

Definition manual_vuids : dict string := [
  ("fence-compatalloc", quoted "VUID-vkDestroyFence-fence-01121");
  ("fence-nullalloc", quoted "VUID-vkDestroyFence-fence-01122");
  ("event-compatalloc", quoted "VUID-vkDestroyEvent-event-01146");
  ("event-nullalloc", quoted "VUID-vkDestroyEvent-event-01147");
  ("buffer-compatalloc", quoted "VUID-vkDestroyBuffer-buffer-00923");
  ("buffer-nullalloc", quoted "VUID-vkDestroyBuffer-buffer-00924");
  ("image-compatalloc", quoted "VUID-vkDestroyImage-image-01001");
  ("image-nullalloc", quoted "VUID-vkDestroyImage-image-01002");
  ("shaderModule-compatalloc", quoted "VUID-vkDestroyShaderModule-shaderModule-01092");
  ("shaderModule-nullalloc", quoted "VUID-vkDestroyShaderModule-shaderModule-01093");
  ("pipeline-compatalloc", quoted "VUID-vkDestroyPipeline-pipeline-00766");
  ("pipeline-nullalloc", quoted "VUID-vkDestroyPipeline-pipeline-00767");
  ("sampler-compatalloc", quoted "VUID-vkDestroySampler-sampler-01083");
  ("sampler-nullalloc", quoted "VUID-vkDestroySampler-sampler-01084");
  ("renderPass-compatalloc", quoted "VUID-vkDestroyRenderPass-renderPass-00874");
  ("renderPass-nullalloc", quoted "VUID-vkDestroyRenderPass-renderPass-00875");
  ("descriptorUpdateTemplate-compatalloc", quoted "VUID-vkDestroyDescriptorUpdateTemplate-descriptorSetLayout-00356");
  ("descriptorUpdateTemplate-nullalloc", quoted "VUID-vkDestroyDescriptorUpdateTemplate-descriptorSetLayout-00357");
  ("imageView-compatalloc", quoted "VUID-vkDestroyImageView-imageView-01027");
  ("imageView-nullalloc", quoted "VUID-vkDestroyImageView-imageView-01028");
  ("pipelineCache-compatalloc", quoted "VUID-vkDestroyPipelineCache-pipelineCache-00771");
  ("pipelineCache-nullalloc", quoted "VUID-vkDestroyPipelineCache-pipelineCache-00772");
  ("pipelineLayout-compatalloc", quoted "VUID-vkDestroyPipelineLayout-pipelineLayout-00299");
  ("pipelineLayout-nullalloc", quoted "VUID-vkDestroyPipelineLayout-pipelineLayout-00300");
  ("descriptorSetLayout-compatalloc", quoted "VUID-vkDestroyDescriptorSetLayout-descriptorSetLayout-00284");
  ("descriptorSetLayout-nullalloc", quoted "VUID-vkDestroyDescriptorSetLayout-descriptorSetLayout-00285");
  ("semaphore-compatalloc", quoted "VUID-vkDestroySemaphore-semaphore-01138");
  ("semaphore-nullalloc", quoted "VUID-vkDestroySemaphore-semaphore-01139");
  ("queryPool-compatalloc", quoted "VUID-vkDestroyQueryPool-queryPool-00794");
  ("queryPool-nullalloc", quoted "VUID-vkDestroyQueryPool-queryPool-00795");
  ("bufferView-compatalloc", quoted "VUID-vkDestroyBufferView-bufferView-00937");
  ("bufferView-nullalloc", quoted "VUID-vkDestroyBufferView-bufferView-00938");
  ("surface-compatalloc", quoted "VUID-vkDestroySurfaceKHR-surface-01267");
  ("surface-nullalloc", quoted "VUID-vkDestroySurfaceKHR-surface-01268");
  ("framebuffer-compatalloc", quoted "VUID-vkDestroyFramebuffer-framebuffer-00893");
  ("framebuffer-nullalloc", quoted "VUID-vkDestroyFramebuffer-framebuffer-00894");
  ("VkGraphicsPipelineCreateInfo-basePipelineHandle", quoted "VUID-VkGraphicsPipelineCreateInfo-flags-07984");
  ("VkComputePipelineCreateInfo-basePipelineHandle", quoted "VUID-VkComputePipelineCreateInfo-flags-07984");
  ("VkRayTracingPipelineCreateInfoNV-basePipelineHandle", quoted "VUID-VkRayTracingPipelineCreateInfoNV-flags-07984");
  ("VkRayTracingPipelineCreateInfoKHR-basePipelineHandle", quoted "VUID-VkRayTracingPipelineCreateInfoKHR-flags-07984");
  ("VkVideoSessionKHR-videoSession-compatalloc", quoted "VUID-vkDestroyVideoSessionKHR-videoSession-07193");
  ("VkVideoSessionKHR-videoSession-nullalloc", quoted "VUID-vkDestroyVideoSessionKHR-videoSession-07194");
  ("VkVideoSessionParametersKHR-videoSessionParameters-compatalloc", quoted "VUID-vkDestroyVideoSessionParametersKHR-videoSessionParameters-07213");
  ("VkVideoSessionParametersKHR-videoSessionParameters-nullalloc", quoted "VUID-vkDestroyVideoSessionParametersKHR-videoSessionParameters-07214");
  ("VkAccelerationStructureKHR-accelerationStructure-compatalloc", quoted "VUID-vkDestroyAccelerationStructureKHR-accelerationStructure-02443");
  ("VkAccelerationStructureKHR-accelerationStructure-nullalloc", quoted "VUID-vkDestroyAccelerationStructureKHR-accelerationStructure-02444");
  ("VkAccelerationStructureNV-accelerationStructure-compatalloc", quoted "VUID-vkDestroyAccelerationStructureNV-accelerationStructure-03753");
  ("VkAccelerationStructureNV-accelerationStructure-nullalloc", quoted "VUID-vkDestroyAccelerationStructureNV-accelerationStructure-03754");
  ("shader-compatalloc", quoted "VUID-vkDestroyShaderEXT-pAllocator-08483");
  ("shader-nullalloc", quoted "VUID-vkDestroyShaderEXT-pAllocator-08484")
].

Definition kVUIDUndefined : string := "kVUIDUndefined".

(** [kVulkanObjectType{type[2:]}]. *)
Definition kVulkanObjectType (type : string) : string :=
  "kVulkanObjectType" ++ slice_from 2 type.

Definition parent_exception_list : list string := [
  "VkPhysicalDevice";
  "VkSwapchainKHR";
  "VkDisplayKHR";
  "VkSurfaceKHR";
  "VkDisplayModeKHR";
  "VkDebugReportCallbackEXT";
  "VkDebugUtilsMessengerEXT"
].

(** Work up Handle's parents to see if it VkDevice. *)
Fixpoint isParentDevice (handle : Handle.t) : bool :=
  match handle with
  | Handle.mk _ _ None => false
  | Handle.mk _ _ (Some p) =>
      if Handle.name p =? "VkDevice" then true else isParentDevice p
  end.

(** The three patterns that make a command a pipeline batch creation. *)
Definition isCreatePipelines (name : string) : bool :=
  contains "CreateGraphicsPipelines" name
  || contains "CreateComputePipelines" name
  || contains "CreateRayTracingPipelines" name.

Definition create_patterns : list string := [
  "Create"; "Allocate"; "Enumerate"; "RegisterDeviceEvent";
  "RegisterDisplayEvent"; "AcquirePerformanceConfigurationINTEL"
].

Definition destroy_patterns : list string := [
  "Destroy"; "Free"; "ReleasePerformanceConfigurationINTEL"
].

(** generateFunctionBody, line 516.  [params[-1]] is read only when no
    pattern matched and the name holds ['vkGet']. *)
Definition isCreate (command : Command.t) : res bool :=
  if any_in create_patterns (Command.name command) then Ok true
  else if contains "vkGet" (Command.name command) then
    last <- from_end (Command.params command) 1 ;;
    Ok (Member.pointer last)
  else Ok false.

(** generateFunctionBody, line 517. *)
Definition isDestroy (command : Command.t) : bool :=
  any_in destroy_patterns (Command.name command).

(** generateSource, lines 345-350: the text of [failureCondition]. *)
Definition failureCondition (name : string) : ccond :=
  let c := CResultNot VK_SUCCESS in
  let c := if contains "EnumeratePhysicalDeviceGroups" name
           then CAnd c (CResultNot VK_INCOMPLETE) else c in
  let c := if contains "CreateShadersEXT" name
           then CAnd c (CResultNot VK_ERROR_INCOMPATIBLE_SHADER_BINARY_EXT) else c in
  c.

(** generateFunctionBody, lines 537-538: [{countIsPointer}{length}], where
    [before] is [params[-2]]. *)
Definition countExpr (before : Param) (len : string) : cexpr :=
  if (Member.type before =? "uint32_t") && Member.pointer before
  then EDeref (EVar len) else EVar len.

(** generateFunctionBody, line 546. *)
Definition allocatorExpr (before : Param) : cexpr :=
  if Member.type before =? "VkAllocationCallbacks"
  then EVar (Member.name before) else ENull.

(** generateFunctionBody, lines 529 and 547. *)
Definition objectDest (last : Param) : cexpr :=
  match Member.length last with
  | Some _ => EIndex (EVar (Member.name last)) "index"
  | None => EDeref (EVar (Member.name last))
  end.

(** generateFunctionBody, line 565: the parameter a destroy command
    destroys. *)
Definition handle_param (command : Command.t) : res Param :=
  if contains "ReleasePerformanceConfigurationINTEL" (Command.name command)
  then from_end (Command.params command) 1
  else from_end (Command.params command) 2.

(** The result codes under which [failureCondition] does not hold. *)
Definition accepted (name : string) (result : Z) : bool :=
  (result =? code_value VK_SUCCESS)%Z
  || (contains "EnumeratePhysicalDeviceGroups" name
      && (result =? code_value VK_INCOMPLETE)%Z)
  || (contains "CreateShadersEXT" name
      && (result =? code_value VK_ERROR_INCOMPATIBLE_SHADER_BINARY_EXT)%Z).

Section Generator.

(** [self.targetApiName], [self.vk], [self.valid_vuids]. *)
Variable targetApiName : string.
Variable vk : VulkanObject.t.
Variable valid_vuids : list string.

(** [getVUID] of [generators.generator_utils]. *)
Variable getVUID : list string -> string -> string.

Definition is_handle (type : string) : bool :=
  has_key (VulkanObject.handles vk) type.

(** structContainsObject.  [fuel] bounds the depth of the recursion. *)
Fixpoint structContainsObject (fuel : nat) (struct : Struct.t) : res bool :=
  match fuel with
  | O => Raise RecursionError
  | S fuel' =>
      (fix loop (members : list Member.t) : res bool :=
         match members with
         | [] => Ok false
         | member :: rest =>
             if is_handle (Member.type member) then Ok true
             else
               match get (VulkanObject.structs vk) (Member.type member) with
               | Some sub =>
                   if negb (Member.type member =? Struct.name struct) then
                     b <- structContainsObject fuel' sub ;;
                     if b then Ok true else loop rest
                   else loop rest
               | None => loop rest
               end
         end) (Struct.members struct)
  end.

(** getAllocVUID. *)
Definition getAllocVUID (param : Param) (allocType : string) : string :=
  if negb match APISpecific.AreAllocVUIDsEnabled targetApiName with
          | Some b => b
          | None => false
          end
  then kVUIDUndefined
  else
    let lookup_string := Member.name param ++ "-" ++ allocType in
    match get manual_vuids lookup_string with
    | Some vuid => vuid
    | None =>
        let lookup_string :=
          Member.type param ++ "-" ++ Member.name param ++ "-" ++ allocType in
        match get manual_vuids lookup_string with
        | Some vuid => vuid
        | None => kVUIDUndefined
        end
    end.

(** validateObjects, lines 409-410 and 430-431: the command's alias when
    [parentName] is a command that has one. *)
Definition aliased (parentName : string) : string :=
  let alias :=
    match get (VulkanObject.commands vk) parentName with
    | Some c => Command.alias c
    | None => None
    end in
  match alias with
  | Some a => if truthy_str a then a else parentName
  | None => parentName
  end.

(** validateObjects, lines 401-406. *)
Definition nullAllowed (member : Member.t) : string :=
  if Member.noAutoValidity member then "true"
  else if truthy_opt (Member.length member)
       then str_bool_lower (Member.optionalPointer member)
       else str_bool_lower (Member.optional member).

(** validateObjects, lines 411-413. *)
Definition paramVUID (parentName : string) (member : Member.t) : string :=
  let vuid_string :=
    "VUID-" ++ aliased parentName ++ "-" ++ Member.name member ++ "-parameter" in
  if in_list vuid_string valid_vuids then quoted vuid_string else kVUIDUndefined.

(** validateObjects, lines 418-445.  [first] is [members[0]]. *)
Definition parentVUID (members : list Member.t) (first : Member.t)
    (parentName topCommand : string) (member : Member.t) : string :=
  if negb (in_list (Member.type member) parent_exception_list)
     && negb (Member.eqb member first)
  then
    let parent := aliased parentName in
    if Member.type first =? "VkDevice" then
      getVUID valid_vuids ("VUID-" ++ parent ++ "-" ++ Member.name member ++ "-parent")
    else if Nat.ltb 1 (List.length (filter (fun x => is_handle (Member.type x)) members)) then
      getVUID valid_vuids ("VUID-" ++ parent ++ "-commonparent")
    else if negb (topCommand =? parentName) then
      if (topCommand =? "vkCreateImageView") && (Member.name member =? "image")
      then quoted "VUID-vkCreateImageView-image-09179"
      else kVUIDUndefined
    else kVUIDUndefined
  else kVUIDUndefined.

(** validateObjects, lines 447-463: the code emitted for a member whose type
    is a handle. *)
Definition validateHandle (members : list Member.t) (first : Member.t)
    (pfx : prefix) (index parentName topCommand errorLoc : string)
    (member : Member.t) : list stmt :=
  let target := access pfx (Member.name member) in
  let objtype := kVulkanObjectType (Member.type member) in
  let parentVUID := parentVUID members first parentName topCommand member in
  if truthy_opt (Member.length member) then
    let len := match Member.length member with Some l => l | None => "" end in
    let location :=
      errorLoc ++ ".dot(Field::" ++ Member.name member ++ ", " ++ index ++ ")" in
    let countName := access pfx len in
    [SIf (CAnd (CGtZero countName) (CTrue target))
       [SFor index countName
          [SCall (CallValidateObject (EIndex target index) objtype
                    (nullAllowed member) (paramVUID parentName member)
                    parentVUID location)]]]
  else if contains "basePipelineHandle" (Member.name member) then
    let manual_vuid_index := parentName ++ "-" ++ Member.name member in
    let paramVUID :=
      match get manual_vuids manual_vuid_index with
      | Some v => v
      | None => kVUIDUndefined
      end in
    [SIf (CAnd (CFlagSet (access pfx "flags"))
               (CEqMinusOne (access pfx "basePipelineIndex")))
       [SCall (CallValidateObject target objtype "false" paramVUID parentVUID
                 "error_obj.location")]]
  else
    let location := errorLoc ++ ".dot(Field::" ++ Member.name member ++ ")" in
    [SCall (CallValidateObject target objtype (nullAllowed member)
              (paramVUID parentName member) parentVUID location)].

(** The type of validateObjects, for the recursive calls of the loop body. *)
Definition walk : Type :=
  list Member.t -> prefix -> nat -> string -> string -> string -> bool
  -> res (list stmt).

(** validateObjects, lines 397-506: the body of the loop over the members.
    [self_call] is validateObjects itself and [contains_object] is
    structContainsObject; [first] and [last] are [members[0]] and
    [members[-1]]. *)
Definition validateMember (self_call : walk)
    (contains_object : Struct.t -> res bool)
    (members : list Member.t) (first last : Member.t)
    (pfx : prefix) (index : string) (arrayIndex : nat)
    (parentName topCommand errorLoc : string) (isTopLevelCreate : bool)
    (member : Member.t) : res (list stmt) :=
  if isTopLevelCreate && Member.eqb member last then Ok []
  else if is_handle (Member.type member) then
    Ok (validateHandle members first pfx index parentName topCommand errorLoc member)
  else
    match get (VulkanObject.structs vk) (Member.type member) with
    | Some struct =>
        b <- contains_object struct ;;
        if b then
          let target := access pfx (Member.name member) in
          match Member.length member with
          | Some len =>
              let new_error_loc := index ++ "_loc" in
              body <- self_call (Struct.members struct)
                        (PDot (EIndex target index)) arrayIndex
                        (Member.type member) topCommand new_error_loc false ;;
              Ok [SIf (CTrue target)
                    [SFor index (access pfx len)
                       (SLocation new_error_loc
                          (errorLoc ++ ".dot(Field::" ++ Member.name member
                             ++ ", " ++ index ++ ")")
                        :: body)]]
          | None =>
              let new_error_loc := Member.name member ++ "_loc" in
              let init := errorLoc ++ ".dot(Field::" ++ Member.name member ++ ")" in
              if Member.pointer member then
                body <- self_call (Struct.members struct) (PArrow target)
                          arrayIndex (Member.type member) topCommand
                          new_error_loc false ;;
                Ok [SIf (CTrue target) (SLocation new_error_loc init :: body)]
              else
                body <- self_call (Struct.members struct) (PDot target)
                          arrayIndex (Member.type member) topCommand
                          new_error_loc false ;;
                Ok (SLocation new_error_loc init :: body)
          end
        else Ok []
    | None => Ok []
    end.

(** validateObjects.  [fuel] bounds the depth of the recursion, which follows
    the struct types by name. *)
Fixpoint validateObjects (fuel : nat) (members : list Member.t) (pfx : prefix)
    (arrayIndex : nat) (parentName topCommand errorLoc : string)
    (isTopLevelCreate : bool) {struct fuel} : res (list stmt) :=
  match fuel with
  | O => Raise RecursionError
  | S fuel' =>
      let index := "index" ++ str_nat arrayIndex in
      let arrayIndex := arrayIndex + 1 in
      match members with
      | [] => Ok []
      | first :: _ =>
          concat_mapM
            (validateMember (validateObjects fuel') (structContainsObject fuel')
               members first (List.last members first) pfx index arrayIndex
               parentName topCommand errorLoc isTopLevelCreate)
            members
      end
  end.

(** The loop body of validateObjects as its call with recursion budget
    [S fuel'] runs it. *)
Definition loop_body (fuel' : nat) (members : list Member.t) (first : Member.t)
    (pfx : prefix) (arrayIndex : nat) (parentName topCommand errorLoc : string)
    (isTopLevelCreate : bool) : Member.t -> res (list stmt) :=
  validateMember (validateObjects fuel') (structContainsObject fuel')
    members first (List.last members first) pfx
    ("index" ++ str_nat arrayIndex) (arrayIndex + 1)
    parentName topCommand errorLoc isTopLevelCreate.

(** generateFunctionBody, lines 522-561: the post-call record of a create
    command.  [last] and [before] are [params[-1]] and [params[-2]]; the
    latter is read (lines 537 and 546) whenever the created type is a
    handle. *)
Definition recordCreate (command : Command.t) : res (list stmt) :=
  let name := Command.name command in
  let params := Command.params command in
  last <- from_end params 1 ;;
  let handle_type := Member.type last in
  let isCreateShaders := contains "CreateShaders" name in
  if is_handle handle_type then
    before <- from_end params 2 ;;
    let element :=
      ((if isCreatePipelines name then
          [SContinueIf (CNot (EIndex (EVar "pPipelines") "index"))]
        else if isCreateShaders then
          [SBreakIf (CNot (EIndex (EVar "pShaders") "index"))]
        else [])
       ++ [SCall (CallCreateObject (objectDest last)
                    (kVulkanObjectType handle_type) (allocatorExpr before))])%list in
    match Member.length last with
    | Some len =>
        Ok ((if isCreatePipelines name
             then [SReturnIf (CResultIs VK_ERROR_VALIDATION_FAILED_EXT)]
             else [])
            ++ [SIf (CTrue (EVar (Member.name last)))
                  [SFor "index" (countExpr before len) element]])%list
    | None => Ok element
    end
  else if handle_type =? "VkPhysicalDeviceGroupProperties" then
    count <- from_end params 2 ;;
    first <- first params ;;
    let group := EIndex (EVar (Member.name last)) "device_group_index" in
    Ok [SIf (CTrue (EVar (Member.name last)))
          [SFor "device_group_index" (EDeref (EVar (Member.name count)))
             [SCall (CallPostCallRecordEnumeratePhysicalDevices
                       (EVar (Member.name first))
                       (EAddr (EField group "physicalDeviceCount"))
                       (EField group "physicalDevices")
                       VK_SUCCESS)]]]
  else Ok [].

(** generateFunctionBody, lines 563-573: what a destroy command adds to the
    pre-call validation and to the pre-call record. *)
Definition recordDestroy (command : Command.t) : res (list stmt * list stmt) :=
  let name := Command.name command in
  let release := contains "ReleasePerformanceConfigurationINTEL" name in
  handle_param <- handle_param command ;;
  let allocator := if release then ENull else EVar "pAllocator" in
  let compatallocVUID := getAllocVUID handle_param "compatalloc" in
  let nullallocVUID := getAllocVUID handle_param "nullalloc" in
  if is_handle (Member.type handle_param) then
    Ok ([SCall (CallValidateDestroyObject (EVar (Member.name handle_param))
                  (kVulkanObjectType (Member.type handle_param)) allocator
                  compatallocVUID nullallocVUID)],
        [SCall (CallRecordDestroyObject (EVar (Member.name handle_param))
                  (kVulkanObjectType (Member.type handle_param)))])
  else Ok ([], []).

(** generateFunctionBody: (pre_call_validate, pre_call_record,
    post_call_record). *)
Definition generateFunctionBody (fuel : nat) (command : Command.t)
  : res (list stmt * list stmt * list stmt) :=
  isCreate <- isCreate command ;;
  pre_call_validate <-
    validateObjects fuel (Command.params command) PTop 0
      (Command.name command) (Command.name command) "error_obj.location"
      isCreate ;;
  post_call_record <- (if isCreate then recordCreate command else Ok []) ;;
  destroy <- (if isDestroy command then recordDestroy command else Ok ([], [])) ;;
  Ok ((pre_call_validate ++ fst destroy)%list, snd destroy, post_call_record).

(** [f(x) if x else None]: a function is emitted for a non-empty body. *)
Definition if_nonempty (body : list stmt) : option (list stmt) :=
  match body with
  | [] => None
  | _ => Some body
  end.

(** generateSource, lines 340-357: the body of PostCallRecord, with the
    early return on a failed result put in front when the command returns a
    VkResult and is not one of the pipeline creations. *)
Definition postCallRecordBody (command : Command.t)
    (post_call_record : list stmt) : list stmt :=
  if (Command.returnType command =? "VkResult")
     && negb (isCreatePipelines (Command.name command))
  then SReturnIf (failureCondition (Command.name command)) :: post_call_record
  else post_call_record.

(** generateSource, lines 314-359: the functions emitted for one command. *)
Definition generateIntercept (fuel : nat) (command : Command.t) : res Intercept :=
  body <- generateFunctionBody fuel command ;;
  let '(pre_call_validate, pre_call_record, post_call_record) := body in
  Ok {| PreCallValidate := if_nonempty pre_call_validate;
        PreCallRecord := if_nonempty pre_call_record;
        PostCallRecord :=
          match post_call_record with
          | [] => None
          | _ => Some (postCallRecordBody command post_call_record)
          end |}.

(** generateSource, lines 276-281 and 295-299: one report line per handle,
    commented out for an implicitly destroyed type. *)
Definition reportLine (call : string -> string -> ccall) (error_code : string)
    (handle : Handle.t) : res stmt :=
  implicit <- APISpecific.IsImplicitlyDestroyed targetApiName (Handle.name handle) ;;
  let line := SCall (call (kVulkanObjectType (Handle.name handle)) error_code) in
  Ok (if implicit then SComment line else line).

(** The handles of the instance scope and of the device scope. *)
Definition instance_handles : list Handle.t :=
  filter (fun x => negb (Handle.dispatchable x) && negb (isParentDevice x))
    (values (VulkanObject.handles vk)).

Definition device_handles : list Handle.t :=
  filter (fun x => negb (Handle.dispatchable x) && isParentDevice x)
    (values (VulkanObject.handles vk)).

(** generateSource, lines 271-282. *)
Definition generateReportInstance : res (list stmt) :=
  error_code <-
    APISpecific.getUndestroyedObjectVUID targetApiName APISpecific.instance ;;
  mapM (reportLine CallReportLeakedInstanceObjects error_code) instance_handles.

(** generateSource, lines 284-301. *)
Definition generateReportDevice : res (list stmt) :=
  error_code <-
    APISpecific.getUndestroyedObjectVUID targetApiName APISpecific.device ;;
  implicit <- APISpecific.IsImplicitlyDestroyed targetApiName "VkCommandBuffer" ;;
  let line :=
    SCall (CallReportLeakedDeviceObjects "kVulkanObjectTypeCommandBuffer" error_code) in
  rest <- mapM (reportLine CallReportLeakedDeviceObjects error_code) device_handles ;;
  Ok ((if implicit then SComment line else line) :: rest).

(** generateSource, lines 303-306. *)
Definition generateDestroyInstance : list stmt :=
  map (fun handle =>
         SCall (CallDestroyUndestroyedObjects (kVulkanObjectType (Handle.name handle))))
    instance_handles.

(** generateSource, lines 308-312. *)
Definition generateDestroyDevice : list stmt :=
  SCall (CallDestroyUndestroyedObjects "kVulkanObjectTypeCommandBuffer")
  :: map (fun handle =>
            SCall (CallDestroyUndestroyedObjects
                     (kVulkanObjectType (Handle.name handle))))
       device_handles.

(** generateSource. *)
Definition generateSource (fuel : nat) : res Source :=
  report_instance <- generateReportInstance ;;
  report_device <- generateReportDevice ;;
  fns <- mapM (fun command =>
                 i <- generateIntercept fuel command ;;
                 Ok (Command.name command, i))
           (filter (fun x => negb (in_list (Command.name x) no_autogen_list))
              (values (VulkanObject.commands vk))) ;;
  Ok {| ReportUndestroyedInstanceObjects := report_instance;
        ReportUndestroyedDeviceObjects := report_device;
        DestroyLeakedInstanceObjects := generateDestroyInstance;
        DestroyLeakedDeviceObjects := generateDestroyDevice;
        intercepts := fns |}.

End Generator.

(** ** What the emitted code does when it runs *)

(** Values of the intercepted call's arguments: integers and handles (a null
    handle is 0), pointers (null, or the cells pointed to) and aggregates. *)
Inductive cval : Type :=
| VInt (z : Z)
| VPtr (cells : option (list cval))
| VStruct (fields : list (string * cval)).

(** The calls into the runtime made by a run of the emitted code, with their
    arguments evaluated. *)
Inductive event : Type :=
| ValidateObject (handle : cval)
    (objtype nullAllowed paramVUID parentVUID location : string)
| ValidateDestroyObject (handle : cval) (objtype : string) (allocator : cval)
    (compatallocVUID nullallocVUID : string)
| RecordDestroyObject (handle : cval) (objtype : string)
| CreateObject (handle : cval) (objtype : string) (allocator : cval)
| PostCallRecordEnumeratePhysicalDevices (instance pCount pDevices : cval)
    (result : Z)
| ReportLeakedInstanceObjects (objtype error_code : string)
| ReportLeakedDeviceObjects (objtype error_code : string)
| DestroyUndestroyedObjects (objtype : string).

(** How a statement ends. *)
Inductive flow : Type := Next | Continue | Break | Return.

Notation "x <~ e ;; k" :=
  (match e with Some x => k | None => None end)
  (at level 61, e at next level, right associativity).

(** Evaluation of an expression; [None] where C++ leaves it undefined (a
    null or out-of-range access, an unbound name). [idx] holds the loop
    indices in scope. *)
Fixpoint eval_expr (vars : dict cval) (idx : dict nat) (e : cexpr)
  : option cval :=
  match e with
  | ENull => Some (VPtr None)
  | EVar x => get vars x
  | EDeref e' =>
      match eval_expr vars idx e' with
      | Some (VPtr (Some (c :: _))) => Some c
      | _ => None
      end
  | EAddr e' => c <~ eval_expr vars idx e' ;; Some (VPtr (Some [c]))
  | EIndex e' index =>
      match eval_expr vars idx e', get idx index with
      | Some (VPtr (Some cells)), Some i => nth_error cells i
      | _, _ => None
      end
  | EField e' f =>
      match eval_expr vars idx e' with
      | Some (VStruct fields) => get fields f
      | _ => None
      end
  | EArrow e' f =>
      match eval_expr vars idx e' with
      | Some (VPtr (Some (VStruct fields :: _))) => get fields f
      | _ => None
      end
  end.

(** Truth value of a scalar in a condition. *)
Definition truthy (v : cval) : option bool :=
  match v with
  | VInt z => Some (negb (z =? 0)%Z)
  | VPtr None => Some false
  | VPtr (Some _) => Some true
  | VStruct _ => None
  end.

(** VK_PIPELINE_CREATE_DERIVATIVE_BIT in the Vulkan headers. *)
Definition VK_PIPELINE_CREATE_DERIVATIVE_BIT : Z := 4.

(** Evaluation of a condition; [&&] evaluates its right operand only when
    the left one holds. [result] is [record_obj.result]. *)
Fixpoint eval_cond (vars : dict cval) (result : Z) (idx : dict nat) (c : ccond)
  : option bool :=
  match c with
  | CTrue e => v <~ eval_expr vars idx e ;; truthy v
  | CNot e => v <~ eval_expr vars idx e ;; b <~ truthy v ;; Some (negb b)
  | CAnd a b =>
      x <~ eval_cond vars result idx a ;;
      if x then eval_cond vars result idx b else Some false
  | CGtZero e =>
      match eval_expr vars idx e with
      | Some (VInt z) => Some (0 <? z)%Z
      | _ => None
      end
  | CFlagSet e =>
      match eval_expr vars idx e with
      | Some (VInt z) =>
          Some (negb (Z.land z VK_PIPELINE_CREATE_DERIVATIVE_BIT =? 0)%Z)
      | _ => None
      end
  | CEqMinusOne e =>
      match eval_expr vars idx e with
      | Some (VInt z) => Some (z =? -1)%Z
      | _ => None
      end
  | CResultIs code => Some (code_value code =? result)%Z
  | CResultNot code => Some (negb (result =? code_value code)%Z)
  end.

(** The runtime call made by a call statement. *)
Definition run_call (vars : dict cval) (idx : dict nat) (c : ccall)
  : option event :=
  match c with
  | CallValidateObject handle objtype nullAllowed paramVUID parentVUID location =>
      h <~ eval_expr vars idx handle ;;
      Some (ValidateObject h objtype nullAllowed paramVUID parentVUID location)
  | CallValidateDestroyObject handle objtype allocator compat null =>
      h <~ eval_expr vars idx handle ;;
      a <~ eval_expr vars idx allocator ;;
      Some (ValidateDestroyObject h objtype a compat null)
  | CallRecordDestroyObject handle objtype =>
      h <~ eval_expr vars idx handle ;;
      Some (RecordDestroyObject h objtype)
  | CallCreateObject dest objtype allocator =>
      h <~ eval_expr vars idx dest ;;
      a <~ eval_expr vars idx allocator ;;
      Some (CreateObject h objtype a)
  | CallPostCallRecordEnumeratePhysicalDevices instance pCount pDevices code =>
      i <~ eval_expr vars idx instance ;;
      c <~ eval_expr vars idx pCount ;;
      d <~ eval_expr vars idx pDevices ;;
      Some (PostCallRecordEnumeratePhysicalDevices i c d (code_value code))
  | CallReportLeakedInstanceObjects objtype error_code =>
      Some (ReportLeakedInstanceObjects objtype error_code)
  | CallReportLeakedDeviceObjects objtype error_code =>
      Some (ReportLeakedDeviceObjects objtype error_code)
  | CallDestroyUndestroyedObjects objtype =>
      Some (DestroyUndestroyedObjects objtype)
  end.

(** The iterations of a [for] loop: [continue] goes to the next index,
    [break] leaves the loop, [return] leaves the function. *)
Fixpoint run_loop (body : nat -> option (list event * flow)) (indices : list nat)
  : option (list event * flow) :=
  match indices with
  | [] => Some ([], Next)
  | i :: rest =>
      match body i with
      | Some (t, Next) | Some (t, Continue) =>
          match run_loop body rest with
          | Some (t', f) => Some ((t ++ t')%list, f)
          | None => None
          end
      | Some (t, Break) => Some (t, Next)
      | Some (t, Return) => Some (t, Return)
      | None => None
      end
  end.

(** A block runs its statements in order until one of them leaves it. *)
Definition run_seq (run : stmt -> option (list event * flow))
  : list stmt -> option (list event * flow) :=
  fix go (b : list stmt) : option (list event * flow) :=
    match b with
    | [] => Some ([], Next)
    | s :: rest =>
        match run s with
        | Some (t, Next) =>
            match go rest with
            | Some (t', f) => Some ((t ++ t')%list, f)
            | None => None
            end
        | other => other
        end
    end.

(** Big-step run of a statement. *)
Fixpoint run_stmt (vars : dict cval) (result : Z) (idx : dict nat) (s : stmt)
  {struct s} : option (list event * flow) :=
  match s with
  | SIf c body =>
      b <~ eval_cond vars result idx c ;;
      if b then run_seq (run_stmt vars result idx) body else Some ([], Next)
  | SFor index count body =>
      match eval_expr vars idx count with
      | Some (VInt n) =>
          run_loop
            (fun i => run_seq (run_stmt vars result ((index, i) :: idx)) body)
            (seq 0 (Z.to_nat n))
      | _ => None
      end
  | SReturnIf c =>
      b <~ eval_cond vars result idx c ;;
      Some ([], if b then Return else Next)
  | SContinueIf c =>
      b <~ eval_cond vars result idx c ;;
      Some ([], if b then Continue else Next)
  | SBreakIf c =>
      b <~ eval_cond vars result idx c ;;
      Some ([], if b then Break else Next)
  | SLocation _ _ => Some ([], Next)
  | SComment _ => Some ([], Next)
  | SCall c => e <~ run_call vars idx c ;; Some ([e], Next)
  end.

(** Big-step run of a block. *)
Definition run_block (vars : dict cval) (result : Z) (idx : dict nat)
  (b : list stmt) : option (list event * flow) :=
  run_seq (run_stmt vars result idx) b.

(** A run of an emitted function body: the runtime calls it makes, in order.
    [continue] or [break] outside a loop is not C++. *)
Definition run_function (vars : dict cval) (result : Z) (body : list stmt)
  : option (list event) :=
  match run_block vars result [] body with
  | Some (t, Next) | Some (t, Return) => Some t
  | _ => None
  end.

(** ** Reading the emitted code *)

(** The calls a statement holds, at any depth; a commented-out line holds
    none. *)
Fixpoint calls_of (s : stmt) : list ccall :=
  match s with
  | SIf _ body => flat_map calls_of body
  | SFor _ _ body => flat_map calls_of body
  | SCall c => [c]
  | SReturnIf _ | SContinueIf _ | SBreakIf _ | SLocation _ _ | SComment _ => []
  end.

(** The handle expressions passed to ValidateObject. *)
Definition validated (c : ccall) : list cexpr :=
  match c with
  | CallValidateObject handle _ _ _ _ _ => [handle]
  | _ => []
  end.

Definition validate_targets (code : list stmt) : list cexpr :=
  flat_map validated (flat_map calls_of code).

(** The variable an access path starts from. *)
Fixpoint root (e : cexpr) : option string :=
  match e with
  | ENull => None
  | EVar x => Some x
  | EDeref e' | EAddr e' => root e'
  | EIndex e' _ | EField e' _ | EArrow e' _ => root e'
  end.

Definition root_of_prefix (p : prefix) : option string :=
  match p with
  | PTop => None
  | PDot e | PArrow e => root e
  end.



(** ** The registry behind the runtime calls *)

Module Registry.

(** Modelled from the spec: HandleRecord (section 3) with the handle value,
    the object-type tag and the allocator fingerprint; the runtime's own
    record type is not in this file. *)
Record HandleRecord : Type := mkRecord {
  handle : Z;
  objtype : string;
  custom_allocator : bool
}.

(** Modelled from the spec: the Registry of one scope object (section 3),
    its live records in creation order; the runtime's maps are not in this
    file. *)
Definition t : Type := list HandleRecord.

(** Modelled from the spec: AllOfType (section 4.1), the live records of a
    type in a stable order; the runtime's iteration is not in this file. *)
Definition AllOfType (type : string) (reg : t) : list HandleRecord :=
  filter (fun r => objtype r =? type) reg.

(** A leak diagnostic: the identifier and the record it is about. *)
Record Diagnostic : Type := mkDiagnostic {
  vuid : string;
  leaked : HandleRecord
}.

(** Modelled from the spec: ReportLeakedInstanceObjects and
    ReportLeakedDeviceObjects (section 4.5) report every remaining live
    record of the type with the identifier they are given; the functions
    themselves are not in this file. *)
Definition report (reg : t) (e : event) : list Diagnostic :=
  match e with
  | ReportLeakedInstanceObjects type error_code
  | ReportLeakedDeviceObjects type error_code =>
      map (mkDiagnostic error_code) (AllOfType type reg)
  | _ => []
  end.

(** Modelled from the spec: DestroyUndestroyedObjects (section 4.5)
    force-removes every remaining record of the type; the function itself is
    not in this file. *)
Definition destroy (reg : t) (e : event) : t :=
  match e with
  | DestroyUndestroyedObjects type =>
      filter (fun r => negb (objtype r =? type)) reg
  | _ => reg
  end.

(** The diagnostics of a run of a report function. *)
Definition diagnostics (reg : t) (trace : list event) : list Diagnostic :=
  flat_map (report reg) trace.

(** The registry after a run of a destroy function. *)
Definition cleared (reg : t) (trace : list event) : t :=
  fold_left destroy trace reg.

End Registry.

(** ** Vocabulary of the properties *)


(** Whether allocation-callback identifiers are reported for the target:
    the truth value of AreAllocVUIDsEnabled. *)
Definition alloc_vuids_enabled (targetApiName : string) : bool :=
  match APISpecific.AreAllocVUIDsEnabled targetApiName with
  | Some b => b
  | None => false
  end.

(** A call that removes a record from the registry. *)
Definition is_removal (c : ccall) : bool :=
  match c with
  | CallRecordDestroyObject _ _ => true
  | _ => false
  end.

(** The container a member stands for is not there when the validation
    runs: for an array of handles, the count is not positive or the array
    pointer is null; for an array of aggregates or a pointer to one, the
    pointer is null. *)
Definition absent_container (vk : VulkanObject.t) (vars : dict cval)
    (idx : dict nat) (pfx : prefix) (member : Member.t) : Prop :=
  if is_handle vk (Member.type member) then
    exists len c,
      Member.length member = Some len
      /\ truthy_opt (Member.length member) = true
      /\ eval_expr vars idx (access pfx len) = Some (VInt c)
      /\ ((c <= 0)%Z
          \/ eval_expr vars idx (access pfx (Member.name member))
             = Some (VPtr None))
  else
    (Member.length member <> None \/ Member.pointer member = true)
    /\ eval_expr vars idx (access pfx (Member.name member)) = Some (VPtr None).

(** ** Teardown of a scope *)

(** A handle type whose leaked records are reported: IsImplicitlyDestroyed
    answers False for it. *)
Definition is_reported (targetApiName : string) (handle : Handle.t) : bool :=
  match APISpecific.IsImplicitlyDestroyed targetApiName (Handle.name handle) with
  | Ok false => true
  | _ => false
  end.

(** The type tags a scope reports and the type tags it clears: [extra] is
    the command-buffer tag of the device scope. *)
Definition reported_types (targetApiName : string) (handles : list Handle.t)
    (extra : list string) : list string :=
  (extra ++ map (fun h => kVulkanObjectType (Handle.name h))
              (filter (is_reported targetApiName) handles))%list.

Definition cleared_types (handles : list Handle.t) (extra : list string)
  : list string :=
  (extra ++ map (fun h => kVulkanObjectType (Handle.name h)) handles)%list.

(** What the two teardown functions of a scope achieve on a registry, given
    the runtime calls they make: every live record of a reported type is
    reported under [error_code]; nothing else is reported; no record of a
    cleared type is left. *)
Definition teardown_ok (targetApiName : string) (reg : Registry.t)
    (handles : list Handle.t) (extra : list string) (error_code : string)
    (report destroyed : list event) : Prop :=
  (forall r, In r reg ->
             In (Registry.objtype r) (reported_types targetApiName handles extra) ->
             In (Registry.mkDiagnostic error_code r)
                (Registry.diagnostics reg report))
  /\ (forall d, In d (Registry.diagnostics reg report) ->
                Registry.vuid d = error_code
                /\ In (Registry.leaked d) reg
                /\ In (Registry.objtype (Registry.leaked d))
                      (reported_types targetApiName handles extra))
  /\ (forall type, In type (cleared_types handles extra) ->
                   Registry.AllOfType type (Registry.cleared reg destroyed) = []).

(** The struct types of the registry nest to a finite depth: [rank] goes
    down from a struct to the struct types of its members. The generator's
    recursion ends on such a registry. *)
Definition ranked (vk : VulkanObject.t) (rank : string -> nat) : Prop :=
  forall k s m sub,
    get (VulkanObject.structs vk) k = Some s ->
    In m (Struct.members s) ->
    get (VulkanObject.structs vk) (Member.type m) = Some sub ->
    rank (Member.type m) < rank k.

(** ** generateHeader *)

Module PyStr.

(** A line feed. *)
Definition nl : string := String (ascii_of_nat 10) EmptyString.

(** [s.split(sep)] for a non-empty [sep], read from the left: [cur] is the
    piece being read, and [skip] counts the characters of a separator just
    found that are still to pass. *)
Fixpoint split_from (sep : string) (skip : nat) (cur s : string) : list string :=
  match s with
  | EmptyString => [cur]
  | String c s' =>
      match skip with
      | S k => split_from sep k cur s'
      | O =>
          if String.prefix sep s
          then cur :: split_from sep (String.length sep - 1) EmptyString s'
          else split_from sep O (cur ++ String c EmptyString) s'
      end
  end.

Definition split (sep s : string) : list string :=
  split_from sep 0 EmptyString s.

(** [l[1]]. *)
Definition second {A : Type} (l : list A) : res A :=
  match nth_error l 1 with
  | Some a => Ok a
  | None => Raise IndexError
  end.

(** [s[:-1]]. *)
Fixpoint drop_last (s : string) : string :=
  match s with
  | EmptyString => EmptyString
  | String c s' =>
      match s' with
      | EmptyString => EmptyString
      | String _ _ => String c (drop_last s')
      end
  end.

(** [s.replace(old, new)] for a one-character [old]. *)
Fixpoint replace (old : ascii) (new s : string) : string :=
  match s with
  | EmptyString => EmptyString
  | String c s' =>
      (if Ascii.eqb c old then new else String c EmptyString)
      ++ replace old new s'
  end.

End PyStr.

Import PyStr.

(** generateHeader, lines 245-260: the declarations of the hand-written
    functions. *)
Definition manual_declarations : string :=
  String.concat nl [
    EmptyString;
    EmptyString;
    "void PostCallRecordDestroyInstance(VkInstance instance, const VkAllocationCallbacks *pAllocator, const RecordObject& record_obj) override;";
    "void PreCallRecordResetDescriptorPool(VkDevice device, VkDescriptorPool descriptorPool, VkDescriptorPoolResetFlags flags) override;";
    "void PostCallRecordGetPhysicalDeviceQueueFamilyProperties(VkPhysicalDevice physicalDevice, uint32_t *pQueueFamilyPropertyCount, VkQueueFamilyProperties *pQueueFamilyProperties, const RecordObject& record_obj) override;";
    "void PreCallRecordFreeCommandBuffers(VkDevice device, VkCommandPool commandPool, uint32_t commandBufferCount, const VkCommandBuffer *pCommandBuffers) override;";
    "void PreCallRecordFreeDescriptorSets(VkDevice device, VkDescriptorPool descriptorPool, uint32_t descriptorSetCount, const VkDescriptorSet *pDescriptorSets) override;";
    "void PostCallRecordGetPhysicalDeviceQueueFamilyProperties2(VkPhysicalDevice physicalDevice, uint32_t *pQueueFamilyPropertyCount, VkQueueFamilyProperties2 *pQueueFamilyProperties, const RecordObject& record_obj) override;";
    "void PostCallRecordGetPhysicalDeviceQueueFamilyProperties2KHR(VkPhysicalDevice physicalDevice, uint32_t *pQueueFamilyPropertyCount, VkQueueFamilyProperties2 *pQueueFamilyProperties, const RecordObject& record_obj) override;";
    "void PostCallRecordGetPhysicalDeviceDisplayPropertiesKHR(VkPhysicalDevice physicalDevice, uint32_t *pPropertyCount, VkDisplayPropertiesKHR *pProperties, const RecordObject& record_obj) override;";
    "void PostCallRecordGetDisplayModePropertiesKHR(VkPhysicalDevice physicalDevice, VkDisplayKHR display, uint32_t *pPropertyCount, VkDisplayModePropertiesKHR *pProperties, const RecordObject& record_obj) override;";
    "void PostCallRecordGetPhysicalDeviceDisplayProperties2KHR(VkPhysicalDevice physicalDevice, uint32_t *pPropertyCount, VkDisplayProperties2KHR *pProperties, const RecordObject& record_obj) override;";
    "void PostCallRecordGetDisplayModeProperties2KHR(VkPhysicalDevice physicalDevice, VkDisplayKHR display, uint32_t *pPropertyCount, VkDisplayModeProperties2KHR *pProperties, const RecordObject& record_obj) override;";
    "void PostCallRecordGetPhysicalDeviceDisplayPlanePropertiesKHR(VkPhysicalDevice physicalDevice, uint32_t* pPropertyCount, VkDisplayPlanePropertiesKHR* pProperties, const RecordObject& record_obj) override;";
    "void PostCallRecordGetPhysicalDeviceDisplayPlaneProperties2KHR(VkPhysicalDevice physicalDevice, uint32_t* pPropertyCount, VkDisplayPlaneProperties2KHR* pProperties, const RecordObject& record_obj) override;";
    EmptyString
  ].

Section Header.

Variable targetApiName : string.
Variable vk : VulkanObject.t.
Variable valid_vuids : list string.
Variable getVUID : list string -> string -> string.

(** [command.cPrototype] and [command.protect], two fields of Command that
    the record above does not carry. *)
Variable cPrototype : Command.t -> string.
Variable protect : Command.t -> option string.

(** generateHeader, lines 233 and 240: what takes the place of a closing
    parenthesis. *)
Definition error_obj_param : string :=
  "," ++ nl ++ "    const ErrorObject&                          error_obj)".

Definition record_obj_param : string :=
  "," ++ nl ++ "    const RecordObject&                         record_obj)".

(** generateHeader, line 229. *)
Definition prototype (command : Command.t) : res string :=
  piece <- second (split "VKAPI_CALL " (cPrototype command)) ;;
  Ok (drop_last (slice_from 2 piece)).

(** generateHeader, line 230. *)
Definition terminator (command : Command.t) : string :=
  if contains "ValidationCache" (Command.name command)
  then ";" ++ nl else " override;" ++ nl.

(** generateHeader, lines 226 and 243. *)
Definition guard_open (command : Command.t) : list string :=
  match protect command with
  | Some p => if truthy_str p then ["#ifdef " ++ p ++ nl] else []
  | None => []
  end.

Definition guard_close (command : Command.t) : list string :=
  match protect command with
  | Some p => if truthy_str p then ["#endif // " ++ p ++ nl] else []
  | None => []
  end.

(** generateHeader, lines 232-241: the three declarations, each for a
    non-empty text. *)
Definition declareValidate (command : Command.t) (prototype : string) : string :=
  "bool PreCallValidate" ++ replace ")" error_obj_param prototype
    ++ " const" ++ terminator command.

Definition declarePreRecord (command : Command.t) (prototype : string) : string :=
  "void PreCallRecord" ++ prototype ++ terminator command.

Definition declarePostRecord (command : Command.t) (prototype : string) : string :=
  "void PostCallRecord" ++ replace ")" record_obj_param prototype
    ++ terminator command.

(** generateHeader, lines 226-243: what one command adds to [out]. *)
Definition declare (fuel : nat) (command : Command.t) : res (list string) :=
  body <- generateFunctionBody targetApiName vk valid_vuids getVUID fuel command ;;
  let '(pre_call_validate, pre_call_record, post_call_record) := body in
  prototype <- prototype command ;;
  Ok (guard_open command
      ++ match pre_call_validate with
         | [] => []
         | _ => [declareValidate command prototype]
         end
      ++ match pre_call_record with
         | [] => []
         | _ => [declarePreRecord command prototype]
         end
      ++ match post_call_record with
         | [] => []
         | _ => [declarePostRecord command prototype]
         end
      ++ guard_close command)%list.

(** generateHeader: the text written. *)
Definition generateHeader (fuel : nat) : res string :=
  out <- concat_mapM (declare fuel) (values (VulkanObject.commands vk)) ;;
  Ok (String.concat EmptyString (out ++ [manual_declarations])%list).

End Header.

(** ** Vocabulary of the further properties *)

(** The parents of a handle, nearest first. *)
Fixpoint ancestors (handle : Handle.t) : list Handle.t :=
  match handle with
  | Handle.mk _ _ None => []
  | Handle.mk _ _ (Some p) => p :: ancestors p
  end.

(** The type tag named by a line of a teardown function, commented out or
    not. *)
Definition teardown_call_type (c : ccall) : option string :=
  match c with
  | CallReportLeakedInstanceObjects t _
  | CallReportLeakedDeviceObjects t _
  | CallDestroyUndestroyedObjects t => Some t
  | _ => None
  end.

Definition teardown_type (s : stmt) : option string :=
  match s with
  | SCall c => teardown_call_type c
  | SComment (SCall c) => teardown_call_type c
  | _ => None
  end.

(** A struct that holds a handle at some level: a member's type is a
    handle, or is another struct that holds one. *)
Inductive holds_handle (vk : VulkanObject.t) : Struct.t -> Prop :=
| holds_direct (s : Struct.t) (m : Member.t) :
    In m (Struct.members s) ->
    is_handle vk (Member.type m) = true ->
    holds_handle vk s
| holds_nested (s : Struct.t) (m : Member.t) (sub : Struct.t) :
    In m (Struct.members s) ->
    is_handle vk (Member.type m) = false ->
    get (VulkanObject.structs vk) (Member.type m) = Some sub ->
    Member.type m <> Struct.name s ->
    holds_handle vk sub ->
    holds_handle vk s.

(** A ValidateObject call on a handle type of the registry, its null flag a
    C++ boolean. *)
Definition validates_handle (vk : VulkanObject.t) (c : ccall) : Prop :=
  match c with
  | CallValidateObject _ objtype nullAllowed _ _ _ =>
      (nullAllowed = "true" \/ nullAllowed = "false")
      /\ exists type,
           is_handle vk type = true /\ objtype = kVulkanObjectType type
  | _ => False
  end.

(** The loop indices an expression reads. *)
Fixpoint expr_indices (e : cexpr) : list string :=
  match e with
  | ENull | EVar _ => []
  | EDeref e' | EAddr e' | EField e' _ | EArrow e' _ => expr_indices e'
  | EIndex e' index => index :: expr_indices e'
  end.

Fixpoint cond_exprs (c : ccond) : list cexpr :=
  match c with
  | CTrue e | CNot e | CGtZero e | CFlagSet e | CEqMinusOne e => [e]
  | CAnd a b => (cond_exprs a ++ cond_exprs b)%list
  | CResultIs _ | CResultNot _ => []
  end.

Definition call_exprs (c : ccall) : list cexpr :=
  match c with
  | CallValidateObject handle _ _ _ _ _ => [handle]
  | CallValidateDestroyObject handle _ allocator _ _ => [handle; allocator]
  | CallRecordDestroyObject handle _ => [handle]
  | CallCreateObject dest _ allocator => [dest; allocator]
  | CallPostCallRecordEnumeratePhysicalDevices instance pCount pDevices _ =>
      [instance; pCount; pDevices]
  | CallReportLeakedInstanceObjects _ _
  | CallReportLeakedDeviceObjects _ _
  | CallDestroyUndestroyedObjects _ => []
  end.

Definition prefix_indices (p : prefix) : list string :=
  match p with
  | PTop => []
  | PDot e | PArrow e => expr_indices e
  end.

(** Every loop index the expression reads is one of [bound]. *)
Definition bound_in (bound : list string) (e : cexpr) : bool :=
  forallb (fun i => in_list i bound) (expr_indices e).

(** The statement reads no loop index but those of the loops around it
    ([bound], then its own), and none of its loops declares an index that a
    loop around it has declared. *)
Fixpoint scoped (bound : list string) (s : stmt) : bool :=
  match s with
  | SIf c body =>
      forallb (bound_in bound) (cond_exprs c) && forallb (scoped bound) body
  | SFor index count body =>
      bound_in bound count && negb (in_list index bound)
      && forallb (scoped (index :: bound)) body
  | SReturnIf c | SContinueIf c | SBreakIf c =>
      forallb (bound_in bound) (cond_exprs c)
  | SLocation _ _ | SComment _ => true
  | SCall c => forallb (bound_in bound) (call_exprs c)
  end.

(** [continue] and [break] stand inside a loop. *)
Fixpoint flow_closed (in_loop : bool) (s : stmt) : bool :=
  match s with
  | SIf _ body => forallb (flow_closed in_loop) body
  | SFor _ _ body => forallb (flow_closed true) body
  | SContinueIf _ | SBreakIf _ => in_loop
  | SReturnIf _ | SLocation _ _ | SComment _ | SCall _ => true
  end.

(** [s] without the suffix [suffix], when it ends with it. *)
Fixpoint strip_suffix (suffix s : string) : option string :=
  if s =? suffix then Some EmptyString
  else match s with
       | EmptyString => None
       | String c s' => option_map (String c) (strip_suffix suffix s')
       end.

(** The keys of a table that end with [suffix], without it. *)
Definition stems {V : Type} (suffix : string) (d : dict V) : list string :=
  flat_map (fun kv => match strip_suffix suffix (fst kv) with
                      | Some stem => [stem]
                      | None => []
                      end) d.

(** One physical-device group as the emitted code reads it. *)
Definition device_group (count devices : cval) : cval :=
  VStruct [("physicalDeviceCount", count); ("physicalDevices", devices)].

(** The loop of structContainsObject over the members still to visit, as
    its call with recursion budget [S fuel'] runs it. *)
Definition members_loop (vk : VulkanObject.t) (fuel' : nat) (struct : Struct.t)
  : list Member.t -> res bool :=
  fix loop (members : list Member.t) : res bool :=
    match members with
    | [] => Ok false
    | member :: rest =>
        if is_handle vk (Member.type member) then Ok true
        else
          match get (VulkanObject.structs vk) (Member.type member) with
          | Some sub =>
              if negb (Member.type member =? Struct.name struct) then
                b <- structContainsObject vk fuel' sub ;;
                if b then Ok true else loop rest
              else loop rest
          | None => loop rest
          end
    end.

(** The parameter identifier of a ValidateObject call is kVUIDUndefined, or
    the literal of an identifier of [valid], or a literal of the
    hand-maintained table. *)
Definition known_param_vuid (valid : list string) (c : ccall) : Prop :=
  match c with
  | CallValidateObject _ _ _ paramVUID _ _ =>
      paramVUID = kVUIDUndefined
      \/ exists s,
           paramVUID = quoted s
           /\ (In s valid \/ In (quoted s) (values manual_vuids))
  | _ => True
  end.

(** ** A cut of the Vulkan registry, for running the generator *)

Module Sample.

Definition value (name type : string) : Member.t :=
  Member.mk name type false None false false false.
Definition optional_value (name type : string) : Member.t :=
  Member.mk name type false None false true false.
Definition pointer (name type : string) : Member.t :=
  Member.mk name type false None true false false.
Definition optional_pointer (name type : string) : Member.t :=
  Member.mk name type false None true true false.
Definition array (name type len : string) : Member.t :=
  Member.mk name type false (Some len) true false false.
Definition optional_array (name type len : string) : Member.t :=
  Member.mk name type false (Some len) true true true.

Definition VkInstance := Handle.mk "VkInstance" true None.
Definition VkPhysicalDevice := Handle.mk "VkPhysicalDevice" true (Some VkInstance).
Definition VkDevice := Handle.mk "VkDevice" true (Some VkPhysicalDevice).
Definition VkQueue := Handle.mk "VkQueue" true (Some VkDevice).
Definition VkCommandPool := Handle.mk "VkCommandPool" false (Some VkDevice).
Definition VkCommandBuffer := Handle.mk "VkCommandBuffer" true (Some VkCommandPool).
Definition VkSurfaceKHR := Handle.mk "VkSurfaceKHR" false (Some VkInstance).
Definition VkDisplayKHR := Handle.mk "VkDisplayKHR" false (Some VkPhysicalDevice).
Definition VkDisplayModeKHR := Handle.mk "VkDisplayModeKHR" false (Some VkDisplayKHR).
Definition device_child (name : string) := Handle.mk name false (Some VkDevice).

Definition handles : dict Handle.t :=
  map (fun h => (Handle.name h, h))
    [VkInstance; VkPhysicalDevice; VkDevice; VkQueue; VkCommandPool;
     VkCommandBuffer; VkSurfaceKHR; VkDisplayKHR; VkDisplayModeKHR;
     device_child "VkFence"; device_child "VkSemaphore";
     device_child "VkImage"; device_child "VkImageView";
     device_child "VkShaderModule"; device_child "VkShaderEXT";
     device_child "VkPipelineCache"; device_child "VkPipelineLayout";
     device_child "VkRenderPass"; device_child "VkPipeline";
     device_child "VkVideoSessionKHR";
     device_child "VkPerformanceConfigurationINTEL"].

Definition VkPipelineShaderStageCreateInfo := Struct.mk "VkPipelineShaderStageCreateInfo"
  [value "sType" "VkStructureType"; optional_pointer "pNext" "void";
   optional_value "flags" "VkPipelineShaderStageCreateFlags";
   value "stage" "VkShaderStageFlagBits";
   optional_value "module" "VkShaderModule";
   pointer "pName" "char"].

Definition VkGraphicsPipelineCreateInfo := Struct.mk "VkGraphicsPipelineCreateInfo"
  [value "sType" "VkStructureType"; optional_pointer "pNext" "void";
   optional_value "flags" "VkPipelineCreateFlags";
   optional_value "stageCount" "uint32_t";
   optional_array "pStages" "VkPipelineShaderStageCreateInfo" "stageCount";
   optional_value "layout" "VkPipelineLayout";
   optional_value "renderPass" "VkRenderPass";
   value "subpass" "uint32_t";
   Member.mk "basePipelineHandle" "VkPipeline" true None false true false;
   value "basePipelineIndex" "int32_t"].

Definition VkImageViewCreateInfo := Struct.mk "VkImageViewCreateInfo"
  [value "sType" "VkStructureType"; optional_pointer "pNext" "void";
   optional_value "flags" "VkImageViewCreateFlags";
   value "image" "VkImage";
   value "viewType" "VkImageViewType";
   value "format" "VkFormat"].

Definition VkFenceCreateInfo := Struct.mk "VkFenceCreateInfo"
  [value "sType" "VkStructureType"; optional_pointer "pNext" "void";
   optional_value "flags" "VkFenceCreateFlags"].

Definition VkSubmitInfo := Struct.mk "VkSubmitInfo"
  [value "sType" "VkStructureType"; optional_pointer "pNext" "void";
   optional_value "waitSemaphoreCount" "uint32_t";
   array "pWaitSemaphores" "VkSemaphore" "waitSemaphoreCount";
   optional_value "commandBufferCount" "uint32_t";
   array "pCommandBuffers" "VkCommandBuffer" "commandBufferCount";
   optional_value "signalSemaphoreCount" "uint32_t";
   array "pSignalSemaphores" "VkSemaphore" "signalSemaphoreCount"].

Definition VkShaderCreateInfoEXT := Struct.mk "VkShaderCreateInfoEXT"
  [value "sType" "VkStructureType"; optional_pointer "pNext" "void";
   optional_value "flags" "VkShaderCreateFlagsEXT";
   value "stage" "VkShaderStageFlagBits"].

Definition structs : dict Struct.t :=
  map (fun s => (Struct.name s, s))
    [VkPipelineShaderStageCreateInfo; VkGraphicsPipelineCreateInfo;
     VkImageViewCreateInfo; VkFenceCreateInfo; VkSubmitInfo;
     VkShaderCreateInfoEXT].

Definition pAllocator : Param := optional_pointer "pAllocator" "VkAllocationCallbacks".

Definition vkCreateFence := Command.mk "vkCreateFence" None
  [value "device" "VkDevice"; pointer "pCreateInfo" "VkFenceCreateInfo";
   pAllocator; pointer "pFence" "VkFence"] "VkResult".

Definition vkDestroyFence := Command.mk "vkDestroyFence" None
  [value "device" "VkDevice"; optional_value "fence" "VkFence"; pAllocator]
  "void".

Definition vkDestroyVideoSessionKHR := Command.mk "vkDestroyVideoSessionKHR" None
  [value "device" "VkDevice"; optional_value "videoSession" "VkVideoSessionKHR";
   pAllocator] "void".

Definition vkCreateImageView := Command.mk "vkCreateImageView" None
  [value "device" "VkDevice"; pointer "pCreateInfo" "VkImageViewCreateInfo";
   pAllocator; pointer "pView" "VkImageView"] "VkResult".

Definition vkCreateGraphicsPipelines := Command.mk "vkCreateGraphicsPipelines" None
  [value "device" "VkDevice"; optional_value "pipelineCache" "VkPipelineCache";
   value "createInfoCount" "uint32_t";
   array "pCreateInfos" "VkGraphicsPipelineCreateInfo" "createInfoCount";
   pAllocator;
   array "pPipelines" "VkPipeline" "createInfoCount"] "VkResult".

Definition vkCreateShadersEXT := Command.mk "vkCreateShadersEXT" None
  [value "device" "VkDevice"; value "createInfoCount" "uint32_t";
   array "pCreateInfos" "VkShaderCreateInfoEXT" "createInfoCount";
   pAllocator;
   array "pShaders" "VkShaderEXT" "createInfoCount"] "VkResult".

Definition vkEnumeratePhysicalDeviceGroups := Command.mk "vkEnumeratePhysicalDeviceGroups" None
  [value "instance" "VkInstance";
   pointer "pPhysicalDeviceGroupCount" "uint32_t";
   optional_array "pPhysicalDeviceGroupProperties"
     "VkPhysicalDeviceGroupProperties" "pPhysicalDeviceGroupCount"] "VkResult".

Definition vkQueueSubmit := Command.mk "vkQueueSubmit" None
  [value "queue" "VkQueue"; optional_value "submitCount" "uint32_t";
   array "pSubmits" "VkSubmitInfo" "submitCount";
   optional_value "fence" "VkFence"] "VkResult".

Definition vkReleasePerformanceConfigurationINTEL :=
  Command.mk "vkReleasePerformanceConfigurationINTEL" None
    [value "device" "VkDevice";
     optional_value "configuration" "VkPerformanceConfigurationINTEL"] "VkResult".


Definition commands : dict Command.t :=
  map (fun c => (Command.name c, c))
    [vkCreateFence; vkDestroyFence; vkDestroyVideoSessionKHR; vkCreateImageView;
     vkCreateGraphicsPipelines; vkCreateShadersEXT;
     vkEnumeratePhysicalDeviceGroups; vkQueueSubmit;
     vkReleasePerformanceConfigurationINTEL].

Definition vk : VulkanObject.t := VulkanObject.mk handles structs commands.

Definition valid_vuids : list string := [
  "VUID-vkDestroyFence-fence-parameter";
  "VUID-vkDestroyFence-fence-parent";
  "VUID-vkQueueSubmit-commonparent";
  "VUID-vkCreateGraphicsPipelines-pipelineCache-parameter";
  "VUID-vkCreateGraphicsPipelines-pipelineCache-parent"
].

(** A stand-in for getVUID of generators.generator_utils: the identifier
    between quotes. *)
Definition getVUID (valid : list string) (vuid : string) : string :=
  quoted vuid.



Definition displays_env : dict cval :=
  [("pDisplays", VPtr (Some [VInt 31; VInt 32]));
   ("pDisplayCount", VPtr (Some [VInt 2]))]%Z.

Definition fence_env : dict cval :=
  [("pFence", VPtr (Some [VInt 7])); ("pAllocator", VPtr None)]%Z.

Definition vkAcquirePerformanceConfigurationINTEL :=
  Command.mk "vkAcquirePerformanceConfigurationINTEL" None
    [value "device" "VkDevice";
     pointer "pAcquireInfo" "VkPerformanceConfigurationAcquireInfoINTEL";
     pointer "pConfiguration" "VkPerformanceConfigurationINTEL"] "VkResult".

Definition generate : nat -> Command.t -> res (list stmt * list stmt * list stmt) :=
  generateFunctionBody "vulkan" vk valid_vuids getVUID.

(** The three texts generateFunctionBody returns for a command. *)
Definition pre_call_validate (command : Command.t) : list stmt :=
  match generate 5 command with
  | Ok (v, _, _) => v
  | Raise _ => []
  end.

Definition pre_call_record (command : Command.t) : list stmt :=
  match generate 5 command with
  | Ok (_, pre, _) => pre
  | Raise _ => []
  end.

Definition post_call_record (command : Command.t) : list stmt :=
  match generate 5 command with
  | Ok (_, _, post) => post
  | Raise _ => []
  end.

(** The walk of the members of VkGraphicsPipelineCreateInfo, as the walk
    of vkCreateGraphicsPipelines reaches them. *)
Definition pipeline_info_prefix : prefix :=
  PDot (EIndex (EVar "pCreateInfos") "index0").

Definition pipeline_info_walk : list stmt :=
  match validateObjects vk valid_vuids getVUID 3
          (Struct.members VkGraphicsPipelineCreateInfo) pipeline_info_prefix 1
          "VkGraphicsPipelineCreateInfo" "vkCreateGraphicsPipelines"
          "index0_loc" false with
  | Ok out => out
  | Raise _ => []
  end.

Definition basePipelineHandle : Member.t :=
  Member.mk "basePipelineHandle" "VkPipeline" true None false true false.

(** One derivative pipeline, its base given by handle. *)
Definition derivative_env : dict cval :=
  [("device", VInt 1); ("pipelineCache", VInt 0); ("createInfoCount", VInt 1);
   ("pCreateInfos",
    VPtr (Some [VStruct [("flags", VInt 4); ("stageCount", VInt 0);
                         ("pStages", VPtr None); ("layout", VInt 5);
                         ("renderPass", VInt 6);
                         ("basePipelineHandle", VInt 99);
                         ("basePipelineIndex", VInt (-1))]]));
   ("pAllocator", VPtr None)]%Z.

(** vkQueueSubmit with no submission. *)
Definition empty_submit_env : dict cval :=
  [("queue", VInt 3); ("submitCount", VInt 0); ("pSubmits", VPtr None);
   ("fence", VInt 7)]%Z.

(** The emitted source for the sample registry. *)
Definition source : Source :=
  match generateSource "vulkan" vk valid_vuids getVUID 5 with
  | Ok src => src
  | Raise _ => mkSource [] [] [] [] []
  end.

(** A device's registry and an instance's registry at teardown. *)
Definition leaked : Registry.t :=
  [Registry.mkRecord 7 "kVulkanObjectTypeFence" false;
   Registry.mkRecord 8 "kVulkanObjectTypeCommandBuffer" false;
   Registry.mkRecord 9 "kVulkanObjectTypeDisplayKHR" false;
   Registry.mkRecord 10 "kVulkanObjectTypeSurfaceKHR" true]%Z.

(** The nesting depth of the sample structs. *)
Definition rank (type : string) : nat :=
  if type =? "VkGraphicsPipelineCreateInfo" then 1 else 0.

(** The walk of a command's parameters, for a command that creates
    nothing. *)
Definition walk_of (command : Command.t) : list stmt :=
  match validateObjects vk valid_vuids getVUID 5 (Command.params command) PTop 0
          (Command.name command) (Command.name command) "error_obj.location"
          false with
  | Ok out => out
  | Raise _ => []
  end.

Definition device : Param := value "device" "VkDevice".
Definition fence : Param := optional_value "fence" "VkFence".

Definition vkGetDisplayPlaneSupportedDisplaysKHR :=
  Command.mk "vkGetDisplayPlaneSupportedDisplaysKHR" None
    [value "physicalDevice" "VkPhysicalDevice"; value "planeIndex" "uint32_t";
     pointer "pDisplayCount" "uint32_t";
     optional_array "pDisplays" "VkDisplayKHR" "pDisplayCount"] "VkResult".

(** *** Further sample data *)

(** A command that reads no handle. *)
Definition vkEnumerateInstanceVersion :=
  Command.mk "vkEnumerateInstanceVersion" None
    [pointer "pApiVersion" "uint32_t"] "VkResult".

(** A creation with no parameter but the created handle; the registry has
    no such command. *)
Definition vkCreateLoneEXT := Command.mk "vkCreateLoneEXT" None
  [pointer "pFence" "VkFence"] "VkResult".

Definition vkResetFences := Command.mk "vkResetFences" None
  [value "device" "VkDevice"; value "fenceCount" "uint32_t";
   array "pFences" "VkFence" "fenceCount"] "VkResult".

Definition VkBaseInStructure := Struct.mk "VkBaseInStructure"
  [value "sType" "VkStructureType"; pointer "pNext" "VkBaseInStructure"].

(** Structs that the registry does not have: two that point at each other,
    and one that holds an image and nests itself. *)
Definition VkPingEXT := Struct.mk "VkPingEXT"
  [pointer "pPong" "VkPongEXT"; value "flags" "VkFlags"].

Definition VkPongEXT := Struct.mk "VkPongEXT"
  [pointer "pPing" "VkPingEXT"].

Definition pNextImage : Member.t := optional_pointer "pNextImage" "VkImageChainEXT".

Definition VkImageChainEXT := Struct.mk "VkImageChainEXT"
  [value "image" "VkImage"; pNextImage].

Definition nested_vk : VulkanObject.t :=
  VulkanObject.mk handles
    (structs ++ map (fun s => (Struct.name s, s))
                  [VkBaseInStructure; VkPingEXT; VkPongEXT; VkImageChainEXT])%list
    commands.

(** What generateSource emits for a command. *)
Definition intercept (command : Command.t) : Intercept :=
  match generateIntercept "vulkan" vk valid_vuids getVUID 5 command with
  | Ok i => i
  | Raise _ => mkIntercept None None None
  end.

(** Two device groups, of two devices and of one. *)
Definition groups : list (cval * cval) :=
  [(VInt 2, VPtr (Some [VInt 41; VInt 42]));
   (VInt 1, VPtr (Some [VInt 43]))]%Z.

Definition groups_env : dict cval :=
  [("instance", VInt 1);
   ("pPhysicalDeviceGroupCount", VPtr (Some [VInt 2]));
   ("pPhysicalDeviceGroupProperties",
    VPtr (Some (map (fun g => device_group (fst g) (snd g)) groups)))]%Z.

Definition fences_env : dict cval :=
  [("device", VInt 1); ("fenceCount", VInt 2);
   ("pFences", VPtr (Some [VInt 7; VInt 8]))]%Z.

(** The shape of the registry's cPrototype, on one line. *)
Definition cPrototype (command : Command.t) : string :=
  "VKAPI_ATTR " ++ Command.returnType command ++ " VKAPI_CALL "
    ++ Command.name command ++ "("
    ++ String.concat ", "
         (map (fun p => Member.type p ++ " " ++ Member.name p)
            (Command.params command))
    ++ ");".

Definition protect (command : Command.t) : option string :=
  if Command.name command =? "vkDestroyVideoSessionKHR"
  then Some "VK_ENABLE_BETA_EXTENSIONS" else None.


End Sample.

(** * Properties *)

(** ** Python values *)

Lemma bind_Ok {A B : Type} (r : res A) (k : A -> res B) (b : B) :
  Py.bind r k = Ok b -> exists a, r = Ok a /\ k a = Ok b.
Proof.
  destruct r as [a|e]; simpl; intros H.
  - exists a. split; [reflexivity | exact H].
  - discriminate H.
Qed.

Ltac bind_inv H :=
  let a := fresh "a" in
  let Ha := fresh "Ha" in
  apply bind_Ok in H; destruct H as [a [Ha H]].

Lemma eqb_member_refl (m : Member.t) : Member.eqb m m = true.
Proof.
  unfold Member.eqb.
  rewrite !String.eqb_refl, !Bool.eqb_reflx.
  destruct (Member.length m); [rewrite String.eqb_refl|]; reflexivity.
Qed.

Lemma eqb_member_eq (a b : Member.t) : Member.eqb a b = true -> a = b.
Proof.
  unfold Member.eqb. destruct a as [n t v l p o q], b as [n' t' v' l' p' o' q'].
  simpl. intros H.
  repeat (apply andb_true_iff in H; destruct H as [H ?]).
  apply String.eqb_eq in H. subst n'.
  repeat match goal with
         | E : (_ =? _) = true |- _ => apply String.eqb_eq in E; subst
         | E : Bool.eqb _ _ = true |- _ => apply Bool.eqb_prop in E; subst
         end.
  destruct l as [x|], l' as [y|]; try discriminate.
  - match goal with E : (x =? y) = true |- _ => apply String.eqb_eq in E; subst end.
    reflexivity.
  - reflexivity.
Qed.

Lemma eqb_member_neq (a b : Member.t) : a <> b -> Member.eqb a b = false.
Proof.
  intros H. destruct (Member.eqb a b) eqn:E; [|reflexivity].
  apply eqb_member_eq in E. contradiction.
Qed.

(** ** The success gate of generateSource *)

Lemma eval_failureCondition (vars : dict cval) (idx : dict nat) (name : string)
    (result : Z) :
  eval_cond vars result idx (failureCondition name)
  = Some (negb (accepted name result)).
Proof.
  unfold failureCondition, accepted.
  destruct (contains "EnumeratePhysicalDeviceGroups" name),
           (contains "CreateShadersEXT" name); simpl;
    destruct (result =? 0)%Z; simpl; try reflexivity;
    destruct (result =? 5)%Z; simpl; try reflexivity;
    destruct (result =? 1000482000)%Z; reflexivity.
Qed.

Lemma run_gate_closed (vars : dict cval) (result : Z) (c : ccond)
    (rest : list stmt) :
  eval_cond vars result [] c = Some true ->
  run_function vars result (SReturnIf c :: rest) = Some [].
Proof.
  intros H. unfold run_function, run_block. simpl. rewrite H. reflexivity.
Qed.

Lemma run_gate_open (vars : dict cval) (result : Z) (c : ccond)
    (rest : list stmt) :
  eval_cond vars result [] c = Some false ->
  run_function vars result (SReturnIf c :: rest) = run_function vars result rest.
Proof.
  intros H. unfold run_function, run_block. simpl. rewrite H.
  destruct (run_seq (run_stmt vars result []) rest) as [[t f]|]; reflexivity.
Qed.

(** ** Substrings *)



Lemma append_assoc (a b c : string) : (a ++ b) ++ c = a ++ (b ++ c).
Proof. induction a; simpl; [reflexivity | now rewrite IHa]. Qed.




(** ** Loops of the emitted code *)

Lemma run_loop_all {A : Type} (body : nat -> option (list event * flow))
    (g : A -> list event) (xs : list A) (k : nat) :
  (forall i x, nth_error xs i = Some x ->
     body (k + i) = Some (g x, Next) \/ body (k + i) = Some (g x, Continue)) ->
  run_loop body (seq k (List.length xs)) = Some (flat_map g xs, Next).
Proof.
  revert k. induction xs as [|x xs IH]; intros k H; simpl; [reflexivity|].
  assert (Hx := H 0 x eq_refl). rewrite Nat.add_0_r in Hx.
  assert (Hrest : run_loop body (seq (S k) (List.length xs))
                  = Some (flat_map g xs, Next)).
  { apply IH. intros i y Hy. specialize (H (S i) y Hy).
    now rewrite Nat.add_succ_r in H. }
  destruct Hx as [Hx|Hx]; rewrite Hx, Hrest; reflexivity.
Qed.



Lemma flat_map_singleton {A B : Type} (g : A -> B) (xs : list A) :
  flat_map (fun x => [g x]) xs = map g xs.
Proof. induction xs as [|x xs IH]; simpl; [reflexivity | now rewrite IH]. Qed.


Lemma eval_countExpr (vars : dict cval) (idx : dict nat) (before : Param)
    (len : string) :
  eval_expr vars idx (countExpr before len)
  = eval_expr vars [] (countExpr before len).
Proof. unfold countExpr. destruct (_ && _); reflexivity. Qed.



(** The guarded loop emitted for a batch, once the array is known to be
    there and the loop is known to run to its end. *)
Lemma run_function_batch (vars : dict cval) (result : Z) (x index : string)
    (count : cexpr) (body : list stmt) (cells : list cval) (n : nat)
    (t : list event) :
  get vars x = Some (VPtr (Some cells)) ->
  eval_expr vars [] count = Some (VInt (Z.of_nat n)) ->
  run_loop (fun i => run_seq (run_stmt vars result [(index, i)]) body) (seq 0 n)
  = Some (t, Next) ->
  run_function vars result [SIf (CTrue (EVar x)) [SFor index count body]]
  = Some t.
Proof.
  intros Hx Hc Hl. unfold run_function, run_block.
  cbn [run_seq run_stmt eval_cond eval_expr]. rewrite Hx.
  cbn [truthy run_seq run_stmt]. rewrite Hc, Nat2Z.id, Hl.
  now rewrite !app_nil_r.
Qed.

(** ** Loops of the generator *)

Lemma concat_mapM_app {A B : Type} (f : A -> res (list B)) (l1 l2 : list A)
    (out : list B) :
  concat_mapM f (l1 ++ l2)%list = Ok out ->
  exists o1 o2,
    concat_mapM f l1 = Ok o1 /\ concat_mapM f l2 = Ok o2 /\ out = (o1 ++ o2)%list.
Proof.
  revert out. induction l1 as [|a l1 IH]; intros out H; simpl in *.
  - exists [], out. repeat split. exact H.
  - bind_inv H. rename a0 into x. bind_inv H. rename a0 into y.
    inversion H; subst out. destruct (IH y Ha0) as (o1 & o2 & H1 & H2 & ->).
    exists (x ++ o1)%list, o2. rewrite Ha, H1. simpl.
    repeat split; [exact H2 | now rewrite app_assoc].
Qed.

Lemma concat_mapM_split {A B : Type} (f : A -> res (list B)) (l1 l2 : list A)
    (x : A) (out : list B) :
  concat_mapM f (l1 ++ x :: l2)%list = Ok out ->
  exists o1 ox o2,
    concat_mapM f l1 = Ok o1 /\ f x = Ok ox /\ concat_mapM f l2 = Ok o2
    /\ out = (o1 ++ ox ++ o2)%list.
Proof.
  intros H. apply concat_mapM_app in H. destruct H as (o1 & o & H1 & H2 & ->).
  simpl in H2. bind_inv H2. rename a into ox. bind_inv H2. rename a into o2.
  inversion H2; subst o. exists o1, ox, o2. repeat split; assumption.
Qed.

Lemma concat_mapM_In {A B : Type} (f : A -> res (list B)) (l : list A)
    (x : A) (out : list B) :
  concat_mapM f l = Ok out -> In x l ->
  exists o1 ox o2, f x = Ok ox /\ out = (o1 ++ ox ++ o2)%list.
Proof.
  intros H Hin. apply in_split in Hin. destruct Hin as (l1 & l2 & ->).
  apply concat_mapM_split in H. destruct H as (o1 & ox & o2 & _ & Hx & _ & ->).
  exists o1, ox, o2. split; [exact Hx | reflexivity].
Qed.

Lemma from_end_last {A : Type} (l : list A) (x d : A) :
  from_end l 1 = Ok x -> List.last l d = x /\ In x l.
Proof.
  unfold from_end. simpl. destruct (rev l) as [|y r] eqn:E; [discriminate|].
  simpl. intros H. inversion H; subst y.
  assert (El : l = (rev r ++ [x])%list).
  { rewrite <- (rev_involutive l), E. reflexivity. }
  rewrite El. split; [apply last_last | apply in_or_app; right; now left].
Qed.

Lemma NoDup_map_eq {A B : Type} (f : A -> B) (l : list A) (a b : A) :
  NoDup (map f l) -> In a l -> In b l -> f a = f b -> a = b.
Proof.
  induction l as [|x l IH]; simpl; intros Hn Ha Hb E; [contradiction|].
  inversion Hn as [|? ? Hx Hl]; subst.
  destruct Ha as [->|Ha], Hb as [->|Hb].
  - reflexivity.
  - exfalso. apply Hx. rewrite E. now apply in_map.
  - exfalso. apply Hx. rewrite <- E. now apply in_map.
  - now apply IH.
Qed.

Lemma validate_targets_app (a b : list stmt) :
  validate_targets (a ++ b)%list
  = (validate_targets a ++ validate_targets b)%list.
Proof. unfold validate_targets. now rewrite !flat_map_app. Qed.

Lemma concat_mapM_targets {A : Type} (f : A -> res (list stmt)) (l : list A)
    (out : list stmt) (e : cexpr) :
  concat_mapM f l = Ok out -> In e (validate_targets out) ->
  exists x ox, In x l /\ f x = Ok ox /\ In e (validate_targets ox).
Proof.
  revert out. induction l as [|a l IH]; intros out H Hin; simpl in H.
  - inversion H; subst. contradiction.
  - bind_inv H. rename a0 into ox. bind_inv H. rename a0 into rest.
    inversion H; subst out. rewrite validate_targets_app in Hin.
    apply in_app_or in Hin. destruct Hin as [Hin|Hin].
    + exists a, ox. repeat split; [now left | assumption | assumption].
    + destruct (IH rest Ha0 Hin) as (x & ox' & Hx & Hf & He).
      exists x, ox'. repeat split; [now right | assumption | assumption].
Qed.

Lemma root_access_nested (pfx : prefix) (name f : string) (e : cexpr) :
  root e = root (access pfx name) ->
  root (access (PDot e) f) = root (access pfx name)
  /\ root (access (PArrow e) f) = root (access pfx name).
Proof. simpl. auto. Qed.

(** ** Blocks of the emitted code *)

Lemma run_seq_app (run : stmt -> option (list event * flow)) (a b : list stmt) :
  run_seq run (a ++ b)%list
  = match run_seq run a with
    | Some (t, Next) =>
        match run_seq run b with
        | Some (t', f) => Some ((t ++ t')%list, f)
        | None => None
        end
    | other => other
    end.
Proof.
  induction a as [|s a IH]; simpl.
  - destruct (run_seq run b) as [[t f]|]; reflexivity.
  - destruct (run s) as [[t f]|]; [|reflexivity].
    destruct f; try reflexivity. rewrite IH.
    destruct (run_seq run a) as [[t1 f1]|]; [|reflexivity].
    destruct f1; try reflexivity.
    destruct (run_seq run b) as [[t2 f2]|]; [|reflexivity].
    now rewrite app_assoc.
Qed.

(** A statement that runs to its end without a call can be left out. *)
Lemma run_seq_skip (run : stmt -> option (list event * flow))
    (a code b : list stmt) :
  run_seq run code = Some ([], Next) ->
  run_seq run (a ++ code ++ b)%list = run_seq run (a ++ b)%list.
Proof.
  intros H. rewrite !run_seq_app, H.
  destruct (run_seq run a) as [[t f]|]; [|reflexivity].
  destruct f; try reflexivity.
  destruct (run_seq run b) as [[t' f']|]; reflexivity.
Qed.

Lemma run_if_false (vars : dict cval) (result : Z) (idx : dict nat)
    (c : ccond) (body : list stmt) :
  eval_cond vars result idx c = Some false ->
  run_block vars result idx [SIf c body] = Some ([], Next).
Proof. intros H. unfold run_block. simpl. now rewrite H. Qed.

(** ** The registry model *)

Lemma AllOfType_In (type : string) (reg : Registry.t) (r : Registry.HandleRecord) :
  In r (Registry.AllOfType type reg) <-> In r reg /\ Registry.objtype r = type.
Proof.
  unfold Registry.AllOfType. rewrite filter_In, String.eqb_eq. reflexivity.
Qed.

Lemma AllOfType_nil (type : string) (reg : Registry.t) :
  Registry.AllOfType type reg = []
  <-> forall r, In r reg -> Registry.objtype r <> type.
Proof.
  split.
  - intros H r Hr E.
    assert (Hin : In r (Registry.AllOfType type reg)) by now apply AllOfType_In.
    rewrite H in Hin. contradiction.
  - intros H. destruct (Registry.AllOfType type reg) as [|r l] eqn:E;
      [reflexivity|].
    assert (Hin : In r (Registry.AllOfType type reg)) by (rewrite E; now left).
    apply AllOfType_In in Hin. destruct Hin as [Hr Ht]. now elim (H r Hr).
Qed.

Lemma destroy_incl (reg : Registry.t) (e : event) (r : Registry.HandleRecord) :
  In r (Registry.destroy reg e) -> In r reg.
Proof.
  destruct e; simpl; auto. intros H. apply filter_In in H. tauto.
Qed.

Lemma cleared_incl (trace : list event) (reg : Registry.t)
    (r : Registry.HandleRecord) :
  In r (Registry.cleared reg trace) -> In r reg.
Proof.
  unfold Registry.cleared. revert reg.
  induction trace as [|e trace IH]; intros reg H; simpl in H; [exact H|].
  apply IH in H. now apply destroy_incl in H.
Qed.

Lemma cleared_type (trace : list event) (reg : Registry.t) (type : string) :
  In (DestroyUndestroyedObjects type) trace ->
  Registry.AllOfType type (Registry.cleared reg trace) = [].
Proof.
  unfold Registry.cleared. revert reg.
  induction trace as [|e trace IH]; intros reg H; [contradiction|].
  simpl. destruct H as [->|H]; [|now apply IH].
  apply AllOfType_nil. intros r Hr E.
  apply (cleared_incl trace) in Hr. simpl in Hr.
  apply filter_In in Hr. destruct Hr as [_ Hr].
  rewrite E, String.eqb_refl in Hr. discriminate.
Qed.

Lemma diagnostics_In (reg : Registry.t) (trace : list event)
    (d : Registry.Diagnostic) :
  In d (Registry.diagnostics reg trace)
  <-> exists e, In e trace /\ In d (Registry.report reg e).
Proof. unfold Registry.diagnostics. apply in_flat_map. Qed.

Lemma teardown_ok_of_traces (targetApiName : string) (reg : Registry.t)
    (handles : list Handle.t) (extra : list string) (error_code : string)
    (ev : string -> string -> event) :
  (forall t c, Registry.report reg (ev t c)
               = map (Registry.mkDiagnostic c) (Registry.AllOfType t reg)) ->
  teardown_ok targetApiName reg handles extra error_code
    (map (fun t => ev t error_code) (reported_types targetApiName handles extra))
    (map DestroyUndestroyedObjects (cleared_types handles extra)).
Proof.
  intros Hev. unfold teardown_ok. split; [|split].
  - intros r Hr Ht. apply diagnostics_In.
    exists (ev (Registry.objtype r) error_code). split.
    + apply (in_map (fun t => ev t error_code)). exact Ht.
    + rewrite Hev. apply in_map. now apply AllOfType_In.
  - intros d H. apply diagnostics_In in H. destruct H as (e & He & Hd).
    apply in_map_iff in He. destruct He as (t & <- & Ht).
    rewrite Hev in Hd. apply in_map_iff in Hd. destruct Hd as (r & <- & Hr).
    apply AllOfType_In in Hr. destruct Hr as [Hr <-]. simpl. auto.
  - intros type Ht. apply cleared_type. now apply in_map.
Qed.

Lemma run_destroy_lines (vars : dict cval) (result : Z) (idx : dict nat)
    (types : list string) :
  run_seq (run_stmt vars result idx)
    (map (fun t => SCall (CallDestroyUndestroyedObjects t)) types)
  = Some (map DestroyUndestroyedObjects types, Next).
Proof.
  induction types as [|t types IH]; simpl; [reflexivity|]. now rewrite IH.
Qed.

Lemma run_function_of_block (vars : dict cval) (result : Z) (body : list stmt)
    (t : list event) :
  run_seq (run_stmt vars result []) body = Some (t, Next) ->
  run_function vars result body = Some t.
Proof. intros H. unfold run_function, run_block. now rewrite H. Qed.

Lemma concat_mapM_total {A B : Type} (f : A -> res (list B)) (l : list A) :
  (forall x, In x l -> exists o, f x = Ok o) ->
  exists out, concat_mapM f l = Ok out.
Proof.
  induction l as [|a l IH]; intros H; simpl.
  - now exists [].
  - destruct (H a (or_introl eq_refl)) as [o Ho].
    destruct IH as [out Hout]; [intros x Hx; apply H; now right|].
    rewrite Ho, Hout. simpl. eauto.
Qed.

Lemma from_end_total {A : Type} (l : list A) (k : nat) :
  1 <= k <= List.length l -> exists x, from_end l k = Ok x.
Proof.
  intros H. unfold from_end.
  destruct (nth_error (rev l) (pred k)) as [x|] eqn:E; [now exists x|].
  apply nth_error_None in E. rewrite length_rev in E. lia.
Qed.

Lemma run_block_guarded_loop (vars : dict cval) (result : Z) (idx : dict nat)
    (c : ccond) (index : string) (count : cexpr) (body : list stmt) (n : nat)
    (t : list event) :
  eval_cond vars result idx c = Some true ->
  eval_expr vars idx count = Some (VInt (Z.of_nat n)) ->
  run_loop (fun i => run_seq (run_stmt vars result ((index, i) :: idx)) body)
    (seq 0 n) = Some (t, Next) ->
  run_block vars result idx [SIf c [SFor index count body]] = Some (t, Next).
Proof.
  intros Hc Hn Hl. unfold run_block. cbn [run_seq run_stmt].
  rewrite Hc, Hn, Nat2Z.id, Hl. now rewrite !app_nil_r.
Qed.

(** ** Lists built under exceptions *)

Lemma mapM_Forall2 {A B : Type} (f : A -> res B) (l : list A) (out : list B) :
  mapM f l = Ok out -> Forall2 (fun x y => f x = Ok y) l out.
Proof.
  revert out. induction l as [|a l IH]; intros out H; simpl in H.
  - inversion H. constructor.
  - bind_inv H. bind_inv H. inversion H; subst out. constructor; auto.
Qed.

Lemma filter_length_split {A : Type} (p q : A -> bool) (l : list A) :
  List.length (filter (fun x => p x && negb (q x)) l)
  + List.length (filter (fun x => p x && q x) l)
  = List.length (filter p l).
Proof.
  induction l as [|a l IH]; [reflexivity|]. simpl.
  destruct (p a), (q a); simpl; lia.
Qed.

Lemma concat_mapM_Raise {A B : Type} (f : A -> res (list B)) (l : list A)
    (e : exn) :
  concat_mapM f l = Raise e -> exists x, In x l /\ f x = Raise e.
Proof.
  induction l as [|a l IH]; intros H; simpl in H; [discriminate|].
  destruct (f a) as [x|e'] eqn:Ea; simpl in H.
  - destruct (concat_mapM f l) as [y|e''] eqn:El; simpl in H; [discriminate|].
    inversion H; subst e''. destruct (IH eq_refl) as (x' & Hin & Hx).
    exists x'. split; [now right | exact Hx].
  - inversion H; subst e'. exists a. split; [now left | exact Ea].
Qed.

Lemma from_end_Raise {A : Type} (l : list A) (k : nat) (e : exn) :
  from_end l k = Raise e -> e = IndexError /\ List.length l <= pred k.
Proof.
  unfold from_end. destruct (nth_error (rev l) (pred k)) eqn:E; [discriminate|].
  intros H. inversion H. split; [reflexivity|].
  apply nth_error_None in E. now rewrite length_rev in E.
Qed.

Lemma concat_mapM_calls {A : Type} (f : A -> res (list stmt)) (l : list A)
    (out : list stmt) (c : ccall) :
  concat_mapM f l = Ok out ->
  In c (flat_map calls_of out) ->
  exists x ox, In x l /\ f x = Ok ox /\ In c (flat_map calls_of ox).
Proof.
  revert out. induction l as [|a l IH]; intros out H Hin; simpl in H.
  - inversion H; subst out. contradiction.
  - bind_inv H. rename a0 into ox. bind_inv H. rename a0 into rest.
    inversion H; subst out. rewrite flat_map_app in Hin.
    apply in_app_or in Hin. destruct Hin as [Hin|Hin].
    + exists a, ox. split; [now left | split; assumption].
    + destruct (IH rest Ha0 Hin) as (x & ox' & Hx & Hf & Hc).
      exists x, ox'. split; [now right | split; assumption].
Qed.


Lemma concat_mapM_nil {A B : Type} (f : A -> res (list B)) (l : list A) :
  (forall x, In x l -> f x = Ok []) -> concat_mapM f l = Ok [].
Proof.
  induction l as [|a l IH]; intros H; [reflexivity|]. cbn [concat_mapM].
  rewrite (H a (or_introl eq_refl)). cbn [Py.bind].
  rewrite IH; [reflexivity|]. intros x Hx. apply H. now right.
Qed.

Lemma in_list_In (x : string) (l : list string) :
  in_list x l = true <-> In x l.
Proof.
  unfold in_list. rewrite existsb_exists. split.
  - intros (y & Hy & E). apply String.eqb_eq in E. now subst y.
  - intros H. exists x. split; [exact H | apply String.eqb_refl].
Qed.



(** ** Scopes of the loop indices *)

Lemma expr_indices_access (pfx : prefix) (f : string) :
  expr_indices (access pfx f) = prefix_indices pfx.
Proof. destruct pfx; reflexivity. Qed.

Lemma bound_in_access (bound : list string) (pfx : prefix) (f : string) :
  forallb (fun i => in_list i bound) (prefix_indices pfx) = true ->
  bound_in bound (access pfx f) = true.
Proof. unfold bound_in. now rewrite expr_indices_access. Qed.




(** ** Keys of the hand-maintained table *)

Lemma get_In {V : Type} (d : dict V) (k : string) (v : V) :
  get d k = Some v -> In (k, v) d.
Proof.
  induction d as [|[k' v'] d IH]; intros H; simpl in H; [discriminate|].
  destruct (String.eqb_spec k' k) as [E|E].
  - inversion H; subst. now left.
  - right. now apply IH.
Qed.

Lemma length_append (a b : string) :
  String.length (a ++ b) = String.length a + String.length b.
Proof. induction a; simpl; [reflexivity | now rewrite IHa]. Qed.

Lemma append_not_suffix (c : ascii) (x suffix : string) :
  String c x ++ suffix <> suffix.
Proof.
  intros E. apply (f_equal String.length) in E.
  rewrite length_append in E. simpl in E. lia.
Qed.

Lemma strip_suffix_eq (suffix s : string) :
  strip_suffix suffix s
  = if s =? suffix then Some EmptyString
    else match s with
         | EmptyString => None
         | String c s' => option_map (String c) (strip_suffix suffix s')
         end.
Proof. destruct s; reflexivity. Qed.

Lemma strip_suffix_spec (suffix s x : string) :
  strip_suffix suffix s = Some x <-> x ++ suffix = s.
Proof.
  split.
  - revert x. induction s as [|c s IH]; intros x H;
      rewrite strip_suffix_eq in H.
    + destruct (String.eqb_spec "" suffix) as [E|E]; [|discriminate].
      inversion H. exact (eq_sym E).
    + destruct (String.eqb_spec (String c s) suffix) as [E|E].
      * inversion H. exact (eq_sym E).
      * destruct (strip_suffix suffix s) as [x'|]; [|discriminate].
        inversion H. cbn [append]. now rewrite (IH x' eq_refl).
  - revert s. induction x as [|c x IH]; intros s H; cbn [append] in H;
      subst s; rewrite strip_suffix_eq.
    + now rewrite String.eqb_refl.
    + destruct (String.eqb_spec (String c (x ++ suffix)) suffix) as [E|E].
      * destruct (append_not_suffix c x suffix E).
      * now rewrite (IH _ eq_refl).
Qed.

Lemma get_suffix_key {V : Type} (d : dict V) (x suffix : string) :
  get d (x ++ suffix) <> None <-> In x (stems suffix d).
Proof.
  induction d as [|[k v] d IH]; [simpl; tauto|].
  cbn [get stems flat_map fst]. rewrite in_app_iff.
  destruct (String.eqb_spec k (x ++ suffix)) as [E|E].
  - split; [|discriminate]. intros _. left.
    symmetry in E. apply strip_suffix_spec in E. rewrite E. now left.
  - rewrite IH. split; [tauto|]. intros [H|H]; [|exact H].
    destruct (strip_suffix suffix k) as [y|] eqn:Ey; [|contradiction].
    destruct H as [<-|[]]. apply strip_suffix_spec in Ey. congruence.
Qed.

Lemma manual_vuids_literals :
  Forall (fun kv => exists s, snd kv = quoted ("VUID-" ++ s)) manual_vuids.
Proof. repeat constructor; eexists; reflexivity. Qed.

Lemma manual_vuids_get (k v : string) :
  get manual_vuids k = Some v -> exists s, v = quoted ("VUID-" ++ s).
Proof.
  intros H. apply get_In in H.
  pose proof manual_vuids_literals as Hall. rewrite Forall_forall in Hall.
  exact (Hall (k, v) H).
Qed.

Lemma quoted_not_undefined (s : string) : quoted s <> kVUIDUndefined.
Proof. unfold quoted, dq, kVUIDUndefined. intros E. inversion E. Qed.

Lemma manual_vuids_paired (x : string) :
  get manual_vuids (x ++ "-compatalloc") = None
  <-> get manual_vuids (x ++ "-nullalloc") = None.
Proof.
  assert (Hs : stems "-compatalloc" manual_vuids
               = stems "-nullalloc" manual_vuids) by (vm_compute; reflexivity).
  pose proof (get_suffix_key manual_vuids x "-compatalloc") as Hc.
  pose proof (get_suffix_key manual_vuids x "-nullalloc") as Hn.
  rewrite Hs in Hc.
  destruct (get manual_vuids (x ++ "-compatalloc")),
           (get manual_vuids (x ++ "-nullalloc"));
    split; intros H; try reflexivity; try discriminate; exfalso.
  - apply (proj2 Hn); [apply (proj1 Hc); discriminate | reflexivity].
  - apply (proj2 Hc); [apply (proj1 Hn); discriminate | reflexivity].
Qed.

(** ** Python's split *)

Lemma contains_cons (sub : string) (c : ascii) (s : string) :
  contains sub (String c s)
  = if String.prefix sub (String c s) then true else contains sub s.
Proof. reflexivity. Qed.

Lemma append_nil_r (s : string) : s ++ "" = s.
Proof. induction s; simpl; [reflexivity | now rewrite IHs]. Qed.

Lemma split_from_absent (sep : string) :
  forall s cur,
    contains sep s = false -> split_from sep 0 cur s = [cur ++ s].
Proof.
  induction s as [|c s IH]; intros cur H.
  - cbn [split_from]. now rewrite append_nil_r.
  - rewrite contains_cons in H. cbn [split_from].
    destruct (String.prefix sep (String c s)); [discriminate|].
    rewrite (IH _ H), append_assoc. reflexivity.
Qed.

Lemma split_from_nonempty (sep : string) :
  forall s skip cur, split_from sep skip cur s <> [].
Proof.
  induction s as [|c s IH]; intros skip cur; cbn [split_from];
    [discriminate|].
  destruct skip; [|apply IH].
  destruct (String.prefix sep (String c s)); [discriminate | apply IH].
Qed.

Lemma split_from_present (sep : string) :
  forall s cur,
    contains sep s = true ->
    sep <> "" ->
    2 <= List.length (split_from sep 0 cur s).
Proof.
  induction s as [|c s IH]; intros cur H Hne.
  - destruct sep; [contradiction | discriminate].
  - rewrite contains_cons in H. cbn [split_from].
    destruct (String.prefix sep (String c s)).
    + cbn [List.length].
      pose proof (split_from_nonempty sep s (String.length sep - 1) "") as Hn.
      destruct (split_from sep (String.length sep - 1) "" s);
        [contradiction | simpl; lia].
    + now apply IH.
Qed.

Lemma second_raises {A : Type} (l : list A) :
  second l = Raise IndexError <-> List.length l < 2.
Proof.
  unfold second. destruct l as [|a [|b l]]; simpl; split; intros H;
    try reflexivity; try discriminate; lia.
Qed.

Lemma concat_mapM_ext {A B : Type} (f g : A -> res (list B)) (l : list A)
    (out : list B) :
  concat_mapM f l = Ok out ->
  (forall x ox, In x l -> f x = Ok ox -> g x = Ok ox) ->
  concat_mapM g l = Ok out.
Proof.
  revert out. induction l as [|a l IH]; intros out H Hfg; simpl in H |- *.
  - exact H.
  - bind_inv H. rename a0 into ox. bind_inv H. rename a0 into rest.
    rewrite (Hfg a ox (or_introl eq_refl) Ha). cbn [Py.bind].
    rewrite (IH rest Ha0); [exact H|]. intros x ox' Hx. apply Hfg. now right.
Qed.

(** ** Python's replace *)

Lemma replace_app (old : ascii) (new a b : string) :
  replace old new (a ++ b) = replace old new a ++ replace old new b.
Proof.
  induction a as [|c a IH]; [reflexivity|]. cbn [append replace].
  now rewrite IH, append_assoc.
Qed.

Lemma replace_absent (old : ascii) (new s : string) :
  contains (String old "") s = false -> replace old new s = s.
Proof.
  induction s as [|c s IH]; intros H; [reflexivity|].
  rewrite contains_cons in H. cbn [replace].
  destruct (String.prefix (String old "") (String c s)) eqn:Ep;
    [discriminate|].
  destruct (Ascii.eqb_spec c old) as [E|E].
  - subst c. simpl in Ep. destruct (ascii_dec old old); [|contradiction].
    destruct s; discriminate.
  - cbn [append]. now rewrite (IH H).
Qed.

Section Proofs.

Variable targetApiName : string.
Variable vk : VulkanObject.t.
Variable valid_vuids : list string.
Variable getVUID : list string -> string -> string.

Local Notation genBody :=
  (generateFunctionBody targetApiName vk valid_vuids getVUID).
Local Notation genIntercept :=
  (generateIntercept targetApiName vk valid_vuids getVUID).
Local Notation walkObjects := (validateObjects vk valid_vuids getVUID).

(** ** generateFunctionBody and generateSource, taken apart *)

Lemma generateFunctionBody_inv (fuel : nat) (command : Command.t)
    (v pre post : list stmt) :
  genBody fuel command = Ok (v, pre, post) ->
  exists (c : bool) (w dv : list stmt),
    isCreate command = Ok c
    /\ walkObjects fuel (Command.params command) PTop 0 (Command.name command)
         (Command.name command) "error_obj.location" c = Ok w
    /\ (if c then recordCreate vk command else Ok []) = Ok post
    /\ (if isDestroy command
        then recordDestroy targetApiName vk command else Ok ([], []))
       = Ok (dv, pre)
    /\ v = (w ++ dv)%list.
Proof.
  unfold generateFunctionBody. intros H.
  bind_inv H. rename a into c.
  bind_inv H. rename a into w.
  bind_inv H. rename a into p.
  bind_inv H. destruct a as [dv dr]. simpl in H.
  inversion H; subst. exists c, w, dv. repeat split; assumption.
Qed.

Lemma generateIntercept_inv (fuel : nat) (command : Command.t) (i : Intercept) :
  genIntercept fuel command = Ok i ->
  exists v pre post,
    genBody fuel command = Ok (v, pre, post)
    /\ PreCallValidate i = if_nonempty v
    /\ PreCallRecord i = if_nonempty pre
    /\ PostCallRecord i =
         match post with
         | [] => None
         | _ => Some (postCallRecordBody command post)
         end.
Proof.
  unfold generateIntercept. intros H. bind_inv H.
  destruct a as [[v pre] post]. inversion H; subst. simpl.
  exists v, pre, post. repeat split; assumption.
Qed.

(** C1. When a command returns a VkResult and is not one of the pipeline
    creations, the emitted PostCallRecord returns at once, having made no
    runtime call at all (so no CreateObject, and nothing that could change
    the registry), whenever the reported result is not VK_SUCCESS, nor
    VK_INCOMPLETE for a physical-device-group enumeration, nor the
    incompatible-binary code for vkCreateShadersEXT. *)
Theorem failed_create_records_nothing (fuel : nat) (command : Command.t)
    (i : Intercept) (body : list stmt) (vars : dict cval) (result : Z) :
  genIntercept fuel command = Ok i ->
  PostCallRecord i = Some body ->
  Command.returnType command = "VkResult" ->
  isCreatePipelines (Command.name command) = false ->
  result <> code_value VK_SUCCESS ->
  (contains "EnumeratePhysicalDeviceGroups" (Command.name command) = true ->
   result <> code_value VK_INCOMPLETE) ->
  (contains "CreateShadersEXT" (Command.name command) = true ->
   result <> code_value VK_ERROR_INCOMPATIBLE_SHADER_BINARY_EXT) ->
  run_function vars result body = Some [].
Proof.
  intros Hgen Hpost Hret Hpipe Hs Hi Hb.
  apply generateIntercept_inv in Hgen.
  destruct Hgen as (v & pre & post & _ & _ & _ & Hp).
  rewrite Hp in Hpost. destruct post as [|s post]; [discriminate|].
  inversion Hpost; subst body; clear Hpost.
  unfold postCallRecordBody. rewrite Hret, Hpipe. simpl.
  apply run_gate_closed. rewrite eval_failureCondition. f_equal.
  unfold accepted.
  apply Z.eqb_neq in Hs. rewrite Hs.
  destruct (contains "EnumeratePhysicalDeviceGroups" (Command.name command)).
  - specialize (Hi eq_refl). apply Z.eqb_neq in Hi. rewrite Hi.
    destruct (contains "CreateShadersEXT" (Command.name command)).
    + specialize (Hb eq_refl). apply Z.eqb_neq in Hb. rewrite Hb. reflexivity.
    + reflexivity.
  - destruct (contains "CreateShadersEXT" (Command.name command)).
    + specialize (Hb eq_refl). apply Z.eqb_neq in Hb. rewrite Hb. reflexivity.
    + reflexivity.
Qed.



(** ** Destroy commands *)

Lemma recordDestroy_inv (command : Command.t) (dv pre : list stmt) :
  recordDestroy targetApiName vk command = Ok (dv, pre) ->
  exists hp,
    handle_param command = Ok hp
    /\ (dv, pre) =
       if is_handle vk (Member.type hp) then
         ([SCall (CallValidateDestroyObject (EVar (Member.name hp))
                    (kVulkanObjectType (Member.type hp))
                    (if contains "ReleasePerformanceConfigurationINTEL"
                          (Command.name command)
                     then ENull else EVar "pAllocator")
                    (getAllocVUID targetApiName hp "compatalloc")
                    (getAllocVUID targetApiName hp "nullalloc"))],
          [SCall (CallRecordDestroyObject (EVar (Member.name hp))
                    (kVulkanObjectType (Member.type hp)))])
       else ([], []).
Proof.
  unfold recordDestroy. intros H. bind_inv H.
  exists a. split; [exact Ha|].
  destruct (is_handle vk (Member.type a)); now inversion H.
Qed.

Lemma recordCreate_no_removal (command : Command.t) (post : list stmt) :
  recordCreate vk command = Ok post ->
  existsb is_removal (flat_map calls_of post) = false.
Proof.
  unfold recordCreate. intros H. bind_inv H.
  destruct (is_handle vk (Member.type a)).
  - bind_inv H.
    destruct (Member.length a), (isCreatePipelines (Command.name command)),
      (contains "CreateShaders" (Command.name command));
      inversion H; reflexivity.
  - destruct (Member.type a =? "VkPhysicalDeviceGroupProperties").
    + bind_inv H. bind_inv H. inversion H. reflexivity.
    + inversion H. reflexivity.
Qed.

(** C8. The destroy validation of a destroy/free command carries the two
    allocator identifiers chosen by getAllocVUID for the destroyed
    parameter: the entry of the hand-maintained table under
    [name-allocType], else the entry under [type-name-allocType], else
    kVUIDUndefined; and kVUIDUndefined in every case when the target does
    not enable allocation-callback identifiers. *)
Theorem allocator_vuids_from_table (fuel : nat) (command : Command.t)
    (v pre post : list stmt) (hp : Param) :
  genBody fuel command = Ok (v, pre, post) ->
  isDestroy command = true ->
  handle_param command = Ok hp ->
  is_handle vk (Member.type hp) = true ->
  (exists w allocator,
     v = (w ++ [SCall (CallValidateDestroyObject (EVar (Member.name hp))
                         (kVulkanObjectType (Member.type hp)) allocator
                         (getAllocVUID targetApiName hp "compatalloc")
                         (getAllocVUID targetApiName hp "nullalloc"))])%list)
  /\ forall allocType,
       let by_name := Member.name hp ++ "-" ++ allocType in
       let by_type :=
         Member.type hp ++ "-" ++ Member.name hp ++ "-" ++ allocType in
       (alloc_vuids_enabled targetApiName = false ->
        getAllocVUID targetApiName hp allocType = kVUIDUndefined)
       /\ (alloc_vuids_enabled targetApiName = true ->
           forall vuid, get manual_vuids by_name = Some vuid ->
           getAllocVUID targetApiName hp allocType = vuid)
       /\ (alloc_vuids_enabled targetApiName = true ->
           get manual_vuids by_name = None ->
           forall vuid, get manual_vuids by_type = Some vuid ->
           getAllocVUID targetApiName hp allocType = vuid)
       /\ (alloc_vuids_enabled targetApiName = true ->
           get manual_vuids by_name = None ->
           get manual_vuids by_type = None ->
           getAllocVUID targetApiName hp allocType = kVUIDUndefined).
Proof.
  intros Hgen Hd Hhp Hh. split.
  - apply generateFunctionBody_inv in Hgen.
    destruct Hgen as (c & w & dv & _ & _ & _ & Hdes & ->).
    rewrite Hd in Hdes. apply recordDestroy_inv in Hdes.
    destruct Hdes as (hp' & Hhp' & E). rewrite Hhp in Hhp'.
    inversion Hhp'; subst hp'. rewrite Hh in E. inversion E; subst.
    eexists; eexists; reflexivity.
  - intros allocType by_name by_type. unfold getAllocVUID.
    fold (alloc_vuids_enabled targetApiName). subst by_name by_type.
    repeat split.
    + intros ->. reflexivity.
    + intros -> vuid ->. reflexivity.
    + intros -> -> vuid ->. reflexivity.
    + intros -> -> ->. reflexivity.
Qed.

(** C10. A destroy/free command validates and records the destruction of
    its second-to-last parameter, checking the allocator argument
    pAllocator; vkReleasePerformanceConfigurationINTEL does so for its last
    parameter, passing nullptr for the allocator. The removal
    (RecordDestroyObject) is the whole of the pre-call record, which
    generateSource emits as PreCallRecord, and the post-call record holds
    no removal. When that parameter is not a handle, nothing is emitted for
    the destruction. *)
Theorem destroy_recorded_before_call (fuel : nat) (command : Command.t)
    (v pre post : list stmt) :
  genBody fuel command = Ok (v, pre, post) ->
  isDestroy command = true ->
  let release :=
    contains "ReleasePerformanceConfigurationINTEL" (Command.name command) in
  exists hp w,
    from_end (Command.params command) (if release then 1 else 2) = Ok hp
    /\ existsb is_removal (flat_map calls_of post) = false
    /\ if is_handle vk (Member.type hp) then
         (exists compat null,
            v = (w ++ [SCall (CallValidateDestroyObject (EVar (Member.name hp))
                                (kVulkanObjectType (Member.type hp))
                                (if release then ENull else EVar "pAllocator")
                                compat null)])%list)
         /\ pre = [SCall (CallRecordDestroyObject (EVar (Member.name hp))
                            (kVulkanObjectType (Member.type hp)))]
         /\ exists i, genIntercept fuel command = Ok i
                      /\ PreCallRecord i = Some pre
       else v = w /\ pre = [].
Proof.
  intros Hgen Hd release.
  pose proof Hgen as Hgen'.
  apply generateFunctionBody_inv in Hgen.
  destruct Hgen as (c & w & dv & _ & _ & Hpost & Hdes & ->).
  rewrite Hd in Hdes. apply recordDestroy_inv in Hdes.
  destruct Hdes as (hp & Hhp & E).
  exists hp, w. split; [|split].
  - unfold handle_param in Hhp. fold release in Hhp.
    destruct release; exact Hhp.
  - destruct c; [now apply (recordCreate_no_removal command)|].
    inversion Hpost. reflexivity.
  - fold release in E. destruct (is_handle vk (Member.type hp)).
    + inversion E; subst dv pre. split; [|split].
      * eexists; eexists; reflexivity.
      * reflexivity.
      * eexists. split.
        -- unfold generateIntercept. rewrite Hgen'. reflexivity.
        -- reflexivity.
    + inversion E; subst. split; [apply app_nil_r | reflexivity].
Qed.

(** ** The walk of validateObjects *)

Local Notation loopBody := (loop_body vk valid_vuids getVUID).
Local Notation handleCode := (validateHandle vk valid_vuids getVUID).

Lemma validateObjects_S (fuel' : nat) (first : Member.t)
    (rest : list Member.t) (pfx : prefix) (arrayIndex : nat)
    (parentName topCommand errorLoc : string) (isCreate : bool) :
  walkObjects (S fuel') (first :: rest) pfx arrayIndex parentName topCommand
    errorLoc isCreate
  = concat_mapM
      (loopBody fuel' (first :: rest) first pfx arrayIndex parentName
         topCommand errorLoc isCreate) (first :: rest).
Proof. reflexivity. Qed.

Lemma validateObjects_inv (fuel : nat) (members : list Member.t) (pfx : prefix)
    (arrayIndex : nat) (parentName topCommand errorLoc : string)
    (isCreate : bool) (out : list stmt) (first : Member.t) :
  walkObjects fuel members pfx arrayIndex parentName topCommand errorLoc isCreate
  = Ok out ->
  hd_error members = Some first ->
  exists fuel',
    fuel = S fuel'
    /\ concat_mapM
         (loopBody fuel' members first pfx arrayIndex parentName topCommand
            errorLoc isCreate) members
       = Ok out.
Proof.
  intros H Hf. destruct fuel as [|fuel']; [discriminate|].
  destruct members as [|m rest]; [discriminate|].
  inversion Hf; subst m. exists fuel'. split; [reflexivity | exact H].
Qed.

Lemma loop_body_handle (fuel' : nat) (members : list Member.t)
    (first : Member.t) (pfx : prefix) (arrayIndex : nat)
    (parentName topCommand errorLoc : string) (isCreate : bool)
    (member : Member.t) :
  is_handle vk (Member.type member) = true ->
  isCreate && Member.eqb member (List.last members first) = false ->
  loopBody fuel' members first pfx arrayIndex parentName topCommand errorLoc
    isCreate member
  = Ok (handleCode members first pfx ("index" ++ str_nat arrayIndex)
          parentName topCommand errorLoc member).
Proof.
  intros Hh Hs. unfold loop_body, validateMember. now rewrite Hs, Hh.
Qed.

(** The code of a handle member that the walk does not skip is part of the
    walk's output. *)
Lemma walk_handle_code (fuel : nat) (members : list Member.t) (pfx : prefix)
    (arrayIndex : nat) (parentName topCommand errorLoc : string)
    (isCreate : bool) (out : list stmt) (first member : Member.t) :
  walkObjects fuel members pfx arrayIndex parentName topCommand errorLoc isCreate
  = Ok out ->
  hd_error members = Some first ->
  In member members ->
  is_handle vk (Member.type member) = true ->
  isCreate && Member.eqb member (List.last members first) = false ->
  exists o1 o2,
    out = (o1 ++ handleCode members first pfx ("index" ++ str_nat arrayIndex)
                   parentName topCommand errorLoc member ++ o2)%list.
Proof.
  intros H Hf Hin Hh Hs.
  destruct (validateObjects_inv _ _ _ _ _ _ _ _ _ _ H Hf) as (fuel' & -> & Hc).
  destruct (concat_mapM_In _ _ _ _ Hc Hin) as (o1 & ox & o2 & Hx & ->).
  rewrite (loop_body_handle _ _ _ _ _ _ _ _ _ _ Hh Hs) in Hx.
  inversion Hx; subst ox. exists o1, o2. reflexivity.
Qed.

(** The code of a handle member holds one call, a ValidateObject of the
    member or of its elements, with the identifiers the generator chose. *)
Lemma calls_of_handle_code (members : list Member.t) (first : Member.t)
    (pfx : prefix) (index parentName topCommand errorLoc : string)
    (member : Member.t) :
  exists target nullAllowed paramVUID location,
    flat_map calls_of
      (handleCode members first pfx index parentName topCommand errorLoc member)
    = [CallValidateObject target (kVulkanObjectType (Member.type member))
         nullAllowed paramVUID
         (parentVUID vk valid_vuids getVUID members first parentName topCommand
            member)
         location]
    /\ (target = access pfx (Member.name member)
        \/ target = EIndex (access pfx (Member.name member)) index).
Proof.
  unfold validateHandle.
  destruct (truthy_opt (Member.length member));
    [|destruct (contains "basePipelineHandle" (Member.name member))];
    do 4 eexists; (split; [reflexivity|]); auto.
Qed.


(** C7. A handle field whose name holds basePipelineHandle (and that is
    not an array) is validated exactly when the flags field of the same
    aggregate has VK_PIPELINE_CREATE_DERIVATIVE_BIT set and its
    basePipelineIndex field is -1: then ValidateObject is called on it as
    non-nullable with the identifier the hand-maintained table holds under
    [parentName-name], or kVUIDUndefined without such an entry; otherwise
    the emitted code makes no call for it. *)
Theorem base_pipeline_handle_guard (fuel : nat) (members : list Member.t)
    (pfx : prefix) (arrayIndex : nat) (parentName topCommand errorLoc : string)
    (isCreate : bool) (out : list stmt) (first member : Member.t) :
  walkObjects fuel members pfx arrayIndex parentName topCommand errorLoc isCreate
  = Ok out ->
  hd_error members = Some first ->
  In member members ->
  is_handle vk (Member.type member) = true ->
  isCreate && Member.eqb member (List.last members first) = false ->
  truthy_opt (Member.length member) = false ->
  contains "basePipelineHandle" (Member.name member) = true ->
  let code :=
    handleCode members first pfx ("index" ++ str_nat arrayIndex) parentName
      topCommand errorLoc member in
  (exists o1 o2, out = (o1 ++ code ++ o2)%list)
  /\ forall vars result idx flags index h,
       eval_expr vars idx (access pfx "flags") = Some (VInt flags) ->
       eval_expr vars idx (access pfx "basePipelineIndex") = Some (VInt index) ->
       eval_expr vars idx (access pfx (Member.name member)) = Some h ->
       run_block vars result idx code
       = Some (if negb (Z.land flags VK_PIPELINE_CREATE_DERIVATIVE_BIT =? 0)%Z
                  && (index =? -1)%Z
               then [ValidateObject h (kVulkanObjectType (Member.type member))
                       "false"
                       match get manual_vuids
                               (parentName ++ "-" ++ Member.name member) with
                       | Some vuid => vuid
                       | None => kVUIDUndefined
                       end
                       (parentVUID vk valid_vuids getVUID members first
                          parentName topCommand member)
                       "error_obj.location"]
               else [],
               Next).
Proof.
  intros H Hf Hin Hh Hs Hlen Hname code. split.
  - exact (walk_handle_code _ _ _ _ _ _ _ _ _ _ _ H Hf Hin Hh Hs).
  - intros vars result idx flags index h Hflags Hindex Hhandle.
    subst code. unfold validateHandle. rewrite Hlen, Hname.
    unfold run_block. cbn [run_seq run_stmt eval_cond].
    rewrite Hflags, Hindex.
    destruct (negb (Z.land flags VK_PIPELINE_CREATE_DERIVATIVE_BIT =? 0)%Z);
      [|reflexivity].
    destruct (index =? -1)%Z; [|reflexivity].
    cbn [andb run_seq run_stmt run_call]. rewrite Hhandle. reflexivity.
Qed.

(** Every handle expression the walk validates starts from a member the
    walk did not skip. *)
Lemma walk_targets_rooted (fuel : nat) :
  forall (members : list Member.t) (pfx : prefix) (arrayIndex : nat)
         (parentName topCommand errorLoc : string) (isCreate : bool)
         (out : list stmt) (first : Member.t) (e : cexpr),
    walkObjects fuel members pfx arrayIndex parentName topCommand errorLoc
      isCreate = Ok out ->
    hd_error members = Some first ->
    In e (validate_targets out) ->
    exists m,
      In m members
      /\ isCreate && Member.eqb m (List.last members first) = false
      /\ root e = root (access pfx (Member.name m)).
Proof.
  induction fuel as [|fuel' IH];
    intros members pfx arrayIndex parentName topCommand errorLoc isCreate out
           first e H Hf Hin; [discriminate|].
  destruct (validateObjects_inv _ _ _ _ _ _ _ _ _ _ H Hf) as (f' & Ef & Hc).
  inversion Ef; subst f'; clear Ef.
  destruct (concat_mapM_targets _ _ _ _ Hc Hin) as (m & ox & Hm & Hx & He).
  exists m. split; [exact Hm|].
  unfold loop_body, validateMember in Hx.
  remember ("index" ++ str_nat arrayIndex) as index eqn:Eindex in Hx.
  clear Eindex.
  destruct (isCreate && Member.eqb m (List.last members first)) eqn:Hs.
  { inversion Hx; subst ox. contradiction. }
  split; [reflexivity|].
  destruct (is_handle vk (Member.type m)) eqn:Hh.
  { inversion Hx; subst ox.
    destruct (calls_of_handle_code members first pfx index parentName
                topCommand errorLoc m)
      as (target & na & pv & loc & Hcalls & Ht).
    unfold validate_targets in He. rewrite Hcalls in He. simpl in He.
    destruct He as [<-|[]]. destruct Ht as [->| ->]; reflexivity. }
  destruct (get (VulkanObject.structs vk) (Member.type m)) as [struct|];
    [|inversion Hx; subst ox; contradiction].
  bind_inv Hx. destruct a; [|inversion Hx; subst ox; contradiction].
  assert (Hnested :
    forall pfx' body ai pn loc,
      walkObjects fuel' (Struct.members struct) pfx' ai pn topCommand loc false
      = Ok body ->
      root_of_prefix pfx' = root (access pfx (Member.name m)) ->
      pfx' <> PTop ->
      In e (validate_targets body) ->
      root e = root (access pfx (Member.name m))).
  { intros pfx' body ai pn loc Hw Hr Hp Hb.
    destruct (Struct.members struct) as [|s0 rest] eqn:Es.
    - destruct fuel'; [discriminate|]. inversion Hw; subst body. contradiction.
    - destruct (IH _ _ _ _ _ _ _ _ s0 e Hw eq_refl Hb) as (m' & _ & _ & Hr').
      rewrite Hr'. destruct pfx'; [contradiction| |]; exact Hr. }
  destruct (Member.length m) as [len|]; [|destruct (Member.pointer m)];
    bind_inv Hx; inversion Hx; subst ox;
    unfold validate_targets in He; simpl in He; rewrite ?app_nil_r in He;
    (eapply Hnested; [exact Ha0 | reflexivity | discriminate | exact He]).
Qed.

(** A handle member the walk does not skip is validated. *)
Lemma walk_validates_handle (fuel : nat) (members : list Member.t)
    (pfx : prefix) (arrayIndex : nat) (parentName topCommand errorLoc : string)
    (isCreate : bool) (out : list stmt) (first member : Member.t) :
  walkObjects fuel members pfx arrayIndex parentName topCommand errorLoc isCreate
  = Ok out ->
  hd_error members = Some first ->
  In member members ->
  is_handle vk (Member.type member) = true ->
  isCreate && Member.eqb member (List.last members first) = false ->
  exists e,
    In e (validate_targets out)
    /\ root e = root (access pfx (Member.name member)).
Proof.
  intros H Hf Hin Hh Hs.
  destruct (walk_handle_code _ _ _ _ _ _ _ _ _ _ _ H Hf Hin Hh Hs)
    as (o1 & o2 & ->).
  destruct (calls_of_handle_code members first pfx
              ("index" ++ str_nat arrayIndex) parentName topCommand errorLoc
              member)
    as (target & na & pv & loc & Hcalls & Ht).
  exists target. split.
  - rewrite !validate_targets_app. apply in_or_app. right.
    apply in_or_app. left. unfold validate_targets. rewrite Hcalls. now left.
  - destruct Ht as [->| ->]; reflexivity.
Qed.

Lemma destroy_code_targets (command : Command.t) (dv pre : list stmt) :
  (if isDestroy command
   then recordDestroy targetApiName vk command else Ok ([], []))
  = Ok (dv, pre) ->
  validate_targets dv = [].
Proof.
  destruct (isDestroy command); intros H.
  - apply recordDestroy_inv in H. destruct H as (hp & _ & E).
    destruct (is_handle vk (Member.type hp)); inversion E; reflexivity.
  - inversion H. reflexivity.
Qed.

(** C6, as the code has it. A command is a creation call exactly when its
    name holds one of Create, Allocate, Enumerate, RegisterDeviceEvent,
    RegisterDisplayEvent, AcquirePerformanceConfigurationINTEL, or holds
    vkGet and its last parameter is a pointer. For such a command (its
    parameters having distinct names) no ValidateObject call of the
    pre-call validation reads the last parameter, and every other handle
    parameter is the subject of a ValidateObject call. *)
Theorem created_parameter_not_validated (fuel : nat) (command : Command.t)
    (v pre post : list stmt) :
  genBody fuel command = Ok (v, pre, post) ->
  (isCreate command = Ok true <->
   any_in create_patterns (Command.name command) = true
   \/ (contains "vkGet" (Command.name command) = true
       /\ exists last, from_end (Command.params command) 1 = Ok last
                       /\ Member.pointer last = true))
  /\ (isCreate command = Ok true ->
      NoDup (map Member.name (Command.params command)) ->
      forall last,
        from_end (Command.params command) 1 = Ok last ->
        (forall e, In e (validate_targets v) -> root e <> Some (Member.name last))
        /\ (forall m, In m (Command.params command) -> m <> last ->
                      is_handle vk (Member.type m) = true ->
                      exists e, In e (validate_targets v)
                                /\ root e = Some (Member.name m))).
Proof.
  intros Hgen. split.
  - unfold isCreate.
    destruct (any_in create_patterns (Command.name command)).
    { split; auto. }
    destruct (contains "vkGet" (Command.name command)).
    + destruct (from_end (Command.params command) 1) as [l|x]; simpl.
      * split.
        -- intros H. inversion H. right. split; [reflexivity|]. now exists l.
        -- intros [H|[_ (l' & Hl & Hp)]]; [discriminate|].
           inversion Hl; subst l'. now rewrite Hp.
      * split; [discriminate|].
        intros [H|[_ (l' & Hl & _)]]; discriminate.
    + split; [discriminate|]. intros [H|[H _]]; discriminate.
  - intros Hc Hnd last Hlast.
    apply generateFunctionBody_inv in Hgen.
    destruct Hgen as (c & w & dv & Hc' & Hw & _ & Hdes & ->).
    rewrite Hc in Hc'. inversion Hc'; subst c; clear Hc'.
    apply destroy_code_targets in Hdes.
    destruct (Command.params command) as [|first rest] eqn:Ep;
      [discriminate|].
    assert (El : @List.last Member.t (first :: rest) first = last)
      by apply (from_end_last _ _ first Hlast).
    assert (Hinl : @In Member.t last (first :: rest))
      by apply (from_end_last _ _ first Hlast).
    split.
    + intros e He Hr. rewrite validate_targets_app, Hdes, app_nil_r in He.
      destruct (walk_targets_rooted _ _ _ _ _ _ _ _ _ first e Hw eq_refl He)
        as (m & Hm & Hs & Hroot).
      rewrite El in Hs. simpl in Hs, Hroot.
      rewrite Hroot in Hr. inversion Hr as [Hname].
      assert (m = last) as -> by (eapply NoDup_map_eq; eassumption).
      now rewrite eqb_member_refl in Hs.
    + intros m Hm Hne Hh.
      assert (Hs : true && Member.eqb m (@List.last Member.t (first :: rest) first)
                   = false).
      { rewrite El. simpl. now apply eqb_member_neq. }
      destruct (walk_validates_handle _ _ _ _ _ _ _ _ _ first m Hw eq_refl
                  Hm Hh Hs) as (e & He & Hr).
      exists e. split; [|exact Hr].
      rewrite validate_targets_app. apply in_or_app. now left.
Qed.

(** The code of a member whose container is absent runs to its end without
    a call. *)
Lemma absent_container_no_call (fuel' : nat) (members : list Member.t)
    (first : Member.t) (pfx : prefix) (arrayIndex : nat)
    (parentName topCommand errorLoc : string) (isCreate : bool)
    (member : Member.t) (code : list stmt) (vars : dict cval) (result : Z)
    (idx : dict nat) :
  loopBody fuel' members first pfx arrayIndex parentName topCommand errorLoc
    isCreate member = Ok code ->
  absent_container vk vars idx pfx member ->
  run_block vars result idx code = Some ([], Next).
Proof.
  unfold loop_body, validateMember, absent_container. intros H Ha.
  destruct (isCreate && Member.eqb member (List.last members first)).
  { inversion H. reflexivity. }
  destruct (is_handle vk (Member.type member)).
  - destruct Ha as (len & c & Hlen & Ht & Hc & Hnone).
    inversion H; subst code. unfold validateHandle. rewrite Ht, Hlen.
    apply run_if_false. cbn [eval_cond]. rewrite Hc.
    destruct Hnone as [Hle|Hnull].
    + apply Z.ltb_ge in Hle. now rewrite Hle.
    + destruct (0 <? c)%Z; [|reflexivity]. now rewrite Hnull.
  - destruct Ha as (Hshape & Hnull).
    destruct (get (VulkanObject.structs vk) (Member.type member)) as [struct|];
      [|inversion H; reflexivity].
    bind_inv H. destruct a; [|inversion H; reflexivity].
    destruct (Member.length member) as [len|].
    + bind_inv H. inversion H; subst code.
      apply run_if_false. cbn [eval_cond]. now rewrite Hnull.
    + destruct (Member.pointer member).
      * bind_inv H. inversion H; subst code.
        apply run_if_false. cbn [eval_cond]. now rewrite Hnull.
      * destruct Hshape as [Hl|Hp]; [now elim Hl | discriminate].
Qed.

(** C9. The walk emits the code of the members one after the other, in
    declaration order. The code of a member whose container is absent (an
    array of handles with a count that is not positive or a null pointer,
    an array of aggregates or a pointer to an aggregate that is null) makes
    no call and does not end the function, so the run of the whole
    validation is the run of the code of the other members; the code of an
    inline aggregate is the walk of its members, under no condition. *)
Theorem absent_container_skips_only_itself (fuel : nat)
    (members : list Member.t) (pfx : prefix) (arrayIndex : nat)
    (parentName topCommand errorLoc : string) (isCreate : bool)
    (out : list stmt) (first : Member.t)
    (before : list Member.t) (member : Member.t) (after : list Member.t) :
  walkObjects fuel members pfx arrayIndex parentName topCommand errorLoc isCreate
  = Ok out ->
  hd_error members = Some first ->
  members = (before ++ member :: after)%list ->
  exists fuel' o1 code o2,
    fuel = S fuel'
    /\ concat_mapM (loopBody fuel' members first pfx arrayIndex parentName
                      topCommand errorLoc isCreate) before = Ok o1
    /\ loopBody fuel' members first pfx arrayIndex parentName topCommand
         errorLoc isCreate member = Ok code
    /\ concat_mapM (loopBody fuel' members first pfx arrayIndex parentName
                      topCommand errorLoc isCreate) after = Ok o2
    /\ out = (o1 ++ code ++ o2)%list
    /\ (forall vars result idx,
          absent_container vk vars idx pfx member ->
          run_block vars result idx code = Some ([], Next)
          /\ run_block vars result idx out
             = run_block vars result idx (o1 ++ o2)%list)
    /\ (forall struct,
          isCreate && Member.eqb member (List.last members first) = false ->
          is_handle vk (Member.type member) = false ->
          get (VulkanObject.structs vk) (Member.type member) = Some struct ->
          structContainsObject vk fuel' struct = Ok true ->
          Member.length member = None ->
          Member.pointer member = false ->
          exists body,
            walkObjects fuel' (Struct.members struct)
              (PDot (access pfx (Member.name member))) (arrayIndex + 1)
              (Member.type member) topCommand (Member.name member ++ "_loc")
              false = Ok body
            /\ forall vars result idx,
                 run_block vars result idx code = run_block vars result idx body).
Proof.
  intros H Hf Hm.
  destruct (validateObjects_inv _ _ _ _ _ _ _ _ _ _ H Hf) as (fuel' & -> & Hc).
  pose proof Hc as Hc'. rewrite Hm in Hc' at 2.
  apply concat_mapM_split in Hc'.
  destruct Hc' as (o1 & code & o2 & H1 & Hx & H2 & ->).
  exists fuel', o1, code, o2.
  split; [reflexivity|]. split; [exact H1|]. split; [exact Hx|].
  split; [exact H2|]. split; [reflexivity|]. split.
  - intros vars result idx Ha.
    pose proof (absent_container_no_call _ _ _ _ _ _ _ _ _ _ _ vars result idx
                  Hx Ha) as Hrun.
    split; [exact Hrun|]. unfold run_block in *. now apply run_seq_skip.
  - intros struct Hs Hh Hg Hco Hlen Hp.
    unfold loop_body, validateMember in Hx.
    rewrite Hs, Hh, Hg, Hco, Hlen, Hp in Hx. simpl in Hx.
    bind_inv Hx. inversion Hx; subst code. exists a. split; [exact Ha|].
    intros vars result idx. unfold run_block. simpl.
    destruct (run_seq (run_stmt vars result idx) a) as [[t f]|]; reflexivity.
Qed.

(** ** Teardown *)

Lemma run_report_lines (call : string -> string -> ccall)
    (ev : string -> string -> event) (error_code : string)
    (vars : dict cval) (result : Z) (idx : dict nat) :
  (forall t c, run_call vars idx (call t c) = Some (ev t c)) ->
  forall (handles : list Handle.t) (lines : list stmt),
    mapM (reportLine targetApiName call error_code) handles = Ok lines ->
    run_seq (run_stmt vars result idx) lines
    = Some (map (fun h => ev (kVulkanObjectType (Handle.name h)) error_code)
              (filter (is_reported targetApiName) handles), Next).
Proof.
  intros Hcall. induction handles as [|h handles IH]; intros lines H; simpl in H.
  - inversion H. reflexivity.
  - bind_inv H. rename a into line. bind_inv H. rename a into rest.
    inversion H; subst lines. unfold reportLine in Ha. bind_inv Ha.
    inversion Ha; subst line. simpl. unfold is_reported. rewrite Ha1.
    rewrite (IH rest Ha0). destruct a; simpl; [reflexivity|].
    now rewrite Hcall.
Qed.

Lemma generateSource_inv (fuel : nat) (src : Source) :
  generateSource targetApiName vk valid_vuids getVUID fuel = Ok src ->
  generateReportInstance targetApiName vk
  = Ok (ReportUndestroyedInstanceObjects src)
  /\ generateReportDevice targetApiName vk
     = Ok (ReportUndestroyedDeviceObjects src)
  /\ DestroyLeakedInstanceObjects src = generateDestroyInstance vk
  /\ DestroyLeakedDeviceObjects src = generateDestroyDevice vk.
Proof.
  unfold generateSource. intros H.
  bind_inv H. bind_inv H. bind_inv H. inversion H; subst src. simpl.
  repeat split; assumption.
Qed.

(** C5. The teardown functions of the emitted source, run on a registry:
    the instance report names every live record of every non-dispatchable
    handle type that is not rooted under the device, under
    VUID-vkDestroyInstance-instance-00629; the device report does so for
    the command buffers and the types rooted under the device, under
    VUID-vkDestroyDevice-device-00378. Types flagged implicitly destroyed
    (VkDisplayKHR, VkDisplayModeKHR) are left out of the reports, but the
    destroy functions clear every type of the scope, these included. *)
Theorem teardown_reports_and_clears (fuel : nat) (src : Source)
    (reg : Registry.t) :
  generateSource targetApiName vk valid_vuids getVUID fuel = Ok src ->
  exists report_instance report_device destroy_instance destroy_device,
    run_function [] 0 (ReportUndestroyedInstanceObjects src)
    = Some report_instance
    /\ run_function [] 0 (ReportUndestroyedDeviceObjects src)
       = Some report_device
    /\ run_function [] 0 (DestroyLeakedInstanceObjects src)
       = Some destroy_instance
    /\ run_function [] 0 (DestroyLeakedDeviceObjects src)
       = Some destroy_device
    /\ teardown_ok targetApiName reg (instance_handles vk) []
         "VUID-vkDestroyInstance-instance-00629" report_instance
         destroy_instance
    /\ teardown_ok targetApiName reg (device_handles vk)
         ["kVulkanObjectTypeCommandBuffer"]
         "VUID-vkDestroyDevice-device-00378" report_device destroy_device
    /\ (forall h, is_reported targetApiName h = true <->
                  Handle.name h <> "VkDisplayKHR"
                  /\ Handle.name h <> "VkDisplayModeKHR").
Proof.
  intros H. apply generateSource_inv in H.
  destruct H as (Hri & Hrd & Hdi & Hdd).
  unfold generateReportInstance in Hri. bind_inv Hri. rename a into ci.
  unfold generateReportDevice in Hrd. bind_inv Hrd. rename a into cd.
  bind_inv Hrd. rename a into implicit. bind_inv Hrd. rename a into rest.
  inversion Hrd as [Hrd']; clear Hrd.
  unfold APISpecific.getUndestroyedObjectVUID in Ha, Ha0.
  unfold APISpecific.IsImplicitlyDestroyed in Ha1.
  destruct (targetApiName =? "vulkan") eqn:Et; [|discriminate].
  inversion Ha; subst ci. inversion Ha0; subst cd.
  inversion Ha1; subst implicit. simpl in Hrd'.
  exists (map (fun t => ReportLeakedInstanceObjects t
                          "VUID-vkDestroyInstance-instance-00629")
            (reported_types targetApiName (instance_handles vk) [])),
         (map (fun t => ReportLeakedDeviceObjects t
                          "VUID-vkDestroyDevice-device-00378")
            (reported_types targetApiName (device_handles vk)
               ["kVulkanObjectTypeCommandBuffer"])),
         (map DestroyUndestroyedObjects (cleared_types (instance_handles vk) [])),
         (map DestroyUndestroyedObjects
            (cleared_types (device_handles vk) ["kVulkanObjectTypeCommandBuffer"])).
  split; [|split; [|split; [|split; [|split; [|split]]]]].
  - apply run_function_of_block.
    rewrite (run_report_lines CallReportLeakedInstanceObjects
               ReportLeakedInstanceObjects _ [] 0 [] (fun _ _ => eq_refl)
               _ _ Hri).
    unfold reported_types. simpl. now rewrite map_map.
  - apply run_function_of_block. cbn [run_seq run_stmt run_call].
    rewrite (run_report_lines CallReportLeakedDeviceObjects
               ReportLeakedDeviceObjects _ [] 0 [] (fun _ _ => eq_refl)
               _ _ Ha2).
    unfold reported_types. simpl. now rewrite map_map.
  - apply run_function_of_block. rewrite Hdi. unfold generateDestroyInstance.
    rewrite <- (run_destroy_lines [] 0 []). unfold cleared_types. simpl.
    now rewrite map_map.
  - apply run_function_of_block. rewrite Hdd. unfold generateDestroyDevice.
    rewrite <- (run_destroy_lines [] 0 []). unfold cleared_types. simpl.
    now rewrite map_map.
  - apply teardown_ok_of_traces. reflexivity.
  - apply teardown_ok_of_traces. reflexivity.
  - intros h. unfold is_reported, APISpecific.IsImplicitlyDestroyed.
    rewrite Et. unfold in_list. simpl.
    destruct (String.eqb_spec (Handle.name h) "VkDisplayKHR") as [E1|E1];
      destruct (String.eqb_spec (Handle.name h) "VkDisplayModeKHR") as [E2|E2];
      simpl; split; intros; try discriminate; tauto.
Qed.

(** ** The generator returns *)

Lemma structContainsObject_total (rank : string -> nat) :
  ranked vk rank ->
  forall fuel k s,
    get (VulkanObject.structs vk) k = Some s ->
    rank k < fuel ->
    exists b, structContainsObject vk fuel s = Ok b.
Proof.
  intros Hr. induction fuel as [|fuel IH]; intros k s Hk Hlt; [lia|].
  simpl.
  assert (Hloop : forall ms, (forall m, In m ms -> In m (Struct.members s)) ->
    exists b,
      (fix loop (members : list Member.t) : res bool :=
         match members with
         | [] => Ok false
         | member :: rest =>
             if is_handle vk (Member.type member) then Ok true
             else
               match get (VulkanObject.structs vk) (Member.type member) with
               | Some sub =>
                   if negb (Member.type member =? Struct.name s) then
                     b <- structContainsObject vk fuel sub ;;
                     if b then Ok true else loop rest
                   else loop rest
               | None => loop rest
               end
         end) ms = Ok b).
  { induction ms as [|m ms IHms]; intros Hin; [now exists false|].
    destruct IHms as [b Hb]; [intros x Hx; apply Hin; now right|].
    destruct (is_handle vk (Member.type m)); [now exists true|].
    destruct (get (VulkanObject.structs vk) (Member.type m)) as [sub|] eqn:Es;
      [|now exists b].
    destruct (negb (Member.type m =? Struct.name s)); [|now exists b].
    assert (Hm : rank (Member.type m) < fuel).
    { pose proof (Hr k s m sub Hk (Hin m (or_introl eq_refl)) Es). lia. }
    destruct (IH _ _ Es Hm) as [b' Hb']. rewrite Hb'. simpl.
    destruct b'; [now exists true | now exists b]. }
  apply Hloop. auto.
Qed.

Lemma validateObjects_total (rank : string -> nat) :
  ranked vk rank ->
  forall fuel members pfx arrayIndex parentName topCommand errorLoc isCreate,
    (forall m sub, In m members ->
                   get (VulkanObject.structs vk) (Member.type m) = Some sub ->
                   rank (Member.type m) < fuel) ->
    exists out,
      walkObjects (S fuel) members pfx arrayIndex parentName topCommand errorLoc
        isCreate = Ok out.
Proof.
  intros Hr. induction fuel as [|fuel IH];
    intros members pfx arrayIndex parentName topCommand errorLoc isCreate Hm.
  - destruct members as [|first rest]; [now exists []|].
    rewrite validateObjects_S. apply concat_mapM_total. intros m Hin.
    unfold loop_body, validateMember.
    destruct (isCreate && Member.eqb m (List.last (first :: rest) first));
      [eauto|].
    destruct (is_handle vk (Member.type m)); [eauto|].
    destruct (get (VulkanObject.structs vk) (Member.type m)) as [sub|] eqn:Es;
      [|eauto].
    specialize (Hm m sub Hin Es). lia.
  - destruct members as [|first rest]; [now exists []|].
    rewrite validateObjects_S. apply concat_mapM_total. intros m Hin.
    unfold loop_body, validateMember.
    destruct (isCreate && Member.eqb m (List.last (first :: rest) first));
      [eauto|].
    destruct (is_handle vk (Member.type m)); [eauto|].
    destruct (get (VulkanObject.structs vk) (Member.type m)) as [sub|] eqn:Es;
      [|eauto].
    pose proof (Hm m sub Hin Es) as Hlt.
    destruct (structContainsObject_total rank Hr (S fuel) _ _ Es Hlt) as [b Hb].
    rewrite Hb. cbn [Py.bind]. destruct b; [|eauto].
    assert (Hsub : forall m' sub', In m' (Struct.members sub) ->
              get (VulkanObject.structs vk) (Member.type m') = Some sub' ->
              rank (Member.type m') < fuel).
    { intros m' sub' Hin' Es'. pose proof (Hr _ _ _ _ Es Hin' Es'). lia. }
    destruct (Member.length m); [|destruct (Member.pointer m)];
      match goal with
      | |- context [walkObjects (S fuel) ?ms ?p ?a ?pn ?tc ?loc ?ic] =>
          destruct (IH ms p a pn tc loc ic Hsub) as [body Hbody];
          rewrite Hbody; cbn [Py.bind]; eauto
      end.
Qed.

(** X26. With enough recursion budget, generateFunctionBody returns for
    every command of two or more parameters over a registry whose structs
    nest to a finite depth. *)
Lemma generateFunctionBody_total (rank : string -> nat) (command : Command.t) :
  ranked vk rank ->
  2 <= List.length (Command.params command) ->
  exists fuel out, genBody fuel command = Ok out.
Proof.
  intros Hr Hlen.
  set (bound := list_max (map (fun m => rank (Member.type m))
                            (Command.params command))).
  exists (S (S bound)). unfold generateFunctionBody.
  destruct (from_end_total (Command.params command) 1) as [last Hlast]; [lia|].
  destruct (from_end_total (Command.params command) 2) as [before Hbefore];
    [lia|].
  assert (Hc : exists c, isCreate command = Ok c).
  { unfold isCreate. rewrite Hlast.
    destruct (any_in create_patterns (Command.name command)); [eauto|].
    destruct (contains "vkGet" (Command.name command)); simpl; eauto. }
  destruct Hc as [c Hc]. rewrite Hc. cbn [Py.bind].
  destruct (validateObjects_total rank Hr (S bound) (Command.params command)
              PTop 0 (Command.name command) (Command.name command)
              "error_obj.location" c) as [w Hw].
  { intros m sub Hin _.
    assert (rank (Member.type m) <= bound); [|lia].
    unfold bound.
    assert (Hall := proj1 (list_max_le
                             (map (fun m => rank (Member.type m))
                                (Command.params command)) _) (Nat.le_refl _)).
    rewrite Forall_forall in Hall. apply Hall.
    apply (in_map (fun m => rank (Member.type m))). exact Hin. }
  rewrite Hw. cbn [Py.bind].
  assert (Hp : exists post,
             (if c then recordCreate vk command else Ok []) = Ok post).
  { destruct c; [|eauto]. unfold recordCreate. rewrite Hlast. simpl.
    destruct (is_handle vk (Member.type last)).
    - rewrite Hbefore. simpl. destruct (Member.length last); eauto.
    - destruct (Member.type last =? "VkPhysicalDeviceGroupProperties"); [|eauto].
      rewrite Hbefore. simpl.
      destruct (Command.params command); [simpl in Hlen; lia|]. simpl. eauto. }
  destruct Hp as [post Hp]. rewrite Hp. cbn [Py.bind].
  assert (Hd : exists d,
             (if isDestroy command
              then recordDestroy targetApiName vk command else Ok ([], []))
             = Ok d).
  { destruct (isDestroy command); [|eauto]. unfold recordDestroy, handle_param.
    destruct (contains "ReleasePerformanceConfigurationINTEL"
                (Command.name command));
      [rewrite Hlast | rewrite Hbefore]; simpl;
      match goal with
      | |- context [is_handle vk ?t] => destruct (is_handle vk t)
      end; eauto. }
  destruct Hd as [d Hd]. rewrite Hd. cbn [Py.bind]. eauto.
Qed.

(** X27. An array of handles that is there is visited: when the count is
    positive and the array pointer is not null, the code emitted for the
    member makes one ValidateObject call per element, in array order, up
    to the count, each with the identifiers chosen for the member. *)
Lemma handle_array_visited (members : list Member.t) (first : Member.t)
    (pfx : prefix) (index parentName topCommand errorLoc : string)
    (member : Member.t) (len : string) (vars : dict cval) (result : Z)
    (idx : dict nat) (n : nat) (cells : list cval) :
  Member.length member = Some len ->
  truthy_str len = true ->
  eval_expr vars idx (access pfx len) = Some (VInt (Z.of_nat n)) ->
  0 < n <= List.length cells ->
  eval_expr vars idx (access pfx (Member.name member))
  = Some (VPtr (Some cells)) ->
  (forall i, eval_expr vars ((index, i) :: idx) (access pfx (Member.name member))
             = Some (VPtr (Some cells))) ->
  run_block vars result idx
    (handleCode members first pfx index parentName topCommand errorLoc member)
  = Some (map (fun h =>
                 ValidateObject h (kVulkanObjectType (Member.type member))
                   (nullAllowed member) (paramVUID vk valid_vuids parentName member)
                   (parentVUID vk valid_vuids getVUID members first parentName
                      topCommand member)
                   (errorLoc ++ ".dot(Field::" ++ Member.name member ++ ", "
                      ++ index ++ ")"))
            (firstn n cells), Next).
Proof.
  intros Hlen Ht Hcount Hn Hptr Hidx.
  unfold validateHandle. rewrite Hlen. cbn [truthy_opt]. rewrite Ht.
  apply run_block_guarded_loop with (n := n); [| exact Hcount |].
  - cbn [eval_cond]. rewrite Hcount, Hptr.
    assert (H0 : (0 <? Z.of_nat n)%Z = true) by (apply Z.ltb_lt; lia).
    now rewrite H0.
  - rewrite <- flat_map_singleton.
    replace n with (List.length (firstn n cells)) at 1
      by (rewrite length_firstn; lia).
    apply run_loop_all. intros i x Hx. left. cbn [Nat.add].
    cbn [run_seq run_stmt run_call eval_expr]. rewrite Hidx.
    cbn [get]. rewrite String.eqb_refl.
    assert (Hc : nth_error cells i = Some x).
    { rewrite nth_error_firstn in Hx.
      destruct (i <? n)%nat; [exact Hx | discriminate]. }
    rewrite Hc. reflexivity.
Qed.

(** ** The two teardown scopes *)

(** X1. isParentDevice answers True exactly for a handle with an ancestor,
    at any distance, named VkDevice; the handle's own name is not looked
    at. *)
Theorem isParentDevice_ancestors (handle : Handle.t) :
  isParentDevice handle = true
  <-> exists a, In a (ancestors handle) /\ Handle.name a = "VkDevice".
Proof.
  revert handle. fix IH 1. intros [n d [p|]]; simpl.
  - destruct (String.eqb_spec (Handle.name p) "VkDevice") as [E|E].
    + split; [intros _; exists p; auto | reflexivity].
    + rewrite IH. split.
      * intros (a & Ha & En). exists a. auto.
      * intros (a & [<-|Ha] & En); [contradiction|]. exists a. auto.
  - split; [discriminate | intros (a & [] & _)].
Qed.

(** X2. The instance scope and the device scope of generateSource split
    the non-dispatchable handles of the registry: no handle is in both,
    every non-dispatchable handle is in one of them, no dispatchable handle
    is in either, and nothing is counted twice. *)
Theorem teardown_scopes_partition :
  (forall h, In h (instance_handles vk) -> ~ In h (device_handles vk))
  /\ (forall h,
        In h (instance_handles vk) \/ In h (device_handles vk)
        <-> In h (values (VulkanObject.handles vk))
            /\ Handle.dispatchable h = false)
  /\ List.length (instance_handles vk) + List.length (device_handles vk)
     = List.length (filter (fun x => negb (Handle.dispatchable x))
                      (values (VulkanObject.handles vk))).
Proof.
  unfold instance_handles, device_handles. split; [|split].
  - intros h Hi Hd. apply filter_In in Hi. apply filter_In in Hd.
    destruct Hi as [_ Hi], Hd as [_ Hd].
    destruct (Handle.dispatchable h), (isParentDevice h); discriminate.
  - intros h. rewrite !filter_In. split.
    + intros [[Hin Hb]|[Hin Hb]]; (split; [exact Hin|]);
        destruct (Handle.dispatchable h); [discriminate | reflexivity
                                          | discriminate | reflexivity].
    + intros [Hin Hd]. rewrite Hd.
      destruct (isParentDevice h); [right | left]; auto.
  - apply (filter_length_split (fun x => negb (Handle.dispatchable x))
             isParentDevice).
Qed.

Lemma report_lines_types (call : string -> string -> ccall)
    (error_code : string) :
  (forall t c, teardown_call_type (call t c) = Some t) ->
  forall (handles : list Handle.t) (lines : list stmt),
    mapM (reportLine targetApiName call error_code) handles = Ok lines ->
    map teardown_type lines
    = map (fun h => Some (kVulkanObjectType (Handle.name h))) handles.
Proof.
  intros Hcall. induction handles as [|h handles IH]; intros lines H;
    simpl in H.
  - inversion H. reflexivity.
  - bind_inv H. rename a into line. bind_inv H. rename a into rest.
    inversion H; subst lines. unfold reportLine in Ha. bind_inv Ha.
    inversion Ha; subst line. cbn [map]. rewrite (IH rest Ha0). f_equal.
    destruct a; cbn [teardown_type]; apply Hcall.
Qed.

(** X3. In the emitted source, each report function and the destroy
    function of the same scope go through the same type tags in the same
    order: every line of ReportUndestroyedInstanceObjects, commented out or
    not, faces the DestroyUndestroyedObjects line of its type in
    DestroyLeakedInstanceObjects, and likewise for the device scope. *)
Theorem teardown_lines_aligned (fuel : nat) (src : Source) :
  generateSource targetApiName vk valid_vuids getVUID fuel = Ok src ->
  map teardown_type (ReportUndestroyedInstanceObjects src)
  = map teardown_type (DestroyLeakedInstanceObjects src)
  /\ map teardown_type (ReportUndestroyedDeviceObjects src)
     = map teardown_type (DestroyLeakedDeviceObjects src)
  /\ ~ In None (map teardown_type (DestroyLeakedInstanceObjects src))
  /\ ~ In None (map teardown_type (DestroyLeakedDeviceObjects src)).
Proof.
  intros H. apply generateSource_inv in H.
  destruct H as (Hri & Hrd & -> & ->).
  unfold generateReportInstance in Hri. bind_inv Hri.
  unfold generateReportDevice in Hrd. bind_inv Hrd. bind_inv Hrd.
  bind_inv Hrd. inversion Hrd as [Hrd']; clear Hrd.
  unfold generateDestroyInstance, generateDestroyDevice.
  cbn [map]. rewrite !map_map. cbn [teardown_type teardown_call_type].
  split; [|split; [|split]].
  - apply (report_lines_types CallReportLeakedInstanceObjects a);
      [reflexivity | exact Hri].
  - f_equal; [destruct a1; reflexivity|].
    apply (report_lines_types CallReportLeakedDeviceObjects a0);
      [reflexivity | exact Ha2].
  - intros Hin. apply in_map_iff in Hin. destruct Hin as (h & E & _).
    discriminate.
  - intros [E|Hin]; [discriminate|]. apply in_map_iff in Hin.
    destruct Hin as (h & E & _). discriminate.
Qed.

(** X4. generateSource emits the functions of the commands of the registry
    in registry order, leaving out exactly the commands named in
    no_autogen_list; what it emits for a command is what generateIntercept
    gives for it. *)
Theorem intercepts_follow_registry (fuel : nat) (src : Source) :
  generateSource targetApiName vk valid_vuids getVUID fuel = Ok src ->
  map fst (intercepts src)
  = filter (fun n => negb (in_list n no_autogen_list))
      (map Command.name (values (VulkanObject.commands vk)))
  /\ forall n i,
       In (n, i) (intercepts src) ->
       in_list n no_autogen_list = false
       /\ exists command,
            In command (values (VulkanObject.commands vk))
            /\ Command.name command = n
            /\ genIntercept fuel command = Ok i.
Proof.
  unfold generateSource. intros H.
  bind_inv H. bind_inv H. bind_inv H. inversion H; subst src.
  cbn [intercepts]. clear H Ha Ha0. apply mapM_Forall2 in Ha1.
  remember (values (VulkanObject.commands vk)) as cs eqn:Ecs. clear Ecs.
  revert a1 Ha1. induction cs as [|c cs IH]; intros out H;
    cbn [filter map] in H |- *.
  - inversion H. split; [reflexivity | intros n i []].
  - destruct (negb (in_list (Command.name c) no_autogen_list)) eqn:Hn.
    + inversion H as [|x y l l' Hxy Hrest Ex Ey]; subst out.
      destruct (IH _ Hrest) as [IH1 IH2].
      bind_inv Hxy. inversion Hxy; subst y. cbn [map fst]. split.
      * now rewrite IH1.
      * intros n i [E|Hin].
        -- inversion E; subst n i. split.
           ++ now apply negb_true_iff.
           ++ exists c. split; [now left | split; [reflexivity | exact Ha]].
        -- destruct (IH2 n i Hin) as [Hno (c' & Hc' & En & Hi)].
           split; [exact Hno|]. exists c'.
           split; [now right | split; assumption].
    + destruct (IH _ H) as [IH1 IH2]. split; [exact IH1|].
      intros n i Hin. destruct (IH2 n i Hin) as [Hno (c' & Hc' & En & Hi)].
      split; [exact Hno|]. exists c'. split; [now right | split; assumption].
Qed.

(** X5. For a target API other than vulkan the source cannot be generated:
    generateSource stops with UnboundLocalError in APISpecific, before it
    reads any handle or command of the registry. *)
Theorem unknown_target_no_source (fuel : nat) :
  (targetApiName =? "vulkan") = false ->
  generateSource targetApiName vk valid_vuids getVUID fuel
  = Raise UnboundLocalError.
Proof.
  intros H. unfold generateSource, generateReportInstance,
    APISpecific.getUndestroyedObjectVUID. now rewrite H.
Qed.

(** ** structContainsObject *)

Lemma structContainsObject_S (fuel' : nat) (struct : Struct.t) :
  structContainsObject vk (S fuel') struct
  = members_loop vk fuel' struct (Struct.members struct).
Proof. reflexivity. Qed.

Lemma members_loop_true (fuel' : nat) (struct : Struct.t)
    (members : list Member.t) :
  members_loop vk fuel' struct members = Ok true ->
  exists m,
    In m members
    /\ (is_handle vk (Member.type m) = true
        \/ (is_handle vk (Member.type m) = false
            /\ exists sub,
                 get (VulkanObject.structs vk) (Member.type m) = Some sub
                 /\ Member.type m <> Struct.name struct
                 /\ structContainsObject vk fuel' sub = Ok true)).
Proof.
  induction members as [|m rest IH]; intros H; cbn [members_loop] in H;
    [discriminate|].
  assert (Hrest : members_loop vk fuel' struct rest = Ok true ->
                  exists m0, In m0 (m :: rest)
                    /\ (is_handle vk (Member.type m0) = true
                        \/ (is_handle vk (Member.type m0) = false
                            /\ exists sub,
                                 get (VulkanObject.structs vk) (Member.type m0)
                                 = Some sub
                                 /\ Member.type m0 <> Struct.name struct
                                 /\ structContainsObject vk fuel' sub = Ok true))).
  { intros Hr. destruct (IH Hr) as (m0 & Hin & Hm0). exists m0.
    split; [now right | exact Hm0]. }
  destruct (is_handle vk (Member.type m)) eqn:Hh.
  { exists m. split; [now left | now left]. }
  destruct (get (VulkanObject.structs vk) (Member.type m)) as [sub|] eqn:Es;
    [|now apply Hrest].
  destruct (String.eqb_spec (Member.type m) (Struct.name struct)) as [E|E];
    cbn [negb] in H; [now apply Hrest|].
  destruct (structContainsObject vk fuel' sub) as [b|e] eqn:Eb;
    cbn [Py.bind] in H; [|discriminate].
  destruct b; [|now apply Hrest].
  exists m. split; [now left|]. right. split; [exact Hh|].
  exists sub. auto.
Qed.

Lemma members_loop_false (fuel' : nat) (struct : Struct.t)
    (members : list Member.t) :
  members_loop vk fuel' struct members = Ok false ->
  forall m,
    In m members ->
    is_handle vk (Member.type m) = false
    /\ forall sub,
         get (VulkanObject.structs vk) (Member.type m) = Some sub ->
         Member.type m <> Struct.name struct ->
         structContainsObject vk fuel' sub = Ok false.
Proof.
  induction members as [|m rest IH]; intros H m0 Hin; [contradiction|].
  cbn [members_loop] in H.
  destruct (is_handle vk (Member.type m)) eqn:Hh; [discriminate|].
  assert (Hhere : members_loop vk fuel' struct rest = Ok false ->
                  (forall sub,
                     get (VulkanObject.structs vk) (Member.type m) = Some sub ->
                     Member.type m <> Struct.name struct ->
                     structContainsObject vk fuel' sub = Ok false) ->
                  is_handle vk (Member.type m0) = false
                  /\ forall sub,
                       get (VulkanObject.structs vk) (Member.type m0) = Some sub ->
                       Member.type m0 <> Struct.name struct ->
                       structContainsObject vk fuel' sub = Ok false).
  { intros Hr Hm. destruct Hin as [<-|Hin]; [auto | now apply IH]. }
  destruct (get (VulkanObject.structs vk) (Member.type m)) as [sub|] eqn:Es.
  - destruct (String.eqb_spec (Member.type m) (Struct.name struct)) as [E|E];
      cbn [negb] in H.
    + apply Hhere; [exact H|]. intros sub' _ Hne. contradiction.
    + destruct (structContainsObject vk fuel' sub) as [b|e] eqn:Eb;
        cbn [Py.bind] in H; [|discriminate].
      destruct b; [discriminate|].
      apply Hhere; [exact H|]. intros sub' Es' _. inversion Es'; subst sub'.
      exact Eb.
  - apply Hhere; [exact H|]. intros sub' Es'. discriminate.
Qed.

Lemma structContainsObject_sound (fuel : nat) :
  forall struct,
    structContainsObject vk fuel struct = Ok true -> holds_handle vk struct.
Proof.
  induction fuel as [|fuel' IH]; intros struct H; [discriminate|].
  rewrite structContainsObject_S in H.
  destruct (members_loop_true _ _ _ H)
    as (m & Hin & [Hh | (Hh & sub & Es & Hne & Hsub)]).
  - exact (holds_direct vk struct m Hin Hh).
  - exact (holds_nested vk struct m sub Hin Hh Es Hne (IH _ Hsub)).
Qed.

Lemma structContainsObject_complete (fuel : nat) :
  forall struct,
    structContainsObject vk fuel struct = Ok false -> ~ holds_handle vk struct.
Proof.
  induction fuel as [|fuel' IH]; intros struct H Hh; [discriminate|].
  rewrite structContainsObject_S in H.
  pose proof (members_loop_false _ _ _ H) as Hall.
  inversion Hh as [s m Hin Hm | s m sub Hin Hm Es Hne Hsub]; subst s.
  - destruct (Hall m Hin) as [Hf _]. congruence.
  - destruct (Hall m Hin) as [_ Hf]. exact (IH _ (Hf sub Es Hne) Hsub).
Qed.

(** X6. Whenever structContainsObject returns, its answer is right: it
    answers True exactly for a struct that holds a handle at some level,
    that is, one of whose members is of a handle type, or of another struct
    type that holds a handle. *)
Theorem structContainsObject_holds_handle (fuel : nat) (struct : Struct.t)
    (b : bool) :
  structContainsObject vk fuel struct = Ok b ->
  (b = true <-> holds_handle vk struct).
Proof.
  intros H. destruct b.
  - split; [intros _; exact (structContainsObject_sound _ _ H) | reflexivity].
  - split; [discriminate|]. intros Hh.
    destruct (structContainsObject_complete _ _ H Hh).
Qed.

(** X7. The guard of structContainsObject against infinite recursion: a
    member of the struct's own type is not followed, so a struct whose
    members are neither handles nor other registered structs gets the
    answer False at the first level of recursion, self-referential members
    included. *)
Theorem self_reference_not_followed (fuel : nat) (struct : Struct.t) :
  (forall m, In m (Struct.members struct) ->
             is_handle vk (Member.type m) = false
             /\ (get (VulkanObject.structs vk) (Member.type m) = None
                 \/ Member.type m = Struct.name struct)) ->
  structContainsObject vk (S fuel) struct = Ok false.
Proof.
  intros H. rewrite structContainsObject_S.
  induction (Struct.members struct) as [|m rest IH]; [reflexivity|].
  cbn [members_loop].
  destruct (H m (or_introl eq_refl)) as [Hh Hs]. rewrite Hh.
  assert (Hrest : members_loop vk fuel struct rest = Ok false).
  { apply IH. intros m' Hin. apply H. now right. }
  destruct Hs as [-> | E]; [exact Hrest|].
  destruct (get (VulkanObject.structs vk) (Member.type m)); [|exact Hrest].
  rewrite E, String.eqb_refl. exact Hrest.
Qed.

(** X8. The guard covers direct self-reference only. Two structs without
    handles whose first members are of each other's type send
    structContainsObject round in circles: whatever the recursion budget,
    it ends in RecursionError. *)
Theorem mutual_reference_never_returns (a b : Struct.t) (ma mb : Member.t)
    (rest_a rest_b : list Member.t) :
  Struct.members a = ma :: rest_a ->
  Struct.members b = mb :: rest_b ->
  is_handle vk (Member.type ma) = false ->
  is_handle vk (Member.type mb) = false ->
  get (VulkanObject.structs vk) (Member.type ma) = Some b ->
  get (VulkanObject.structs vk) (Member.type mb) = Some a ->
  Member.type ma <> Struct.name a ->
  Member.type mb <> Struct.name b ->
  forall fuel,
    structContainsObject vk fuel a = Raise RecursionError
    /\ structContainsObject vk fuel b = Raise RecursionError.
Proof.
  intros Ea Eb Ha Hb Ga Gb Na Nb.
  apply String.eqb_neq in Na, Nb.
  induction fuel as [|fuel' [IHa IHb]]; [split; reflexivity|].
  rewrite !structContainsObject_S, Ea, Eb. cbn [members_loop].
  rewrite Ha, Hb, Ga, Gb, Na, Nb, IHa, IHb. split; reflexivity.
Qed.

(** ** What generateFunctionBody can raise *)

Lemma structContainsObject_Raise (fuel : nat) :
  forall struct e,
    structContainsObject vk fuel struct = Raise e -> e = RecursionError.
Proof.
  induction fuel as [|fuel' IH]; intros struct e H;
    [inversion H; reflexivity|].
  rewrite structContainsObject_S in H.
  induction (Struct.members struct) as [|m rest IHm]; [discriminate|].
  cbn [members_loop] in H.
  destruct (is_handle vk (Member.type m)); [discriminate|].
  destruct (get (VulkanObject.structs vk) (Member.type m)) as [sub|];
    [|now apply IHm].
  destruct (negb (Member.type m =? Struct.name struct)); [|now apply IHm].
  destruct (structContainsObject vk fuel' sub) as [b|e'] eqn:Eb;
    cbn [Py.bind] in H.
  - destruct b; [discriminate | now apply IHm].
  - inversion H; subst e'. exact (IH _ _ Eb).
Qed.

Lemma validateObjects_Raise (fuel : nat) :
  forall members pfx arrayIndex parentName topCommand errorLoc isCreate e,
    walkObjects fuel members pfx arrayIndex parentName topCommand errorLoc
      isCreate = Raise e ->
    e = RecursionError.
Proof.
  induction fuel as [|fuel' IH];
    intros members pfx arrayIndex parentName topCommand errorLoc isCreate e H;
    [inversion H; reflexivity|].
  destruct members as [|first rest]; [discriminate|].
  rewrite validateObjects_S in H.
  destruct (concat_mapM_Raise _ _ _ H) as (m & _ & Hm).
  unfold loop_body, validateMember in Hm.
  destruct (isCreate && Member.eqb m (List.last (first :: rest) first));
    [discriminate|].
  destruct (is_handle vk (Member.type m)); [discriminate|].
  destruct (get (VulkanObject.structs vk) (Member.type m)) as [struct|];
    [|discriminate].
  destruct (structContainsObject vk fuel' struct) as [b|e'] eqn:Eb;
    cbn [Py.bind] in Hm;
    [|inversion Hm; subst e'; exact (structContainsObject_Raise _ _ _ Eb)].
  destruct b; [|discriminate].
  destruct (Member.length m); [|destruct (Member.pointer m)];
    match type of Hm with
    | context [walkObjects fuel' ?ms ?p ?a ?pn ?tc ?loc ?ic] =>
        destruct (walkObjects fuel' ms p a pn tc loc ic) as [body|e'] eqn:Ew;
        cbn [Py.bind] in Hm;
        [discriminate | inversion Hm; subst e'; exact (IH _ _ _ _ _ _ _ _ Ew)]
    end.
Qed.

(** X9. generateFunctionBody never raises UnboundLocalError, and it raises
    IndexError only for a command with fewer than two parameters (where
    [params[-1]], [params[-2]] or [params[0]] is read and is not there);
    any other failure is the recursion limit, met while following struct
    types. *)
Theorem generateFunctionBody_errors (fuel : nat) (command : Command.t)
    (e : exn) :
  genBody fuel command = Raise e ->
  e = RecursionError
  \/ (e = IndexError /\ List.length (Command.params command) < 2).
Proof.
  assert (Hfrom : forall k e', k <= 2 ->
            from_end (Command.params command) k = Raise e' ->
            e' = IndexError /\ List.length (Command.params command) < 2).
  { intros k e' Hk H. apply from_end_Raise in H. destruct H as [-> H].
    split; [reflexivity | lia]. }
  unfold generateFunctionBody. intros H.
  destruct (isCreate command) as [c|e'] eqn:Ec; cbn [Py.bind] in H.
  2:{ inversion H; subst e'. right. unfold isCreate in Ec.
      destruct (any_in create_patterns (Command.name command)); [discriminate|].
      destruct (contains "vkGet" (Command.name command)); [|discriminate].
      destruct (from_end (Command.params command) 1) as [l|e'] eqn:El;
        cbn [Py.bind] in Ec; [discriminate|].
      inversion Ec; subst e'. apply (Hfrom 1); [lia | exact El]. }
  match type of H with
  | context [walkObjects fuel ?ms ?p ?a ?pn ?tc ?loc ?ic] =>
      destruct (walkObjects fuel ms p a pn tc loc ic) as [w|e'] eqn:Ew;
      cbn [Py.bind] in H;
      [|inversion H; subst e'; left;
        exact (validateObjects_Raise _ _ _ _ _ _ _ _ _ Ew)]
  end.
  destruct (if c then recordCreate vk command else Ok []) as [post|e'] eqn:Ep;
    cbn [Py.bind] in H.
  2:{ inversion H; subst e'. right. destruct c; [|discriminate].
      unfold recordCreate in Ep.
      destruct (from_end (Command.params command) 1) as [l|e'] eqn:El;
        cbn [Py.bind] in Ep;
        [|inversion Ep; subst e'; apply (Hfrom 1); [lia | exact El]].
      destruct (is_handle vk (Member.type l)).
      - destruct (from_end (Command.params command) 2) as [l2|e'] eqn:El2;
          cbn [Py.bind] in Ep;
          [destruct (Member.length l); discriminate|].
        inversion Ep; subst e'. apply (Hfrom 2); [lia | exact El2].
      - destruct (Member.type l =? "VkPhysicalDeviceGroupProperties");
          [|discriminate].
        destruct (from_end (Command.params command) 2) as [l2|e'] eqn:El2;
          cbn [Py.bind] in Ep;
          [|inversion Ep; subst e'; apply (Hfrom 2); [lia | exact El2]].
        destruct (Command.params command); [|discriminate].
        inversion Ep. split; [reflexivity | simpl; lia]. }
  destruct (if isDestroy command
            then recordDestroy targetApiName vk command else Ok ([], []))
    as [d|e'] eqn:Ed; cbn [Py.bind] in H; [discriminate|].
  inversion H; subst e'. right. destruct (isDestroy command); [|discriminate].
  unfold recordDestroy, handle_param in Ed.
  destruct (contains "ReleasePerformanceConfigurationINTEL"
              (Command.name command));
    match type of Ed with
    | context [from_end ?l ?k] =>
        destruct (from_end l k) as [hp|e'] eqn:Eh; cbn [Py.bind] in Ed;
        [destruct (is_handle vk (Member.type hp)); discriminate
        |inversion Ed; subst e'; apply (Hfrom k); [lia | exact Eh]]
    end.
Qed.

(** X10. A creation command whose only parameter is the created handle
    cannot be generated: the walk skips the parameter, and the allocator is
    then read from [params[-2]], which is not there. *)
Theorem lone_created_parameter_raises (fuel : nat) (command : Command.t)
    (p : Param) :
  any_in create_patterns (Command.name command) = true ->
  Command.params command = [p] ->
  is_handle vk (Member.type p) = true ->
  genBody (S fuel) command = Raise IndexError.
Proof.
  intros Hc Hp Hh. unfold generateFunctionBody, isCreate. rewrite Hc, Hp.
  cbn [Py.bind]. rewrite validateObjects_S. cbn [concat_mapM].
  unfold loop_body, validateMember. cbn [List.last andb].
  rewrite eqb_member_refl. cbn [Py.bind app].
  unfold recordCreate. rewrite Hp. cbn [from_end rev app nth_error pred Py.bind].
  rewrite Hh. reflexivity.
Qed.

(** ** The walk over structs that nest themselves *)

(** X11. validateObjects has no guard of its own against a struct type that
    nests itself: when a struct that holds a handle has a member of its own
    type, the walk of any member list that reaches a member of that type
    ends in RecursionError, whatever the recursion budget. *)
Theorem self_nested_walk_never_returns (struct : Struct.t) (inner : Member.t)
    (fuel : nat) (members : list Member.t) (pfx : prefix) (arrayIndex : nat)
    (parentName topCommand errorLoc : string) (isCreate : bool)
    (first m : Member.t) :
  get (VulkanObject.structs vk) (Member.type inner) = Some struct ->
  In inner (Struct.members struct) ->
  is_handle vk (Member.type inner) = false ->
  holds_handle vk struct ->
  hd_error members = Some first ->
  In m members ->
  Member.type m = Member.type inner ->
  isCreate && Member.eqb m (List.last members first) = false ->
  walkObjects fuel members pfx arrayIndex parentName topCommand errorLoc
    isCreate = Raise RecursionError.
Proof.
  intros Hg Hinner Hh Hholds.
  assert (Hno : forall fuel members pfx arrayIndex parentName topCommand
                       errorLoc isCreate first m out,
            hd_error members = Some first ->
            In m members ->
            Member.type m = Member.type inner ->
            isCreate && Member.eqb m (List.last members first) = false ->
            walkObjects fuel members pfx arrayIndex parentName topCommand
              errorLoc isCreate = Ok out ->
            False).
  { clear fuel members pfx arrayIndex parentName topCommand errorLoc isCreate
          first m.
    induction fuel as [|fuel' IH];
      intros members pfx arrayIndex parentName topCommand errorLoc isCreate
             first m out Hf Hin Ht Hs H; [discriminate|].
    destruct (validateObjects_inv _ _ _ _ _ _ _ _ _ _ H Hf) as (f' & Ef & Hc).
    inversion Ef; subst f'; clear Ef.
    destruct (concat_mapM_In _ _ _ _ Hc Hin) as (o1 & ox & o2 & Hx & _).
    unfold loop_body, validateMember in Hx.
    rewrite Hs, Ht, Hh, Hg in Hx.
    destruct (structContainsObject vk fuel' struct) as [b|e] eqn:Eb;
      cbn [Py.bind] in Hx; [|discriminate].
    destruct b;
      [|exact (structContainsObject_complete _ _ Eb Hholds)].
    destruct (Struct.members struct) as [|s0 rest] eqn:Es; [contradiction|].
    destruct (Member.length m); [|destruct (Member.pointer m)];
      match type of Hx with
      | context [walkObjects fuel' ?ms ?p ?a ?pn ?tc ?loc false] =>
          destruct (walkObjects fuel' ms p a pn tc loc false) as [body|e]
            eqn:Ew; cbn [Py.bind] in Hx; [|discriminate];
          exact (IH ms p a pn tc loc false s0 inner body eq_refl Hinner
                   eq_refl eq_refl Ew)
      end. }
  intros Hf Hin Ht Hs.
  destruct (walkObjects fuel members pfx arrayIndex parentName topCommand
              errorLoc isCreate) as [out|e] eqn:Ew.
  - destruct (Hno _ _ _ _ _ _ _ _ _ _ _ Hf Hin Ht Hs Ew).
  - now rewrite (validateObjects_Raise _ _ _ _ _ _ _ _ _ Ew).
Qed.

(** ** What the walk emits *)

Lemma nullAllowed_bool (member : Member.t) :
  nullAllowed member = "true" \/ nullAllowed member = "false".
Proof.
  unfold nullAllowed.
  destruct (Member.noAutoValidity member); [now left|].
  destruct (truthy_opt (Member.length member));
    [destruct (Member.optionalPointer member)
    |destruct (Member.optional member)]; auto.
Qed.

(** X12. The walk emits calls of one kind only: every call in the code
    validateObjects returns, at any depth, is a ValidateObject whose type
    tag is that of a handle type of the registry and whose null flag is the
    text [true] or [false]. *)
Theorem walk_only_validates_handles (fuel : nat) (members : list Member.t)
    (pfx : prefix) (arrayIndex : nat) (parentName topCommand errorLoc : string)
    (isCreate : bool) (out : list stmt) :
  walkObjects fuel members pfx arrayIndex parentName topCommand errorLoc
    isCreate = Ok out ->
  Forall (validates_handle vk) (flat_map calls_of out).
Proof.
  revert members pfx arrayIndex parentName topCommand errorLoc isCreate out.
  induction fuel as [|fuel' IH];
    intros members pfx arrayIndex parentName topCommand errorLoc isCreate out
           H; [discriminate|].
  destruct members as [|first rest]; [inversion H; constructor|].
  rewrite validateObjects_S in H. apply Forall_forall. intros c Hc.
  destruct (concat_mapM_calls _ _ _ _ H Hc) as (m & ox & _ & Hx & Hin).
  unfold loop_body, validateMember in Hx.
  remember ("index" ++ str_nat arrayIndex) as index eqn:Eindex in Hx.
  clear Eindex.
  destruct (isCreate && Member.eqb m (List.last (first :: rest) first)).
  { inversion Hx; subst ox. contradiction. }
  destruct (is_handle vk (Member.type m)) eqn:Hh.
  { inversion Hx; subst ox. unfold validateHandle in Hin.
    destruct (truthy_opt (Member.length m));
      [|destruct (contains "basePipelineHandle" (Member.name m))];
      cbn [flat_map calls_of app] in Hin; destruct Hin as [<-|[]];
      (split; [try apply nullAllowed_bool; now right
              | exists (Member.type m); split; [exact Hh | reflexivity]]). }
  destruct (get (VulkanObject.structs vk) (Member.type m)) as [struct|];
    [|inversion Hx; subst ox; contradiction].
  bind_inv Hx. destruct a; [|inversion Hx; subst ox; contradiction].
  destruct (Member.length m); [|destruct (Member.pointer m)];
    bind_inv Hx; inversion Hx; subst ox;
    cbn [flat_map calls_of app] in Hin; rewrite ?app_nil_r in Hin;
    pose proof (IH _ _ _ _ _ _ _ _ Ha0) as Hall;
    rewrite Forall_forall in Hall; exact (Hall c Hin).
Qed.



Lemma expr_indices_countExpr (before : Param) (len : string) :
  expr_indices (countExpr before len) = [].
Proof.
  unfold countExpr.
  destruct ((Member.type before =? "uint32_t") && Member.pointer before);
    reflexivity.
Qed.

Lemma expr_indices_allocatorExpr (before : Param) :
  expr_indices (allocatorExpr before) = [].
Proof.
  unfold allocatorExpr.
  destruct (Member.type before =? "VkAllocationCallbacks"); reflexivity.
Qed.

(** X14. The post-call record of a command that creates handles is well
    formed as far as loops go when the created parameter is an array, or
    when the command is neither pipeline-named nor shader-named. For a
    pipeline-named or shader-named command whose last parameter is a single
    handle, the null test [if (!pPipelines[index]) continue;] (or its
    [break] form) is emitted with no loop around it. *)
Theorem post_call_record_well_formed (fuel : nat) (command : Command.t)
    (v pre post : list stmt) (last : Param) :
  genBody fuel command = Ok (v, pre, post) ->
  isCreate command = Ok true ->
  from_end (Command.params command) 1 = Ok last ->
  is_handle vk (Member.type last) = true ->
  forallb (scoped []) post && forallb (flow_closed false) post
  = match Member.length last with
    | Some _ => true
    | None =>
        negb (isCreatePipelines (Command.name command)
              || contains "CreateShaders" (Command.name command))
    end.
Proof.
  intros H Hc Hlast Hh. apply generateFunctionBody_inv in H.
  destruct H as (c & w & dv & Hc' & _ & Hp & _ & _).
  rewrite Hc in Hc'. inversion Hc'; subst c. unfold recordCreate in Hp.
  rewrite Hlast in Hp. cbn [Py.bind] in Hp. rewrite Hh in Hp.
  bind_inv Hp. rename a into before. unfold objectDest in Hp.
  destruct (Member.length last) as [len|],
           (isCreatePipelines (Command.name command)),
           (contains "CreateShaders" (Command.name command));
    inversion Hp; subst post;
    cbn [forallb scoped flow_closed cond_exprs call_exprs app andb orb negb];
    unfold bound_in; cbn [expr_indices forallb];
    rewrite ?expr_indices_countExpr, ?expr_indices_allocatorExpr;
    reflexivity.
Qed.

(** X15. A command that is not a destroy command and none of whose
    parameters is a handle, a struct that holds a handle, or a
    VkPhysicalDeviceGroupProperties is not intercepted: generateSource
    emits none of the three functions for it. *)
Theorem untouched_command_not_intercepted (fuel : nat) (command : Command.t) :
  Command.params command <> [] ->
  isDestroy command = false ->
  (forall m, In m (Command.params command) ->
             is_handle vk (Member.type m) = false
             /\ Member.type m <> "VkPhysicalDeviceGroupProperties"
             /\ forall s,
                  get (VulkanObject.structs vk) (Member.type m) = Some s ->
                  structContainsObject vk fuel s = Ok false) ->
  genIntercept (S fuel) command = Ok (mkIntercept None None None).
Proof.
  intros Hne Hd Hall.
  destruct (from_end_total (Command.params command) 1) as [last Hlast].
  { destruct (Command.params command); [contradiction | simpl; lia]. }
  destruct (from_end_last _ _ last Hlast) as [_ Hin].
  destruct (Hall last Hin) as (Hh & Hg & _).
  assert (Hc : exists c, isCreate command = Ok c).
  { unfold isCreate. rewrite Hlast.
    destruct (any_in create_patterns (Command.name command)); [eauto|].
    destruct (contains "vkGet" (Command.name command)); cbn [Py.bind]; eauto. }
  destruct Hc as [c Hc].
  unfold generateIntercept, generateFunctionBody. rewrite Hc, Hd.
  cbn [Py.bind].
  assert (Hw : walkObjects (S fuel) (Command.params command) PTop 0
                 (Command.name command) (Command.name command)
                 "error_obj.location" c = Ok []).
  { destruct (Command.params command) as [|first rest] eqn:Ep;
      [contradiction|].
    rewrite validateObjects_S. apply concat_mapM_nil. intros m Hm.
    unfold loop_body, validateMember.
    match goal with
    | |- context [c && ?x] => destruct (c && x); [reflexivity|]
    end.
    destruct (Hall m Hm) as (Hmh & _ & Hs). rewrite Hmh.
    destruct (get (VulkanObject.structs vk) (Member.type m)) as [s|];
      [|reflexivity].
    now rewrite (Hs s eq_refl). }
  rewrite Hw. cbn [Py.bind].
  assert (Hp : (if c then recordCreate vk command else Ok []) = Ok []).
  { destruct c; [|reflexivity]. unfold recordCreate. rewrite Hlast.
    cbn [Py.bind]. rewrite Hh. apply String.eqb_neq in Hg. now rewrite Hg. }
  rewrite Hp. reflexivity.
Qed.

(** X16. A creation of a single handle, once its result passes the gate
    (or with no gate, when the command returns no VkResult): the emitted
    PostCallRecord makes one runtime call, CreateObject, for the handle
    written through the last parameter, whatever its value, with the type
    tag of the parameter's type and with the second-to-last argument as the
    allocator when that one is a VkAllocationCallbacks, nullptr
    otherwise. *)
Theorem single_creation_records (fuel : nat) (command : Command.t)
    (i : Intercept) (last before : Param) (vars : dict cval) (result : Z)
    (h a : cval) (rest : list cval) :
  genIntercept fuel command = Ok i ->
  isCreate command = Ok true ->
  from_end (Command.params command) 1 = Ok last ->
  from_end (Command.params command) 2 = Ok before ->
  is_handle vk (Member.type last) = true ->
  Member.length last = None ->
  isCreatePipelines (Command.name command) = false ->
  contains "CreateShaders" (Command.name command) = false ->
  (Command.returnType command = "VkResult" ->
   accepted (Command.name command) result = true) ->
  get vars (Member.name last) = Some (VPtr (Some (h :: rest))) ->
  eval_expr vars [] (allocatorExpr before) = Some a ->
  exists body,
    PostCallRecord i = Some body
    /\ run_function vars result body
       = Some [CreateObject h (kVulkanObjectType (Member.type last)) a].
Proof.
  intros Hi Hc Hlast Hbefore Hh Hlen Hpipe Hshader Hres Hvar Halloc.
  apply generateIntercept_inv in Hi.
  destruct Hi as (v & pre & post & Hgen & _ & _ & Hpost).
  apply generateFunctionBody_inv in Hgen.
  destruct Hgen as (c & w & dv & Hc' & _ & Hp & _ & _).
  rewrite Hc in Hc'. inversion Hc'; subst c. unfold recordCreate in Hp.
  rewrite Hlast in Hp. cbn [Py.bind] in Hp. rewrite Hh, Hbefore in Hp.
  cbn [Py.bind] in Hp. rewrite Hlen, Hpipe, Hshader in Hp.
  unfold objectDest in Hp. rewrite Hlen in Hp.
  inversion Hp; subst post. cbn [app] in Hpost.
  eexists. split; [exact Hpost|].
  assert (Hrun : run_function vars result
                   [SCall (CallCreateObject (EDeref (EVar (Member.name last)))
                             (kVulkanObjectType (Member.type last))
                             (allocatorExpr before))]
                 = Some [CreateObject h (kVulkanObjectType (Member.type last)) a]).
  { unfold run_function, run_block.
    cbn [run_seq run_stmt run_call eval_expr]. rewrite Hvar, Halloc.
    reflexivity. }
  unfold postCallRecordBody. rewrite Hpipe. cbn [negb].
  rewrite andb_true_r.
  destruct (String.eqb_spec (Command.returnType command) "VkResult") as [E|E];
    [|exact Hrun].
  rewrite run_gate_open; [exact Hrun|].
  rewrite eval_failureCondition, (Hres E). reflexivity.
Qed.

(** X17. An enumeration of physical-device groups: the emitted post-call
    record, run on an array of groups, makes one
    PostCallRecordEnumeratePhysicalDevices call per group, up to the count
    written by the driver, in array order, each for the first parameter of
    the command, the address of the group's device count and its device
    array; the result handed on is VK_SUCCESS whatever the result of the
    enumeration itself was. *)
Theorem device_groups_recorded (fuel : nat) (command : Command.t)
    (v pre post : list stmt) (last count first : Param) (vars : dict cval)
    (result : Z) (inst : cval) (groups : list (cval * cval)) (n : nat) :
  genBody fuel command = Ok (v, pre, post) ->
  isCreate command = Ok true ->
  from_end (Command.params command) 1 = Ok last ->
  from_end (Command.params command) 2 = Ok count ->
  Py.first (Command.params command) = Ok first ->
  is_handle vk (Member.type last) = false ->
  Member.type last = "VkPhysicalDeviceGroupProperties" ->
  get vars (Member.name last)
  = Some (VPtr (Some (map (fun g => device_group (fst g) (snd g)) groups))) ->
  get vars (Member.name count) = Some (VPtr (Some [VInt (Z.of_nat n)])) ->
  get vars (Member.name first) = Some inst ->
  n <= List.length groups ->
  run_function vars result post
  = Some (map (fun g =>
                 PostCallRecordEnumeratePhysicalDevices inst
                   (VPtr (Some [fst g])) (snd g) (code_value VK_SUCCESS))
            (firstn n groups)).
Proof.
  intros Hgen Hc Hlast Hcount Hfirst Hh Ht Hvl Hvc Hvf Hn.
  apply generateFunctionBody_inv in Hgen.
  destruct Hgen as (c & w & dv & Hc' & _ & Hp & _ & _).
  rewrite Hc in Hc'. inversion Hc'; subst c. unfold recordCreate in Hp.
  rewrite Hlast in Hp. cbn [Py.bind] in Hp. rewrite Hh, Ht in Hp.
  cbn [String.eqb Ascii.eqb Bool.eqb] in Hp.
  rewrite Hcount, Hfirst in Hp. cbn [Py.bind] in Hp.
  inversion Hp; subst post.
  eapply run_function_batch; [exact Hvl | |].
  - cbn [eval_expr]. rewrite Hvc. reflexivity.
  - rewrite <- flat_map_singleton.
    replace n with (List.length (firstn n groups)) at 1
      by (rewrite length_firstn; lia).
    apply run_loop_all. intros k g Hg. left. cbn [Nat.add].
    cbn [run_seq run_stmt run_call eval_expr]. rewrite Hvl, Hvf.
    cbn [get]. rewrite String.eqb_refl.
    assert (Hk : nth_error groups k = Some g).
    { rewrite nth_error_firstn in Hg.
      destruct (k <? n)%nat; [exact Hg | discriminate]. }
    rewrite nth_error_map, Hk. reflexivity.
Qed.

(** X18. The handle a destroy command destroys is no exception to the
    walk: unless the walk skips it as the created parameter, the pre-call
    validation holds a ValidateObject call on that parameter in front of
    the ValidateDestroyObject call that ends it. *)
Theorem destroyed_handle_validated_first (fuel : nat) (command : Command.t)
    (v pre post : list stmt) (c : bool) (hp first : Param) :
  genBody fuel command = Ok (v, pre, post) ->
  isDestroy command = true ->
  isCreate command = Ok c ->
  handle_param command = Ok hp ->
  is_handle vk (Member.type hp) = true ->
  hd_error (Command.params command) = Some first ->
  c && Member.eqb hp (List.last (Command.params command) first) = false ->
  exists w allocator compat null e,
    v = (w ++ [SCall (CallValidateDestroyObject (EVar (Member.name hp))
                        (kVulkanObjectType (Member.type hp)) allocator
                        compat null)])%list
    /\ In e (validate_targets w)
    /\ root e = Some (Member.name hp).
Proof.
  intros Hgen Hd Hc Hhp Hh Hf Hs. apply generateFunctionBody_inv in Hgen.
  destruct Hgen as (c' & w & dv & Hc' & Hw & _ & Hdes & ->).
  rewrite Hc in Hc'. inversion Hc'; subst c'. rewrite Hd in Hdes.
  apply recordDestroy_inv in Hdes. destruct Hdes as (hp' & Hhp' & E).
  rewrite Hhp in Hhp'. inversion Hhp'; subst hp'. rewrite Hh in E.
  inversion E; subst dv pre.
  assert (Hin : In hp (Command.params command)).
  { unfold handle_param in Hhp.
    assert (Hk : forall k, from_end (Command.params command) k = Ok hp ->
                           In hp (Command.params command)).
    { intros k Hk. unfold from_end in Hk.
      destruct (nth_error (rev (Command.params command)) (pred k)) eqn:En;
        [|discriminate].
      inversion Hk; subst p. apply nth_error_In in En. now apply in_rev. }
    destruct (contains "ReleasePerformanceConfigurationINTEL"
                (Command.name command)); now apply Hk in Hhp. }
  destruct (walk_validates_handle _ _ _ _ _ _ _ _ _ first hp Hw Hf Hin Hh Hs)
    as (e & He & Hr).
  do 4 eexists. exists e. split; [reflexivity | split; [exact He | exact Hr]].
Qed.

(** ** getAllocVUID and its table *)

(** X19. Whatever the parameter and the kind asked for, getAllocVUID
    returns text that is a C++ expression: the name kVUIDUndefined, or a
    string literal of the table, which holds an identifier that starts with
    VUID-. *)
Theorem getAllocVUID_shape (param : Param) (allocType : string) :
  getAllocVUID targetApiName param allocType = kVUIDUndefined
  \/ exists s,
       getAllocVUID targetApiName param allocType = quoted ("VUID-" ++ s).
Proof.
  unfold getAllocVUID.
  destruct (negb match APISpecific.AreAllocVUIDsEnabled targetApiName with
                 | Some b => b
                 | None => false
                 end); [now left|].
  destruct (get manual_vuids (Member.name param ++ "-" ++ allocType))
    as [v|] eqn:E1; [right; exact (manual_vuids_get _ _ E1)|].
  destruct (get manual_vuids
              (Member.type param ++ "-" ++ Member.name param ++ "-" ++ allocType))
    as [v|] eqn:E2; [right; exact (manual_vuids_get _ _ E2) | now left].
Qed.

(** X20. The two allocator identifiers of a destroyed parameter come in
    pairs: getAllocVUID finds an identifier for the compatible-allocator
    check of a parameter exactly when it finds one for the null-allocator
    check of the same parameter. *)
Theorem allocator_vuids_paired (param : Param) :
  getAllocVUID targetApiName param "compatalloc" = kVUIDUndefined
  <-> getAllocVUID targetApiName param "nullalloc" = kVUIDUndefined.
Proof.
  unfold getAllocVUID.
  destruct (negb match APISpecific.AreAllocVUIDsEnabled targetApiName with
                 | Some b => b
                 | None => false
                 end); [tauto|].
  change ("-" ++ "compatalloc") with "-compatalloc".
  change ("-" ++ "nullalloc") with "-nullalloc".
  assert (Ec : Member.type param ++ "-" ++ Member.name param ++ "-compatalloc"
               = (Member.type param ++ "-" ++ Member.name param)
                 ++ "-compatalloc") by (now rewrite !append_assoc).
  assert (En : Member.type param ++ "-" ++ Member.name param ++ "-nullalloc"
               = (Member.type param ++ "-" ++ Member.name param)
                 ++ "-nullalloc") by (now rewrite !append_assoc).
  rewrite Ec, En.
  pose proof (manual_vuids_paired (Member.name param)) as Hn.
  pose proof (manual_vuids_paired
                (Member.type param ++ "-" ++ Member.name param)) as Ht.
  destruct (get manual_vuids (Member.name param ++ "-compatalloc"))
    as [v1|] eqn:E1;
    destruct (get manual_vuids (Member.name param ++ "-nullalloc"))
      as [v2|] eqn:E2.
  - destruct (manual_vuids_get _ _ E1) as [s1 ->].
    destruct (manual_vuids_get _ _ E2) as [s2 ->].
    split; intros H; destruct (quoted_not_undefined _ H).
  - destruct Hn as [_ Hn]. discriminate (Hn eq_refl).
  - destruct Hn as [Hn _]. discriminate (Hn eq_refl).
  - destruct (get manual_vuids
                ((Member.type param ++ "-" ++ Member.name param)
                 ++ "-compatalloc")) as [v1|] eqn:E3;
      destruct (get manual_vuids
                  ((Member.type param ++ "-" ++ Member.name param)
                   ++ "-nullalloc")) as [v2|] eqn:E4.
    + destruct (manual_vuids_get _ _ E3) as [s1 ->].
      destruct (manual_vuids_get _ _ E4) as [s2 ->].
      split; intros H; destruct (quoted_not_undefined _ H).
    + destruct Ht as [_ Ht]. discriminate (Ht eq_refl).
    + destruct Ht as [Ht _]. discriminate (Ht eq_refl).
    + tauto.
Qed.

(** ** generateHeader *)

Section HeaderProofs.

Variable cPrototype : Command.t -> string.
Variable protect : Command.t -> option string.

Local Notation declareCommand :=
  (declare targetApiName vk valid_vuids getVUID cPrototype protect).


(** X22. The declarations of a command are cut out of its C prototype
    after the text [VKAPI_CALL ]. Once the three texts of a command are
    generated, generateHeader stops with IndexError exactly when the
    prototype does not hold that text, whether or not anything would have
    been declared for the command. *)
Theorem header_needs_calling_convention (fuel : nat) (command : Command.t)
    (body : list stmt * list stmt * list stmt) :
  genBody fuel command = Ok body ->
  (declareCommand fuel command = Raise IndexError
   <-> contains "VKAPI_CALL " (cPrototype command) = false).
Proof.
  intros Hgen. unfold declare. rewrite Hgen. cbn [Py.bind].
  destruct body as [[v pre] post]. unfold prototype, split.
  destruct (contains "VKAPI_CALL " (cPrototype command)) eqn:Hc.
  - pose proof (split_from_present "VKAPI_CALL " (cPrototype command) ""
                  Hc ltac:(discriminate)) as Hlen.
    destruct (second (split_from "VKAPI_CALL " 0 "" (cPrototype command)))
      as [piece|e] eqn:Es; cbn [Py.bind]; [split; discriminate|].
    unfold second in Es.
    destruct (split_from "VKAPI_CALL " 0 "" (cPrototype command))
      as [|x [|y l]]; simpl in Hlen; try lia. discriminate.
  - rewrite (split_from_absent _ _ _ Hc). split; reflexivity.
Qed.

End HeaderProofs.

(** X23. The extra parameter of a declaration goes last. For a prototype
    text with one closing parenthesis, at its end, the declaration of
    PreCallValidate is the prototype with the error object appended to its
    parameters, and that of PostCallRecord is the prototype with the record
    object appended. *)
Theorem header_appends_the_object (command : Command.t) (q : string) :
  contains ")" q = false ->
  declareValidate command (q ++ ")")
  = "bool PreCallValidate" ++ q ++ error_obj_param ++ " const"
      ++ terminator command
  /\ declarePostRecord command (q ++ ")")
     = "void PostCallRecord" ++ q ++ record_obj_param ++ terminator command.
Proof.
  intros H. unfold declareValidate, declarePostRecord.
  rewrite !replace_app, !(replace_absent _ _ _ H). cbn [replace].
  rewrite !append_nil_r.
  change (if Ascii.eqb ")" ")" then error_obj_param else ")")
    with error_obj_param.
  change (if Ascii.eqb ")" ")" then record_obj_param else ")")
    with record_obj_param.
  rewrite !append_assoc. split; reflexivity.
Qed.

(** X24. The walk never makes up a parameter identifier: in every
    ValidateObject call it emits, the parameter identifier is
    kVUIDUndefined, or the literal of an identifier found in valid_vuids,
    or a literal taken from the hand-maintained table. *)
Theorem walk_param_vuids_known (fuel : nat) (members : list Member.t)
    (pfx : prefix) (arrayIndex : nat) (parentName topCommand errorLoc : string)
    (isCreate : bool) (out : list stmt) :
  walkObjects fuel members pfx arrayIndex parentName topCommand errorLoc
    isCreate = Ok out ->
  Forall (known_param_vuid valid_vuids) (flat_map calls_of out).
Proof.
  revert members pfx arrayIndex parentName topCommand errorLoc isCreate out.
  induction fuel as [|fuel' IH];
    intros members pfx arrayIndex parentName topCommand errorLoc isCreate out
           H; [discriminate|].
  destruct members as [|first rest]; [inversion H; constructor|].
  rewrite validateObjects_S in H. apply Forall_forall. intros c Hc.
  destruct (concat_mapM_calls _ _ _ _ H Hc) as (m & ox & _ & Hx & Hin).
  unfold loop_body, validateMember in Hx.
  remember ("index" ++ str_nat arrayIndex) as index eqn:Eindex in Hx.
  clear Eindex.
  destruct (isCreate && Member.eqb m (List.last (first :: rest) first)).
  { inversion Hx; subst ox. contradiction. }
  assert (Hparam : paramVUID vk valid_vuids parentName m = kVUIDUndefined
                   \/ exists s,
                        paramVUID vk valid_vuids parentName m = quoted s
                        /\ (In s valid_vuids
                            \/ In (quoted s) (values manual_vuids))).
  { unfold paramVUID.
    destruct (in_list ("VUID-" ++ aliased vk parentName ++ "-" ++ Member.name m
                         ++ "-parameter") valid_vuids) eqn:E; [|now left].
    right. eexists. split; [reflexivity|]. left. now apply in_list_In. }
  destruct (is_handle vk (Member.type m)) eqn:Hh.
  { inversion Hx; subst ox. unfold validateHandle in Hin.
    destruct (truthy_opt (Member.length m));
      [|destruct (contains "basePipelineHandle" (Member.name m))];
      cbn [flat_map calls_of app] in Hin; destruct Hin as [<-|[]];
      try exact Hparam.
    cbn [known_param_vuid].
    destruct (get manual_vuids (parentName ++ "-" ++ Member.name m))
      as [v|] eqn:Ev; [|now left].
    right. destruct (manual_vuids_get _ _ Ev) as [s ->].
    eexists. split; [reflexivity|]. right.
    apply get_In in Ev. apply in_map_iff. eexists. split; [|exact Ev].
    reflexivity. }
  destruct (get (VulkanObject.structs vk) (Member.type m)) as [struct|];
    [|inversion Hx; subst ox; contradiction].
  bind_inv Hx. destruct a; [|inversion Hx; subst ox; contradiction].
  destruct (Member.length m); [|destruct (Member.pointer m)];
    bind_inv Hx; inversion Hx; subst ox;
    cbn [flat_map calls_of app] in Hin; rewrite ?app_nil_r in Hin;
    pose proof (IH _ _ _ _ _ _ _ _ Ha0) as Hall;
    rewrite Forall_forall in Hall; exact (Hall c Hin).
Qed.

(** ** The recursion budget *)

Lemma structContainsObject_more_fuel (fuel : nat) :
  forall struct b,
    structContainsObject vk fuel struct = Ok b ->
    structContainsObject vk (S fuel) struct = Ok b.
Proof.
  induction fuel as [|fuel' IH]; intros struct b H; [discriminate|].
  rewrite structContainsObject_S in H. rewrite structContainsObject_S.
  revert H. induction (Struct.members struct) as [|m rest IHm]; intros H;
    [exact H|].
  cbn [members_loop] in H |- *.
  destruct (is_handle vk (Member.type m)); [exact H|].
  destruct (get (VulkanObject.structs vk) (Member.type m)) as [sub|];
    [|now apply IHm].
  destruct (negb (Member.type m =? Struct.name struct)); [|now apply IHm].
  destruct (structContainsObject vk fuel' sub) as [b'|e] eqn:Eb;
    cbn [Py.bind] in H; [|discriminate].
  rewrite (IH _ _ Eb). cbn [Py.bind].
  destruct b'; [exact H | now apply IHm].
Qed.

Lemma validateObjects_more_fuel (fuel : nat) :
  forall members pfx arrayIndex parentName topCommand errorLoc isCreate out,
    walkObjects fuel members pfx arrayIndex parentName topCommand errorLoc
      isCreate = Ok out ->
    walkObjects (S fuel) members pfx arrayIndex parentName topCommand errorLoc
      isCreate = Ok out.
Proof.
  induction fuel as [|fuel' IH];
    intros members pfx arrayIndex parentName topCommand errorLoc isCreate out
           H; [discriminate|].
  destruct members as [|first rest]; [exact H|].
  rewrite validateObjects_S in H. rewrite validateObjects_S.
  apply (concat_mapM_ext _ _ _ _ H). intros m ox _ Hx.
  unfold loop_body, validateMember in Hx |- *.
  remember ("index" ++ str_nat arrayIndex) as index eqn:Eindex.
  match goal with
  | |- context [isCreate && ?x] => destruct (isCreate && x); [exact Hx|]
  end.
  destruct (is_handle vk (Member.type m)); [exact Hx|].
  destruct (get (VulkanObject.structs vk) (Member.type m)) as [struct|];
    [|exact Hx].
  destruct (structContainsObject vk fuel' struct) as [b|e] eqn:Eb;
    cbn [Py.bind] in Hx; [|discriminate].
  rewrite (structContainsObject_more_fuel _ _ _ Eb). cbn [Py.bind].
  destruct b; [|exact Hx].
  destruct (Member.length m); [|destruct (Member.pointer m)];
    match type of Hx with
    | context [walkObjects fuel' ?ms ?p ?a ?pn ?tc ?loc false] =>
        destruct (walkObjects fuel' ms p a pn tc loc false) as [body|e]
          eqn:Ew; cbn [Py.bind] in Hx; [|discriminate];
        rewrite (IH _ _ _ _ _ _ _ _ Ew); cbn [Py.bind]; exact Hx
    end.
Qed.

(** X25. The recursion budget is a limit and nothing else: once
    generateFunctionBody returns under a budget, it returns the same three
    texts under every larger one. *)
Theorem generateFunctionBody_budget_free (fuel more : nat)
    (command : Command.t) (body : list stmt * list stmt * list stmt) :
  genBody fuel command = Ok body ->
  genBody (more + fuel) command = Ok body.
Proof.
  intros H. induction more as [|more IH]; [exact H|].
  cbn [Nat.add]. unfold generateFunctionBody in IH |- *.
  destruct (isCreate command) as [c|e]; cbn [Py.bind] in IH |- *;
    [|discriminate].
  match type of IH with
  | context [walkObjects ?f ?ms ?p ?a ?pn ?tc ?loc c] =>
      destruct (walkObjects f ms p a pn tc loc c) as [w|e] eqn:Ew;
      cbn [Py.bind] in IH; [|discriminate];
      rewrite (validateObjects_more_fuel _ _ _ _ _ _ _ _ _ Ew)
  end.
  exact IH.
Qed.

(** X28. The walk keeps the order of the members: of two handle members
    that it does not skip, the code of the one declared first comes first
    in what validateObjects returns, so the emitted function validates
    handles in declaration order. *)
Theorem walk_follows_member_order (fuel : nat)
    (before between after : list Member.t) (m1 m2 first : Member.t)
    (pfx : prefix) (arrayIndex : nat) (parentName topCommand errorLoc : string)
    (isCreate : bool) (out : list stmt) :
  let members := (before ++ m1 :: between ++ m2 :: after)%list in
  walkObjects fuel members pfx arrayIndex parentName topCommand errorLoc
    isCreate = Ok out ->
  hd_error members = Some first ->
  is_handle vk (Member.type m1) = true ->
  is_handle vk (Member.type m2) = true ->
  isCreate && Member.eqb m1 (List.last members first) = false ->
  isCreate && Member.eqb m2 (List.last members first) = false ->
  exists o1 o2 o3,
    out = (o1 ++ handleCode members first pfx ("index" ++ str_nat arrayIndex)
                   parentName topCommand errorLoc m1
              ++ o2
              ++ handleCode members first pfx ("index" ++ str_nat arrayIndex)
                   parentName topCommand errorLoc m2
              ++ o3)%list.
Proof.
  intros members H Hf Hh1 Hh2 Hs1 Hs2.
  destruct (validateObjects_inv _ _ _ _ _ _ _ _ _ _ H Hf) as (fuel' & -> & Hc).
  unfold members in Hc at 2.
  apply concat_mapM_split in Hc.
  destruct Hc as (o1 & ox1 & r & _ & Hx1 & Hr & ->).
  apply concat_mapM_split in Hr.
  destruct Hr as (o2 & ox2 & o3 & _ & Hx2 & _ & ->).
  rewrite (loop_body_handle _ _ _ _ _ _ _ _ _ _ Hh1 Hs1) in Hx1.
  rewrite (loop_body_handle _ _ _ _ _ _ _ _ _ _ Hh2 Hs2) in Hx2.
  inversion Hx1; subst ox1. inversion Hx2; subst ox2.
  exists o1, o2, o3. reflexivity.
Qed.

End Proofs.

(** * The properties at work on the sample registry *)

(** vkCreateFence reporting VK_ERROR_OUT_OF_HOST_MEMORY records nothing. *)
Lemma failed_create_records_nothing_witness :
  run_function Sample.fence_env (-1)
    [SReturnIf (CResultNot VK_SUCCESS);
     SCall (CallCreateObject (EDeref (EVar "pFence")) "kVulkanObjectTypeFence"
              (EVar "pAllocator"))]
  = Some [].
Proof.
  eapply (failed_create_records_nothing "vulkan" Sample.vk Sample.valid_vuids
            Sample.getVUID 5 Sample.vkCreateFence).
  - vm_compute. reflexivity.
  - reflexivity.
  - reflexivity.
  - reflexivity.
  - vm_compute. discriminate.
  - vm_compute. discriminate.
  - vm_compute. discriminate.
Defined.


(** The same plain gate is emitted for vkGetDisplayPlaneSupportedDisplaysKHR,
    a command of the registry that fills an array of display handles and
    can report VK_INCOMPLETE: the displays it returned are then not
    recorded. *)
Example incomplete_rejected_for_display_query :
  match generateIntercept "vulkan" Sample.vk Sample.valid_vuids Sample.getVUID 5
          Sample.vkGetDisplayPlaneSupportedDisplaysKHR with
  | Ok i =>
      PostCallRecord i
      = Some [SReturnIf (CResultNot VK_SUCCESS);
              SIf (CTrue (EVar "pDisplays"))
                [SFor "index" (EDeref (EVar "pDisplayCount"))
                   [SCall (CallCreateObject (EIndex (EVar "pDisplays") "index")
                             "kVulkanObjectTypeDisplayKHR" ENull)]]]
      /\ option_map (run_function Sample.displays_env (code_value VK_INCOMPLETE))
           (PostCallRecord i)
         = Some (Some [])
  | Raise _ => False
  end.
Proof. split; reflexivity. Qed.





(** Inside an aggregate the first member is the aggregate's own: the
    layout of a VkGraphicsPipelineCreateInfo gets the common-parent
    identifier of the struct, and the fence of vkQueueSubmit, whose first
    parameter is a queue, that of the command. *)
Example parent_vuid_in_aggregate :
  parentVUID Sample.vk Sample.valid_vuids Sample.getVUID
    (Struct.members Sample.VkGraphicsPipelineCreateInfo)
    (Sample.value "sType" "VkStructureType") "VkGraphicsPipelineCreateInfo"
    "vkCreateGraphicsPipelines"
    (Sample.optional_value "layout" "VkPipelineLayout")
  = quoted "VUID-VkGraphicsPipelineCreateInfo-commonparent"
  /\ parentVUID Sample.vk Sample.valid_vuids Sample.getVUID
       (Command.params Sample.vkQueueSubmit) (Sample.value "queue" "VkQueue")
       "vkQueueSubmit" "vkQueueSubmit" Sample.fence
     = quoted "VUID-vkQueueSubmit-commonparent"
  /\ parentVUID Sample.vk Sample.valid_vuids Sample.getVUID
       (Command.params Sample.vkDestroyFence) Sample.device
       "vkDestroyFence" "vkDestroyFence" Sample.fence
     = quoted "VUID-vkDestroyFence-fence-parent"
  /\ parentVUID Sample.vk Sample.valid_vuids Sample.getVUID
       (Command.params Sample.vkDestroyFence) Sample.device
       "vkDestroyFence" "vkDestroyFence" Sample.device
     = kVUIDUndefined.
Proof. repeat split. Qed.

(** The base pipeline of a derivative pipeline given by handle. *)
Lemma base_pipeline_handle_guard_witness :
  run_block Sample.derivative_env 0 [("index0", 0)]
    (validateHandle Sample.vk Sample.valid_vuids Sample.getVUID
       (Struct.members Sample.VkGraphicsPipelineCreateInfo)
       (Sample.value "sType" "VkStructureType") Sample.pipeline_info_prefix
       "index1" "VkGraphicsPipelineCreateInfo" "vkCreateGraphicsPipelines"
       "index0_loc" Sample.basePipelineHandle)
  = Some ([ValidateObject (VInt 99) "kVulkanObjectTypePipeline" "false"
             (quoted "VUID-VkGraphicsPipelineCreateInfo-flags-07984")
             (quoted "VUID-VkGraphicsPipelineCreateInfo-commonparent")
             "error_obj.location"],
          Next).
Proof.
  refine (proj2 (base_pipeline_handle_guard Sample.vk Sample.valid_vuids
                   Sample.getVUID 3
                   (Struct.members Sample.VkGraphicsPipelineCreateInfo)
                   Sample.pipeline_info_prefix 1 "VkGraphicsPipelineCreateInfo"
                   "vkCreateGraphicsPipelines" "index0_loc" false
                   Sample.pipeline_info_walk
                   (Sample.value "sType" "VkStructureType")
                   Sample.basePipelineHandle _ _ _ _ _ _ _)
            Sample.derivative_env 0%Z [("index0", 0)] 4%Z (-1)%Z (VInt 99)
            _ _ _).
  - vm_compute. reflexivity.
  - reflexivity.
  - simpl. do 8 right. left. reflexivity.
  - reflexivity.
  - reflexivity.
  - reflexivity.
  - reflexivity.
  - reflexivity.
  - reflexivity.
  - reflexivity.
Defined.

(** C6, as the claim has it, fails: vkAcquirePerformanceConfigurationINTEL
    is treated as a creation call (its last parameter is recorded as
    created and is not validated) although its name matches none of the
    creation, allocation, enumeration and event-registration patterns and
    does not hold vkGet. *)
Lemma acquire_is_a_creation_call :
  isCreate Sample.vkAcquirePerformanceConfigurationINTEL = Ok true
  /\ any_in ["Create"; "Allocate"; "Enumerate"; "RegisterDeviceEvent";
             "RegisterDisplayEvent"]
       (Command.name Sample.vkAcquirePerformanceConfigurationINTEL) = false
  /\ contains "vkGet"
       (Command.name Sample.vkAcquirePerformanceConfigurationINTEL) = false
  /\ Sample.generate 5 Sample.vkAcquirePerformanceConfigurationINTEL
     = Ok ([SCall (CallValidateObject (EVar "device") "kVulkanObjectTypeDevice"
                     "false" kVUIDUndefined kVUIDUndefined
                     "error_obj.location.dot(Field::device)")],
           [],
           [SCall (CallCreateObject (EDeref (EVar "pConfiguration"))
                     "kVulkanObjectTypePerformanceConfigurationINTEL" ENull)]).
Proof. repeat split. Qed.

Ltac distinct_names :=
  repeat (constructor;
          [simpl; intros H;
           repeat (destruct H as [H|H]; [discriminate H|]); exact H|]);
  constructor.

(** vkCreateGraphicsPipelines: pPipelines is not validated, the device and
    the pipeline cache are. *)
Lemma created_parameter_not_validated_witness :
  (forall e, In e (validate_targets
                     (Sample.pre_call_validate Sample.vkCreateGraphicsPipelines)) ->
             root e <> Some "pPipelines")
  /\ (forall m, In m (Command.params Sample.vkCreateGraphicsPipelines) ->
                m <> Sample.array "pPipelines" "VkPipeline" "createInfoCount" ->
                is_handle Sample.vk (Member.type m) = true ->
                exists e,
                  In e (validate_targets
                          (Sample.pre_call_validate
                             Sample.vkCreateGraphicsPipelines))
                  /\ root e = Some (Member.name m)).
Proof.
  refine (proj2 (created_parameter_not_validated "vulkan" Sample.vk
                   Sample.valid_vuids Sample.getVUID 5
                   Sample.vkCreateGraphicsPipelines
                   (Sample.pre_call_validate Sample.vkCreateGraphicsPipelines)
                   (Sample.pre_call_record Sample.vkCreateGraphicsPipelines)
                   (Sample.post_call_record Sample.vkCreateGraphicsPipelines) _)
            _ _
            (Sample.array "pPipelines" "VkPipeline" "createInfoCount") _).
  - vm_compute. reflexivity.
  - reflexivity.
  - simpl. distinct_names.
  - reflexivity.
Defined.

(** vkDestroyFence: the identifiers come from the table entries
    [fence-compatalloc] and [fence-nullalloc]. *)
Lemma allocator_vuids_from_table_witness :
  (exists w allocator,
     Sample.pre_call_validate Sample.vkDestroyFence
     = (w ++ [SCall (CallValidateDestroyObject (EVar "fence")
                       "kVulkanObjectTypeFence" allocator
                       (quoted "VUID-vkDestroyFence-fence-01121")
                       (quoted "VUID-vkDestroyFence-fence-01122"))])%list)
  /\ forall allocType,
       (alloc_vuids_enabled "vulkan" = false ->
        getAllocVUID "vulkan" Sample.fence allocType = kVUIDUndefined)
       /\ (alloc_vuids_enabled "vulkan" = true ->
           forall vuid,
             get manual_vuids ("fence" ++ "-" ++ allocType) = Some vuid ->
             getAllocVUID "vulkan" Sample.fence allocType = vuid)
       /\ (alloc_vuids_enabled "vulkan" = true ->
           get manual_vuids ("fence" ++ "-" ++ allocType) = None ->
           forall vuid,
             get manual_vuids
               ("VkFence" ++ "-" ++ "fence" ++ "-" ++ allocType) = Some vuid ->
             getAllocVUID "vulkan" Sample.fence allocType = vuid)
       /\ (alloc_vuids_enabled "vulkan" = true ->
           get manual_vuids ("fence" ++ "-" ++ allocType) = None ->
           get manual_vuids
             ("VkFence" ++ "-" ++ "fence" ++ "-" ++ allocType) = None ->
           getAllocVUID "vulkan" Sample.fence allocType = kVUIDUndefined).
Proof.
  apply (allocator_vuids_from_table "vulkan" Sample.vk Sample.valid_vuids
           Sample.getVUID 5 Sample.vkDestroyFence
           (Sample.pre_call_validate Sample.vkDestroyFence)
           (Sample.pre_call_record Sample.vkDestroyFence)
           (Sample.post_call_record Sample.vkDestroyFence) Sample.fence).
  - vm_compute. reflexivity.
  - reflexivity.
  - reflexivity.
  - reflexivity.
Defined.

(** The three ways of getAllocVUID: by name, by type and name, and none;
    and a target that is not 'vulkan'. *)
Example getAllocVUID_by_name :
  getAllocVUID "vulkan" Sample.fence "compatalloc"
  = quoted "VUID-vkDestroyFence-fence-01121".
Proof. reflexivity. Qed.

Example getAllocVUID_by_type_and_name :
  getAllocVUID "vulkan"
    (Sample.optional_value "videoSession" "VkVideoSessionKHR") "nullalloc"
  = quoted "VUID-vkDestroyVideoSessionKHR-videoSession-07194".
Proof. reflexivity. Qed.

Example getAllocVUID_unregistered :
  getAllocVUID "vulkan"
    (Sample.optional_value "configuration" "VkPerformanceConfigurationINTEL")
    "compatalloc"
  = kVUIDUndefined.
Proof. reflexivity. Qed.

Example getAllocVUID_disabled :
  getAllocVUID "vulkansc" Sample.fence "compatalloc" = kVUIDUndefined.
Proof. reflexivity. Qed.

(** vkQueueSubmit with a null pSubmits: the fence is still validated. *)
Lemma absent_container_skips_only_itself_witness :
  exists fuel' o1 code o2,
    5 = S fuel'
    /\ concat_mapM
         (loop_body Sample.vk Sample.valid_vuids Sample.getVUID fuel'
            (Command.params Sample.vkQueueSubmit)
            (Sample.value "queue" "VkQueue") PTop 0 "vkQueueSubmit"
            "vkQueueSubmit" "error_obj.location" false)
         [Sample.value "queue" "VkQueue";
          Sample.optional_value "submitCount" "uint32_t"] = Ok o1
    /\ loop_body Sample.vk Sample.valid_vuids Sample.getVUID fuel'
         (Command.params Sample.vkQueueSubmit)
         (Sample.value "queue" "VkQueue") PTop 0 "vkQueueSubmit"
         "vkQueueSubmit" "error_obj.location" false
         (Sample.array "pSubmits" "VkSubmitInfo" "submitCount") = Ok code
    /\ concat_mapM
         (loop_body Sample.vk Sample.valid_vuids Sample.getVUID fuel'
            (Command.params Sample.vkQueueSubmit)
            (Sample.value "queue" "VkQueue") PTop 0 "vkQueueSubmit"
            "vkQueueSubmit" "error_obj.location" false)
         [Sample.fence] = Ok o2
    /\ Sample.walk_of Sample.vkQueueSubmit = (o1 ++ code ++ o2)%list
    /\ (forall vars result idx,
          absent_container Sample.vk vars idx PTop
            (Sample.array "pSubmits" "VkSubmitInfo" "submitCount") ->
          run_block vars result idx code = Some ([], Next)
          /\ run_block vars result idx (Sample.walk_of Sample.vkQueueSubmit)
             = run_block vars result idx (o1 ++ o2)%list)
    /\ (forall struct,
          false && Member.eqb
                     (Sample.array "pSubmits" "VkSubmitInfo" "submitCount")
                     (List.last (Command.params Sample.vkQueueSubmit)
                        (Sample.value "queue" "VkQueue")) = false ->
          is_handle Sample.vk "VkSubmitInfo" = false ->
          get (VulkanObject.structs Sample.vk) "VkSubmitInfo" = Some struct ->
          structContainsObject Sample.vk fuel' struct = Ok true ->
          Member.length (Sample.array "pSubmits" "VkSubmitInfo" "submitCount")
          = None ->
          Member.pointer (Sample.array "pSubmits" "VkSubmitInfo" "submitCount")
          = false ->
          exists body,
            validateObjects Sample.vk Sample.valid_vuids Sample.getVUID fuel'
              (Struct.members struct) (PDot (access PTop "pSubmits")) (0 + 1)
              "VkSubmitInfo" "vkQueueSubmit" ("pSubmits" ++ "_loc") false
            = Ok body
            /\ forall vars result idx,
                 run_block vars result idx code
                 = run_block vars result idx body).
Proof.
  apply (absent_container_skips_only_itself Sample.vk Sample.valid_vuids
           Sample.getVUID 5 (Command.params Sample.vkQueueSubmit) PTop 0
           "vkQueueSubmit" "vkQueueSubmit" "error_obj.location" false
           (Sample.walk_of Sample.vkQueueSubmit)
           (Sample.value "queue" "VkQueue")
           [Sample.value "queue" "VkQueue";
            Sample.optional_value "submitCount" "uint32_t"]
           (Sample.array "pSubmits" "VkSubmitInfo" "submitCount")
           [Sample.fence]).
  - vm_compute. reflexivity.
  - reflexivity.
  - reflexivity.
Defined.

(** With a null pSubmits the run validates the queue and the fence, in
    that order. *)
Example null_submits_validates_the_rest :
  absent_container Sample.vk Sample.empty_submit_env [] PTop
    (Sample.array "pSubmits" "VkSubmitInfo" "submitCount")
  /\ run_function Sample.empty_submit_env 0 (Sample.walk_of Sample.vkQueueSubmit)
     = Some [ValidateObject (VInt 3) "kVulkanObjectTypeQueue" "false"
               kVUIDUndefined kVUIDUndefined
               "error_obj.location.dot(Field::queue)";
             ValidateObject (VInt 7) "kVulkanObjectTypeFence" "true"
               kVUIDUndefined (quoted "VUID-vkQueueSubmit-commonparent")
               "error_obj.location.dot(Field::fence)"].
Proof.
  split; [|reflexivity].
  unfold absent_container. simpl. split; [left; discriminate | reflexivity].
Qed.

(** vkDestroyFence and vkReleasePerformanceConfigurationINTEL. *)
Lemma destroy_recorded_before_call_witness :
  (exists hp w,
     from_end (Command.params Sample.vkDestroyFence) 2 = Ok hp
     /\ existsb is_removal
          (flat_map calls_of (Sample.post_call_record Sample.vkDestroyFence))
        = false
     /\ if is_handle Sample.vk (Member.type hp) then
          (exists compat null,
             Sample.pre_call_validate Sample.vkDestroyFence
             = (w ++ [SCall (CallValidateDestroyObject (EVar (Member.name hp))
                               (kVulkanObjectType (Member.type hp))
                               (EVar "pAllocator") compat null)])%list)
          /\ Sample.pre_call_record Sample.vkDestroyFence
             = [SCall (CallRecordDestroyObject (EVar (Member.name hp))
                         (kVulkanObjectType (Member.type hp)))]
          /\ exists i,
               generateIntercept "vulkan" Sample.vk Sample.valid_vuids
                 Sample.getVUID 5 Sample.vkDestroyFence = Ok i
               /\ PreCallRecord i
                  = Some (Sample.pre_call_record Sample.vkDestroyFence)
        else Sample.pre_call_validate Sample.vkDestroyFence = w
             /\ Sample.pre_call_record Sample.vkDestroyFence = [])
  /\ (exists hp w,
        from_end (Command.params Sample.vkReleasePerformanceConfigurationINTEL) 1
        = Ok hp
        /\ existsb is_removal
             (flat_map calls_of
                (Sample.post_call_record
                   Sample.vkReleasePerformanceConfigurationINTEL))
           = false
        /\ if is_handle Sample.vk (Member.type hp) then
             (exists compat null,
                Sample.pre_call_validate
                  Sample.vkReleasePerformanceConfigurationINTEL
                = (w ++ [SCall (CallValidateDestroyObject
                                  (EVar (Member.name hp))
                                  (kVulkanObjectType (Member.type hp))
                                  ENull compat null)])%list)
             /\ Sample.pre_call_record
                  Sample.vkReleasePerformanceConfigurationINTEL
                = [SCall (CallRecordDestroyObject (EVar (Member.name hp))
                            (kVulkanObjectType (Member.type hp)))]
             /\ exists i,
                  generateIntercept "vulkan" Sample.vk Sample.valid_vuids
                    Sample.getVUID 5
                    Sample.vkReleasePerformanceConfigurationINTEL = Ok i
                  /\ PreCallRecord i
                     = Some (Sample.pre_call_record
                               Sample.vkReleasePerformanceConfigurationINTEL)
           else Sample.pre_call_validate
                  Sample.vkReleasePerformanceConfigurationINTEL = w
                /\ Sample.pre_call_record
                     Sample.vkReleasePerformanceConfigurationINTEL = []).
Proof.
  split.
  - apply (destroy_recorded_before_call "vulkan" Sample.vk Sample.valid_vuids
             Sample.getVUID 5 Sample.vkDestroyFence).
    + vm_compute. reflexivity.
    + reflexivity.
  - apply (destroy_recorded_before_call "vulkan" Sample.vk Sample.valid_vuids
             Sample.getVUID 5 Sample.vkReleasePerformanceConfigurationINTEL).
    + vm_compute. reflexivity.
    + reflexivity.
Defined.

(** The teardown of the sample registry. *)
Lemma teardown_reports_and_clears_witness :
  exists report_instance report_device destroy_instance destroy_device,
    run_function [] 0 (ReportUndestroyedInstanceObjects Sample.source)
    = Some report_instance
    /\ run_function [] 0 (ReportUndestroyedDeviceObjects Sample.source)
       = Some report_device
    /\ run_function [] 0 (DestroyLeakedInstanceObjects Sample.source)
       = Some destroy_instance
    /\ run_function [] 0 (DestroyLeakedDeviceObjects Sample.source)
       = Some destroy_device
    /\ teardown_ok "vulkan" Sample.leaked (instance_handles Sample.vk) []
         "VUID-vkDestroyInstance-instance-00629" report_instance
         destroy_instance
    /\ teardown_ok "vulkan" Sample.leaked (device_handles Sample.vk)
         ["kVulkanObjectTypeCommandBuffer"]
         "VUID-vkDestroyDevice-device-00378" report_device destroy_device
    /\ (forall h, is_reported "vulkan" h = true <->
                  Handle.name h <> "VkDisplayKHR"
                  /\ Handle.name h <> "VkDisplayModeKHR").
Proof.
  apply (teardown_reports_and_clears "vulkan" Sample.vk Sample.valid_vuids
           Sample.getVUID 5 Sample.source Sample.leaked).
  vm_compute. reflexivity.
Defined.

(** The sample teardown in full: the leaked surface is reported for the
    instance and the leaked display is not; the leaked command buffer and
    fence are reported for the device; all four records are cleared. *)
Example sample_teardown :
  option_map (Registry.diagnostics Sample.leaked)
    (run_function [] 0 (ReportUndestroyedInstanceObjects Sample.source))
  = Some [Registry.mkDiagnostic "VUID-vkDestroyInstance-instance-00629"
            (Registry.mkRecord 10 "kVulkanObjectTypeSurfaceKHR" true)]
  /\ option_map (Registry.diagnostics Sample.leaked)
       (run_function [] 0 (ReportUndestroyedDeviceObjects Sample.source))
     = Some [Registry.mkDiagnostic "VUID-vkDestroyDevice-device-00378"
               (Registry.mkRecord 8 "kVulkanObjectTypeCommandBuffer" false);
             Registry.mkDiagnostic "VUID-vkDestroyDevice-device-00378"
               (Registry.mkRecord 7 "kVulkanObjectTypeFence" false)]
  /\ option_map (Registry.cleared Sample.leaked)
       (run_function [] 0 (DestroyLeakedInstanceObjects Sample.source))
     = Some [Registry.mkRecord 7 "kVulkanObjectTypeFence" false;
             Registry.mkRecord 8 "kVulkanObjectTypeCommandBuffer" false]
  /\ option_map (Registry.cleared Sample.leaked)
       (run_function [] 0 (DestroyLeakedDeviceObjects Sample.source))
     = Some [Registry.mkRecord 9 "kVulkanObjectTypeDisplayKHR" false;
             Registry.mkRecord 10 "kVulkanObjectTypeSurfaceKHR" true].
Proof. repeat split. Qed.

(** The sample registry nests its structs to a finite depth, so the
    generator returns for its commands. *)
Example sample_registry_ranked : ranked Sample.vk Sample.rank.
Proof.
  intros k s m sub Hk Hm Hsub.
  cbv [Sample.vk Sample.structs VulkanObject.structs map get Struct.name
       Sample.VkPipelineShaderStageCreateInfo Sample.VkGraphicsPipelineCreateInfo
       Sample.VkImageViewCreateInfo Sample.VkFenceCreateInfo Sample.VkSubmitInfo
       Sample.VkShaderCreateInfoEXT] in Hk.
  repeat match type of Hk with
         | (if ?a =? k then _ else _) = _ =>
             destruct (String.eqb_spec a k) as [E|_];
             [injection Hk as <-; subst k; simpl in Hm;
              repeat (destruct Hm as [<-|Hm];
                      [try discriminate Hsub; vm_compute; lia|]);
              contradiction|]
         end.
  discriminate Hk.
Qed.

Lemma generateFunctionBody_total_witness :
  exists fuel out,
    generateFunctionBody "vulkan" Sample.vk Sample.valid_vuids Sample.getVUID
      fuel Sample.vkCreateGraphicsPipelines = Ok out.
Proof.
  apply (generateFunctionBody_total "vulkan" Sample.vk Sample.valid_vuids
           Sample.getVUID Sample.rank).
  - exact sample_registry_ranked.
  - simpl. lia.
Defined.

(** ** Further properties at work on the sample registry *)

Lemma teardown_lines_aligned_witness :
  map teardown_type (ReportUndestroyedInstanceObjects Sample.source)
  = map teardown_type (DestroyLeakedInstanceObjects Sample.source)
  /\ map teardown_type (ReportUndestroyedDeviceObjects Sample.source)
     = map teardown_type (DestroyLeakedDeviceObjects Sample.source)
  /\ ~ In None (map teardown_type (DestroyLeakedInstanceObjects Sample.source))
  /\ ~ In None (map teardown_type (DestroyLeakedDeviceObjects Sample.source)).
Proof.
  apply (teardown_lines_aligned "vulkan" Sample.vk Sample.valid_vuids
           Sample.getVUID 5).
  vm_compute. reflexivity.
Defined.

Lemma intercepts_follow_registry_witness :
  map fst (intercepts Sample.source)
  = filter (fun n => negb (in_list n no_autogen_list))
      (map Command.name (values (VulkanObject.commands Sample.vk)))
  /\ forall n i,
       In (n, i) (intercepts Sample.source) ->
       in_list n no_autogen_list = false
       /\ exists command,
            In command (values (VulkanObject.commands Sample.vk))
            /\ Command.name command = n
            /\ generateIntercept "vulkan" Sample.vk Sample.valid_vuids
                 Sample.getVUID 5 command = Ok i.
Proof.
  apply (intercepts_follow_registry "vulkan" Sample.vk Sample.valid_vuids
           Sample.getVUID 5).
  vm_compute. reflexivity.
Defined.

Lemma unknown_target_no_source_witness :
  generateSource "vulkansc" Sample.vk Sample.valid_vuids Sample.getVUID 5
  = Raise UnboundLocalError.
Proof.
  apply unknown_target_no_source. reflexivity.
Defined.

Lemma structContainsObject_holds_handle_witness :
  true = true <-> holds_handle Sample.vk Sample.VkGraphicsPipelineCreateInfo.
Proof.
  apply (structContainsObject_holds_handle Sample.vk 2). reflexivity.
Defined.

Lemma self_reference_not_followed_witness :
  structContainsObject Sample.nested_vk 1 Sample.VkBaseInStructure = Ok false.
Proof.
  apply self_reference_not_followed.
  intros m [<-|[<-|[]]]; (split; [reflexivity|]); [left | right]; reflexivity.
Defined.

Lemma mutual_reference_never_returns_witness :
  structContainsObject Sample.nested_vk 9 Sample.VkPingEXT
  = Raise RecursionError
  /\ structContainsObject Sample.nested_vk 9 Sample.VkPongEXT
     = Raise RecursionError.
Proof.
  apply (mutual_reference_never_returns Sample.nested_vk
           Sample.VkPingEXT Sample.VkPongEXT
           (Sample.pointer "pPong" "VkPongEXT")
           (Sample.pointer "pPing" "VkPingEXT")
           [Sample.value "flags" "VkFlags"] []);
    try reflexivity; discriminate.
Defined.

Lemma generateFunctionBody_errors_witness :
  IndexError = RecursionError
  \/ (IndexError = IndexError
      /\ List.length (Command.params Sample.vkCreateLoneEXT) < 2).
Proof.
  apply (generateFunctionBody_errors "vulkan" Sample.vk Sample.valid_vuids
           Sample.getVUID 5 Sample.vkCreateLoneEXT).
  reflexivity.
Defined.

Lemma lone_created_parameter_raises_witness :
  generateFunctionBody "vulkan" Sample.vk Sample.valid_vuids Sample.getVUID 5
    Sample.vkCreateLoneEXT
  = Raise IndexError.
Proof.
  apply (lone_created_parameter_raises "vulkan" Sample.vk Sample.valid_vuids
           Sample.getVUID 4 Sample.vkCreateLoneEXT
           (Sample.pointer "pFence" "VkFence")); reflexivity.
Defined.

Lemma self_nested_walk_never_returns_witness :
  validateObjects Sample.nested_vk Sample.valid_vuids Sample.getVUID 6
    [Sample.device; Sample.pointer "pChain" "VkImageChainEXT"] PTop 0
    "vkCmdChainEXT" "vkCmdChainEXT" "error_obj.location" false
  = Raise RecursionError.
Proof.
  apply (self_nested_walk_never_returns Sample.nested_vk Sample.valid_vuids
           Sample.getVUID Sample.VkImageChainEXT Sample.pNextImage 6
           [Sample.device; Sample.pointer "pChain" "VkImageChainEXT"] PTop 0
           "vkCmdChainEXT" "vkCmdChainEXT" "error_obj.location" false
           Sample.device (Sample.pointer "pChain" "VkImageChainEXT")).
  - reflexivity.
  - right. left. reflexivity.
  - reflexivity.
  - apply (holds_direct Sample.nested_vk Sample.VkImageChainEXT
             (Sample.value "image" "VkImage")); [left|]; reflexivity.
  - reflexivity.
  - right. left. reflexivity.
  - reflexivity.
  - reflexivity.
Defined.

Lemma walk_only_validates_handles_witness :
  Forall (validates_handle Sample.vk)
    (flat_map calls_of (Sample.walk_of Sample.vkQueueSubmit)).
Proof.
  apply (walk_only_validates_handles Sample.vk Sample.valid_vuids
           Sample.getVUID 5 (Command.params Sample.vkQueueSubmit) PTop 0
           (Command.name Sample.vkQueueSubmit)
           (Command.name Sample.vkQueueSubmit) "error_obj.location" false).
  vm_compute. reflexivity.
Defined.

Lemma walk_param_vuids_known_witness :
  Forall (known_param_vuid Sample.valid_vuids)
    (flat_map calls_of (Sample.walk_of Sample.vkDestroyFence)).
Proof.
  apply (walk_param_vuids_known Sample.vk Sample.valid_vuids
           Sample.getVUID 5 (Command.params Sample.vkDestroyFence) PTop 0
           (Command.name Sample.vkDestroyFence)
           (Command.name Sample.vkDestroyFence) "error_obj.location" false).
  vm_compute. reflexivity.
Defined.


Lemma post_call_record_well_formed_witness :
  forallb (scoped []) (Sample.post_call_record Sample.vkCreateGraphicsPipelines)
  && forallb (flow_closed false)
       (Sample.post_call_record Sample.vkCreateGraphicsPipelines)
  = true.
Proof.
  apply (post_call_record_well_formed "vulkan" Sample.vk Sample.valid_vuids
           Sample.getVUID 5 Sample.vkCreateGraphicsPipelines
           (Sample.pre_call_validate Sample.vkCreateGraphicsPipelines)
           (Sample.pre_call_record Sample.vkCreateGraphicsPipelines)
           (Sample.post_call_record Sample.vkCreateGraphicsPipelines)
           (Sample.array "pPipelines" "VkPipeline" "createInfoCount"));
    vm_compute; reflexivity.
Defined.

Lemma untouched_command_not_intercepted_witness :
  generateIntercept "vulkan" Sample.vk Sample.valid_vuids Sample.getVUID 1
    Sample.vkEnumerateInstanceVersion
  = Ok (mkIntercept None None None).
Proof.
  apply untouched_command_not_intercepted.
  - discriminate.
  - reflexivity.
  - intros m [<-|[]]. split; [reflexivity|]. split; [discriminate|].
    intros s H. discriminate H.
Defined.

Lemma single_creation_records_witness :
  exists body,
    PostCallRecord (Sample.intercept Sample.vkCreateFence) = Some body
    /\ run_function Sample.fence_env 0 body
       = Some [CreateObject (VInt 7) "kVulkanObjectTypeFence" (VPtr None)].
Proof.
  apply (single_creation_records "vulkan" Sample.vk Sample.valid_vuids
           Sample.getVUID 5 Sample.vkCreateFence
           (Sample.intercept Sample.vkCreateFence)
           (Sample.pointer "pFence" "VkFence") Sample.pAllocator
           Sample.fence_env 0 (VInt 7) (VPtr None) []);
    vm_compute; reflexivity.
Defined.

Lemma device_groups_recorded_witness :
  run_function Sample.groups_env (code_value VK_INCOMPLETE)
    (Sample.post_call_record Sample.vkEnumeratePhysicalDeviceGroups)
  = Some [PostCallRecordEnumeratePhysicalDevices (VInt 1)
            (VPtr (Some [VInt 2])) (VPtr (Some [VInt 41; VInt 42]))
            (code_value VK_SUCCESS);
          PostCallRecordEnumeratePhysicalDevices (VInt 1)
            (VPtr (Some [VInt 1])) (VPtr (Some [VInt 43]))
            (code_value VK_SUCCESS)]%Z.
Proof.
  apply (device_groups_recorded "vulkan" Sample.vk Sample.valid_vuids
           Sample.getVUID 5 Sample.vkEnumeratePhysicalDeviceGroups
           (Sample.pre_call_validate Sample.vkEnumeratePhysicalDeviceGroups)
           (Sample.pre_call_record Sample.vkEnumeratePhysicalDeviceGroups)
           (Sample.post_call_record Sample.vkEnumeratePhysicalDeviceGroups)
           (Sample.optional_array "pPhysicalDeviceGroupProperties"
              "VkPhysicalDeviceGroupProperties" "pPhysicalDeviceGroupCount")
           (Sample.pointer "pPhysicalDeviceGroupCount" "uint32_t")
           (Sample.value "instance" "VkInstance")
           Sample.groups_env (code_value VK_INCOMPLETE) (VInt 1)
           Sample.groups 2);
    try (vm_compute; reflexivity).
Defined.

Lemma destroyed_handle_validated_first_witness :
  exists w allocator compat null e,
    Sample.pre_call_validate Sample.vkDestroyFence
    = (w ++ [SCall (CallValidateDestroyObject (EVar "fence")
                      (kVulkanObjectType "VkFence") allocator compat null)])%list
    /\ In e (validate_targets w)
    /\ root e = Some "fence".
Proof.
  apply (destroyed_handle_validated_first "vulkan" Sample.vk Sample.valid_vuids
           Sample.getVUID 5 Sample.vkDestroyFence
           (Sample.pre_call_validate Sample.vkDestroyFence)
           (Sample.pre_call_record Sample.vkDestroyFence)
           (Sample.post_call_record Sample.vkDestroyFence)
           false Sample.fence Sample.device);
    vm_compute; reflexivity.
Defined.


Lemma header_needs_calling_convention_witness :
  declare "vulkan" Sample.vk Sample.valid_vuids Sample.getVUID
    (fun c => Command.name c ++ "();") Sample.protect 5 Sample.vkDestroyFence
  = Raise IndexError
  <-> contains "VKAPI_CALL " (Command.name Sample.vkDestroyFence ++ "();")
      = false.
Proof.
  apply (header_needs_calling_convention "vulkan" Sample.vk Sample.valid_vuids
           Sample.getVUID (fun c => Command.name c ++ "();") Sample.protect 5
           Sample.vkDestroyFence
           (Sample.pre_call_validate Sample.vkDestroyFence,
            Sample.pre_call_record Sample.vkDestroyFence,
            Sample.post_call_record Sample.vkDestroyFence)).
  vm_compute. reflexivity.
Defined.

Lemma header_appends_the_object_witness :
  declareValidate Sample.vkDestroyFence
    ("DestroyFence(VkDevice device, VkFence fence" ++ ")")
  = "bool PreCallValidate" ++ "DestroyFence(VkDevice device, VkFence fence"
      ++ error_obj_param ++ " const" ++ terminator Sample.vkDestroyFence
  /\ declarePostRecord Sample.vkDestroyFence
       ("DestroyFence(VkDevice device, VkFence fence" ++ ")")
     = "void PostCallRecord" ++ "DestroyFence(VkDevice device, VkFence fence"
         ++ record_obj_param ++ terminator Sample.vkDestroyFence.
Proof.
  apply header_appends_the_object. reflexivity.
Defined.

Lemma generateFunctionBody_budget_free_witness :
  generateFunctionBody "vulkan" Sample.vk Sample.valid_vuids Sample.getVUID
    (4 + 3) Sample.vkCreateGraphicsPipelines
  = Ok (Sample.pre_call_validate Sample.vkCreateGraphicsPipelines,
        Sample.pre_call_record Sample.vkCreateGraphicsPipelines,
        Sample.post_call_record Sample.vkCreateGraphicsPipelines).
Proof.
  apply generateFunctionBody_budget_free. vm_compute. reflexivity.
Defined.

Lemma handle_array_visited_witness :
  run_block Sample.fences_env 0 []
    (validateHandle Sample.vk Sample.valid_vuids Sample.getVUID
       (Command.params Sample.vkResetFences) Sample.device PTop "index0"
       "vkResetFences" "vkResetFences" "error_obj.location"
       (Sample.array "pFences" "VkFence" "fenceCount"))
  = Some (map (fun h =>
                 ValidateObject h (kVulkanObjectType "VkFence")
                   (nullAllowed (Sample.array "pFences" "VkFence" "fenceCount"))
                   (paramVUID Sample.vk Sample.valid_vuids "vkResetFences"
                      (Sample.array "pFences" "VkFence" "fenceCount"))
                   (parentVUID Sample.vk Sample.valid_vuids Sample.getVUID
                      (Command.params Sample.vkResetFences) Sample.device
                      "vkResetFences" "vkResetFences"
                      (Sample.array "pFences" "VkFence" "fenceCount"))
                   ("error_obj.location" ++ ".dot(Field::" ++ "pFences" ++ ", "
                      ++ "index0" ++ ")"))
            (firstn 2 [VInt 7; VInt 8]%Z), Next).
Proof.
  apply (handle_array_visited Sample.vk Sample.valid_vuids Sample.getVUID
           (Command.params Sample.vkResetFences) Sample.device PTop "index0"
           "vkResetFences" "vkResetFences" "error_obj.location"
           (Sample.array "pFences" "VkFence" "fenceCount") "fenceCount"
           Sample.fences_env 0 [] 2 [VInt 7; VInt 8]%Z);
    first [reflexivity | simpl; lia].
Defined.

Lemma walk_follows_member_order_witness :
  exists o1 o2 o3,
    Sample.walk_of Sample.vkDestroyFence
    = (o1 ++ validateHandle Sample.vk Sample.valid_vuids Sample.getVUID
               (Command.params Sample.vkDestroyFence) Sample.device PTop
               ("index" ++ str_nat 0) "vkDestroyFence" "vkDestroyFence"
               "error_obj.location" Sample.device
          ++ o2
          ++ validateHandle Sample.vk Sample.valid_vuids Sample.getVUID
               (Command.params Sample.vkDestroyFence) Sample.device PTop
               ("index" ++ str_nat 0) "vkDestroyFence" "vkDestroyFence"
               "error_obj.location" Sample.fence
          ++ o3)%list.
Proof.
  apply (walk_follows_member_order Sample.vk Sample.valid_vuids Sample.getVUID
           5 [] [] [Sample.pAllocator] Sample.device Sample.fence Sample.device
           PTop 0 "vkDestroyFence" "vkDestroyFence" "error_obj.location" false);
    vm_compute; reflexivity.
Defined.
